(** * FreeWX (fwx): the sample pipeline of a Davis weather-station logger

    A shallow embedding of fwx.c, support.c, fwx.h and davis.h, and the
    properties of the device protocol engine, the LOOP record decoder, the
    derived metrics and the uplink encoders. *)

From Stdlib Require Import ZArith List Bool Lia String Ascii.
From Stdlib Require Import SpecFloat DecimalString.
From stdpp Require Import base list.
Import ListNotations.

Local Open Scope Z_scope.

(** ** C integers

    [int] is a 32-bit two's complement integer on the supported platforms.
    The arithmetic is written over [Z]; [sint32] is the wrap-around that an
    [int] store applies. *)

Definition sint32 (z : Z) : Z := (z + 2^31) mod 2^32 - 2^31.

(** An [int16_t] object read out of two little-endian bytes. *)
Definition sint16 (z : Z) : Z := (z + 2^15) mod 2^16 - 2^15.

(** ** fwx.h: wind observations *)

Record wind_t := mk_wind { speed : Z; direction : Z }.

Definition wind_zero : wind_t := mk_wind 0 0.

(** ** fwx.c: wxcalcwindgust

    The function keeps four [static] variables; they are the tracker state
    threaded through every call.  [warr] is the heap array (empty before
    the first successful [malloc]). *)

Record gust_state := mk_gust
  { warr : list wind_t; walen : Z; waidx : Z; tenmin : Z }.

Definition gust_state0 : gust_state :=
  {| warr := []; walen := 0; waidx := 0; tenmin := 0 |}.

(** [do { walen <<= 1; } while (i >>= 1);]  The loop does not terminate for
    a negative [i] (the arithmetic shift sticks at -1), hence the fuel. *)
Fixpoint walen_loop (fuel : nat) (wl i : Z) : option Z :=
  match fuel with
  | O => None
  | S fuel' =>
      let wl' := sint32 (Z.shiftl wl 1) in
      let i' := Z.shiftr i 1 in
      if i' =? 0 then Some wl' else walen_loop fuel' wl' i'
  end.

(** [i = tenmin = 10 * 60 / fwxinterval + 1; walen = 1; do ... while ...]
    The division traps when the interval is zero: no result. *)
Definition gust_sizing (fuel : nat) (fwxinterval : Z) : option (Z * Z) :=
  if fwxinterval =? 0 then None
  else
    let tm := sint32 (Z.quot (10 * 60) fwxinterval + 1) in
    match walen_loop fuel 1 tm with
    | Some wl => Some (tm, wl)
    | None => None
    end.

(** [warr[idx]]: the array has [walen] elements and every index the
    function computes is masked with [walen - 1]. *)
Definition warr_get (a : list wind_t) (idx : Z) : wind_t :=
  default wind_zero (a !! Z.to_nat idx).

(** The body of the scan loop, for one value of [i].  The accumulator is
    [(gust, found)]; [found] is an uninitialised automatic variable, so it
    is [None] until the first assignment. *)
Definition scan_step (a : list wind_t) (wl f : Z)
    (acc : Z * option Z) (i : Z) : Z * option Z :=
  let idx := Z.land (f + i) (wl - 1) in
  if (speed (warr_get a idx) >? fst acc)
  then (speed (warr_get a idx), Some idx)
  else acc.

(** [for (i = 0; i < tenmin; ++i)] *)
Definition scan_range (tm : Z) : list Z :=
  map Z.of_nat (seq 0 (Z.to_nat tm)).

Definition scan (a : list wind_t) (wl tm f : Z) : Z * option Z :=
  fold_left (scan_step a wl f) (scan_range tm) (0, None).

(** What a call hands back: the null pointer, or [&warr[found]] together
    with the state of [found] when it is read. *)
Inductive gust_ret :=
| GustNull
| GustSlot (found : option Z).

(** The part of the function after the lazy initialisation.  [waidx] is
    masked on every call, so the store stays inside the array. *)
Definition gust_record (st : gust_state) (wp : wind_t)
    : gust_state * gust_ret :=
  let a := <[Z.to_nat (waidx st) := wp]> (warr st) in
  let idx' := Z.land (waidx st + 1) (walen st - 1) in
  let f := Z.land (idx' + (walen st - tenmin st)) (walen st - 1) in
  ({| warr := a; walen := walen st; waidx := idx'; tenmin := tenmin st |},
   GustSlot (snd (scan a (walen st) (tenmin st) f))).

(** [wxcalcwindgust].  [malloc_ok] says whether the allocation of the first
    call succeeds; the result is [None] when the sizing has no result. *)
Definition wxcalcwindgust (fuel : nat) (fwxinterval : Z) (malloc_ok : bool)
    (st : gust_state) (wp : wind_t) : option (gust_state * gust_ret) :=
  if walen st =? 0 then
    match gust_sizing fuel fwxinterval with
    | None => None
    | Some (tm, wl) =>
        if malloc_ok then
          Some (gust_record
                  {| warr := replicate (Z.to_nat wl) wind_zero;
                     walen := wl; waidx := waidx st; tenmin := tm |} wp)
        else
          Some ({| warr := []; walen := 0; waidx := waidx st; tenmin := tm |},
                GustNull)
    end
  else Some (gust_record st wp).

(** The observation a returned pointer designates; nothing is known about
    it when [found] was never assigned. *)
Definition gust_deref (st : gust_state) (r : gust_ret) : option wind_t :=
  match r with
  | GustNull => None
  | GustSlot None => None
  | GustSlot (Some idx) => Some (warr_get (warr st) idx)
  end.

(** ** C floating point

    [float] objects are IEEE binary32 values and the arithmetic on [double]
    is binary64, both rounding to nearest even; [spec_float] carries either.
    A value stored into a [float] variable is rounded by [to_f32]. *)

Definition f32_of_Z (z : Z) : spec_float := binary_normalize 24 128 z 0 false.
Definition f64_of_Z (z : Z) : spec_float := binary_normalize 53 1024 z 0 false.

Definition to_f32 (x : spec_float) : spec_float :=
  match x with
  | S754_finite s m e => binary_normalize 24 128 (cond_Zopp s (Zpos m)) e s
  | _ => x
  end.

Definition to_f64 (x : spec_float) : spec_float :=
  match x with
  | S754_finite s m e => binary_normalize 53 1024 (cond_Zopp s (Zpos m)) e s
  | _ => x
  end.

Definition f32_div : spec_float -> spec_float -> spec_float := SFdiv 24 128.
Definition f64_add : spec_float -> spec_float -> spec_float := SFadd 53 1024.
Definition f64_sub : spec_float -> spec_float -> spec_float := SFsub 53 1024.
Definition f64_mul : spec_float -> spec_float -> spec_float := SFmul 53 1024.
Definition f64_div : spec_float -> spec_float -> spec_float := SFdiv 53 1024.

(** A decimal [double] literal [n / d], correctly rounded. *)
Definition f64_lit (n d : Z) : spec_float := f64_div (f64_of_Z n) (f64_of_Z d).

Definition f_isnan (x : spec_float) : bool :=
  match x with S754_nan => true | _ => false end.

(** [exp] and [log] belong to the C library, not to the repository: the
    decoder and the dewpoint computation take them as a parameter. *)
Record libm := mk_libm
  { m_exp : spec_float -> spec_float; m_log : spec_float -> spec_float }.

(** ** printf conversions *)

Definition string_of_Z (z : Z) : string :=
  NilZero.string_of_int (Z.to_int z).

Fixpoint zeros (n : nat) : string :=
  match n with
  | O => EmptyString
  | S n' => String "0" (zeros n')
  end.

(** Zero padding on the left up to a width, as [%0<w>d] does. *)
Definition pad_zeros (w : nat) (s : string) : string :=
  (zeros (w - String.length s) ++ s)%string.

(** [m * 2^e * 10^places], rounded to the nearest integer, ties to even. *)
Definition scaled_round (m : positive) (e : Z) (places : nat) : Z :=
  let num := Zpos m * 10 ^ Z.of_nat places in
  if 0 <=? e then num * 2 ^ e
  else
    let den := 2 ^ (- e) in
    let q := num / den in
    let r := num mod den in
    match Z.compare (2 * r) den with
    | Lt => q
    | Gt => q + 1
    | Eq => if Z.even q then q else q + 1
    end.

Definition fixed_digits (n : Z) (places : nat) : string :=
  let p := 10 ^ Z.of_nat places in
  match places with
  | O => string_of_Z n
  | _ => (string_of_Z (n / p) ++ "."
           ++ pad_zeros places (string_of_Z (n mod p)))%string
  end.

(** [%.<places>f] *)
Definition fmt_f (places : nat) (x : spec_float) : string :=
  match x with
  | S754_nan => "nan"
  | S754_infinity s => if s then "-inf" else "inf"
  | S754_zero s => ((if s then "-" else "") ++ fixed_digits 0 places)%string
  | S754_finite s m e =>
      ((if s then "-" else "")
         ++ fixed_digits (scaled_round m e places) places)%string
  end.

(** The line ends of the serial protocol and of the uplinks. *)
Definition newline : string := String (ascii_of_nat 10) EmptyString.
Definition crlf : string :=
  String (ascii_of_nat 13) (String (ascii_of_nat 10) EmptyString).

(** [%d] and [%ld] *)
Definition fmt_d (z : Z) : string :=
  if z <? 0 then ("-" ++ string_of_Z (- z))%string else string_of_Z z.

(** ** fwx.h: measurement fields

    [wxd_t] pairs a datum with its flags and its unit string.  The datum is
    a C union; every field of [wxdat_t] is written and read through one
    member only ([floatd], or [intd] for the solar radiation), which is the
    type parameter here.  [units] is [None] for the null pointer. *)

Record wxd_t (A : Type) := mk_wxd
  { dat : A; flags : Z; units : option string }.
Arguments mk_wxd {A}.
Arguments dat {A}.
Arguments flags {A}.
Arguments units {A}.

Definition WXD_INVALID : Z := 0x0000.
Definition WXD_VALID : Z := 0x0010.
Definition WXD_METRIC : Z := 0x0100.
Definition WXD_ENGLISH : Z := 0x0200.

Definition WXD_ISVALID {A} (x : wxd_t A) : Z := Z.land (flags x) WXD_VALID.
Definition WXD_ISMETRIC {A} (x : wxd_t A) : Z := Z.land (flags x) WXD_METRIC.
Definition WXD_ISENGLISH {A} (x : wxd_t A) : Z := Z.land (flags x) WXD_ENGLISH.
Definition WXD_GVPLACES {A} (x : wxd_t A) : Z := Z.land (flags x) 0x0f.

(** A C condition: non-zero is true. *)
Definition truthy (z : Z) : bool := negb (z =? 0).

(** The sample.  [windgust] is [None] when its contents are indeterminate
    (a sample that was neither cleared nor filled by the decoder).  fwx.c
    reads and writes [solar] throughout; the struct has it although the
    copy of fwx.h at hand stops at [rainyear]. *)
Record wxdat_t := mk_wxdat
  { time : Z;
    windcur : wind_t;
    windavg : wind_t;
    windgust : option wind_t;
    barometer : wxd_t spec_float;
    windspeed : wxd_t spec_float;
    winddir : wxd_t spec_float;
    avgwindspeed : wxd_t spec_float;
    avgwindspeedinterval : wxd_t spec_float;
    indoortemp : wxd_t spec_float;
    outdoortemp : wxd_t spec_float;
    indoorhum : wxd_t spec_float;
    outdoorhum : wxd_t spec_float;
    outdoordewpoint : wxd_t spec_float;
    rainrate : wxd_t spec_float;
    rainday : wxd_t spec_float;
    rainmonth : wxd_t spec_float;
    rainyear : wxd_t spec_float;
    solar : wxd_t Z }.


(** [memset((void * )&wxdat, 0, sizeof(wxdat_t)); wxdat.time = ...] in main. *)
Definition wxd_zero_f : wxd_t spec_float := mk_wxd (S754_zero false) 0 None.
Definition wxd_zero_i : wxd_t Z := mk_wxd 0 0 None.

Definition wxdat_zero (t : Z) : wxdat_t :=
  {| time := t;
     windcur := wind_zero;
     windavg := wind_zero;
     windgust := Some wind_zero;
     barometer := wxd_zero_f;
     windspeed := wxd_zero_f;
     winddir := wxd_zero_f;
     avgwindspeed := wxd_zero_f;
     avgwindspeedinterval := wxd_zero_f;
     indoortemp := wxd_zero_f;
     outdoortemp := wxd_zero_f;
     indoorhum := wxd_zero_f;
     outdoorhum := wxd_zero_f;
     outdoordewpoint := wxd_zero_f;
     rainrate := wxd_zero_f;
     rainday := wxd_zero_f;
     rainmonth := wxd_zero_f;
     rainyear := wxd_zero_f;
     solar := wxd_zero_i |}.

(** Stores into a field of the sample. *)
Definition set_barometer (v : wxd_t spec_float) (w : wxdat_t) : wxdat_t :=
  {| time := time w;
     windcur := windcur w;
     windavg := windavg w;
     windgust := windgust w;
     barometer := v;
     windspeed := windspeed w;
     winddir := winddir w;
     avgwindspeed := avgwindspeed w;
     avgwindspeedinterval := avgwindspeedinterval w;
     indoortemp := indoortemp w;
     outdoortemp := outdoortemp w;
     indoorhum := indoorhum w;
     outdoorhum := outdoorhum w;
     outdoordewpoint := outdoordewpoint w;
     rainrate := rainrate w;
     rainday := rainday w;
     rainmonth := rainmonth w;
     rainyear := rainyear w;
     solar := solar w |}.

Definition set_outdoortemp (v : wxd_t spec_float) (w : wxdat_t) : wxdat_t :=
  {| time := time w;
     windcur := windcur w;
     windavg := windavg w;
     windgust := windgust w;
     barometer := barometer w;
     windspeed := windspeed w;
     winddir := winddir w;
     avgwindspeed := avgwindspeed w;
     avgwindspeedinterval := avgwindspeedinterval w;
     indoortemp := indoortemp w;
     outdoortemp := v;
     indoorhum := indoorhum w;
     outdoorhum := outdoorhum w;
     outdoordewpoint := outdoordewpoint w;
     rainrate := rainrate w;
     rainday := rainday w;
     rainmonth := rainmonth w;
     rainyear := rainyear w;
     solar := solar w |}.

Definition set_outdoordewpoint (v : wxd_t spec_float) (w : wxdat_t) : wxdat_t :=
  {| time := time w;
     windcur := windcur w;
     windavg := windavg w;
     windgust := windgust w;
     barometer := barometer w;
     windspeed := windspeed w;
     winddir := winddir w;
     avgwindspeed := avgwindspeed w;
     avgwindspeedinterval := avgwindspeedinterval w;
     indoortemp := indoortemp w;
     outdoortemp := outdoortemp w;
     indoorhum := indoorhum w;
     outdoorhum := outdoorhum w;
     outdoordewpoint := v;
     rainrate := rainrate w;
     rainday := rainday w;
     rainmonth := rainmonth w;
     rainyear := rainyear w;
     solar := solar w |}.

(** ** davis.h: the LOOP record

    [vploopdata_t] is a packed struct of 99 bytes filled by a read from the
    station; a record is the list of its bytes.  Fields are read at their
    packed offsets; the build does not define SWAP_DAVIS_DATA, so
    [get_d_8] and [get_d_16] are the identity and a 16-bit field is the
    little-endian value of its two bytes. *)

Definition VPLOOPSIZE : Z := 99.

Definition ld_byte (ld : list Z) (off : nat) : Z := nth off ld 0.
Definition ld_u8 (ld : list Z) (off : nat) : Z := ld_byte ld off.
Definition ld_u16 (ld : list Z) (off : nat) : Z :=
  ld_byte ld off + 256 * ld_byte ld (S off).
Definition ld_i16 (ld : list Z) (off : nat) : Z := sint16 (ld_u16 ld off).

(** The fields of [vploopdata_t] that fwx reads, as the struct members
    deliver them ([uint16_t], [uint8_t], and [int16_t] for the two
    temperatures). *)
Record vploopdata_t := mk_vploop
  { bar : Z; tempIn : Z; humIn : Z; tempOut : Z; windSpeed : Z;
    windSpeed10 : Z; windDir : Z; humOut : Z; rainRate : Z; solarRad : Z;
    rainDay : Z; rainMonth : Z; rainYear : Z }.

(** The cast of the receive buffer to [vploopdata_t *]: each member at its
    packed offset. *)
Definition vploop_of_bytes (b : list Z) : vploopdata_t :=
  {| bar := ld_u16 b 7;
     tempIn := ld_i16 b 9;
     humIn := ld_u8 b 11;
     tempOut := ld_i16 b 12;
     windSpeed := ld_u8 b 14;
     windSpeed10 := ld_u8 b 15;
     windDir := ld_u16 b 16;
     humOut := ld_u8 b 33;
     rainRate := ld_u16 b 41;
     solarRad := ld_u16 b 44;
     rainDay := ld_u16 b 50;
     rainMonth := ld_u16 b 52;
     rainYear := ld_u16 b 54 |}.

(** The two checksum bytes that close the record. *)
Definition ld_crc_hi (b : list Z) : Z := ld_byte b 97.
Definition ld_crc_lo (b : list Z) : Z := ld_byte b 98.

Definition EIGHT_ONES : Z := 0xff.
Definition SIXTEEN_ONES : Z := 0xffff.

(** ** fwx.c: wxcalcdewpoint *)

(** [temp = (temp - 32.0) * 5.0 / 9.0;] *)
Definition celsius_of_fahrenheit (temp : spec_float) : spec_float :=
  to_f32 (f64_div (f64_mul (f64_sub (to_f64 temp) (f64_of_Z 32))
                           (f64_of_Z 5)) (f64_of_Z 9)).

(** [dewpoint = (dewpoint * 9.0) / 5.0 + 32.0;] *)
Definition fahrenheit_of_celsius (dewpoint : spec_float) : spec_float :=
  to_f32 (f64_add (f64_div (f64_mul (to_f64 dewpoint) (f64_of_Z 9))
                           (f64_of_Z 5)) (f64_of_Z 32)).

(** [ews = hum * 0.01 * 6.112 * exp((17.62 * temp)/(243.12 + temp));] *)
Definition sonntag_ews (lm : libm) (temp hum : spec_float) : spec_float :=
  to_f32 (f64_mul
            (f64_mul (f64_mul (to_f64 hum) (f64_lit 1 100))
                     (f64_lit 6112 1000))
            (m_exp lm (f64_div (f64_mul (f64_lit 1762 100) (to_f64 temp))
                               (f64_add (f64_lit 24312 100)
                                        (to_f64 temp))))).

(** [dewpoint = (243.12 * log(ews) - 440.1 ) / (19.43 - log(ews));] *)
Definition sonntag (lm : libm) (temp hum : spec_float) : spec_float :=
  let ews := sonntag_ews lm temp hum in
  to_f32 (f64_div
            (f64_sub (f64_mul (f64_lit 24312 100) (m_log lm (to_f64 ews)))
                     (f64_lit 4401 10))
            (f64_sub (f64_lit 1943 100) (m_log lm (to_f64 ews)))).

Definition wxcalcdewpoint (lm : libm) (w : wxdat_t) : wxdat_t :=
  if negb (truthy (WXD_ISVALID (outdoortemp w)))
     || negb (truthy (WXD_ISVALID (outdoorhum w)))
  then w
  else
    let temp0 := dat (outdoortemp w) in
    let hum := dat (outdoorhum w) in
    let english := truthy (Z.land (flags (outdoorhum w)) WXD_ENGLISH) in
    let temp := if english then celsius_of_fahrenheit temp0 else temp0 in
    let dewpoint := sonntag lm temp hum in
    if f_isnan dewpoint then w
    else if english then
      set_outdoordewpoint
        (mk_wxd (fahrenheit_of_celsius dewpoint)
                (Z.lor (Z.lor WXD_VALID WXD_ENGLISH) 1)
                (Some "deg F"%string)) w
    else
      set_outdoordewpoint
        (mk_wxd dewpoint (Z.lor (Z.lor WXD_VALID WXD_METRIC) 1)
                (Some "deg C"%string)) w.

(** ** fwx.c: cvtvploop2fwx *)

(** [WXD_SETUNITS(x, u); if (cond) { WXD_SETDAT(x, v); WXD_SETFLAGS(x, fl); }] *)
Definition cvt_field {A} (u : string) (cond : bool) (v : A) (fl : Z)
    (x : wxd_t A) : wxd_t A :=
  {| dat := if cond then v else dat x;
     flags := if cond then fl else flags x;
     units := Some u |}.

Definition set_speed (v : Z) (x : wind_t) : wind_t := mk_wind v (direction x).
Definition set_direction (v : Z) (x : wind_t) : wind_t := mk_wind (speed x) v.

(** The temperature test of the decoder. *)
Definition temp_ok (stmp : Z) : bool :=
  negb (stmp =? 0x1000) && (stmp >? -1500) && (stmp <? 1500).

(** The stores into [windcur] and [windavg]. *)
Definition cvt_windcur (ld : vploopdata_t) (wc : wind_t) : wind_t :=
  let wc := if negb (windSpeed ld =? EIGHT_ONES)
            then set_speed (windSpeed ld) wc else wc in
  if windDir ld <=? 360 then set_direction (windDir ld) wc else wc.

Definition cvt_windavg (ld : vploopdata_t) (wa : wind_t) : wind_t :=
  if negb (windSpeed10 ld =? EIGHT_ONES)
  then set_speed (windSpeed10 ld) wa else wa.

(** The stores of [cvtvploop2fwx].  The function stores into one field of
    the sample after the other; no store reads a field written by another
    one, except that the gust tracker is given the current wind and the
    dewpoint is computed last.  The sample is therefore written here as the
    record of what each field ends up with, followed by [wxcalcdewpoint].
    [wc] is the current wind after its stores and [wgust] the gust after
    the [memcpy], or as it was when the tracker handed back the null
    pointer. *)
Definition cvt_fields (lm : libm) (ld : vploopdata_t) (wc : wind_t)
    (wgust : option wind_t) (w : wxdat_t) : wxdat_t :=
  wxcalcdewpoint lm
  {| time := time w;
     windcur := wc;
     windavg := cvt_windavg ld (windavg w);
     windgust := wgust;
     barometer :=
       cvt_field "in" (negb (bar ld =? SIXTEEN_ONES))
         (f32_div (f32_of_Z (bar ld)) (f32_of_Z 1000))
         (Z.lor (Z.lor WXD_VALID WXD_ENGLISH) 3) (barometer w);
     windspeed :=
       cvt_field "mph" (negb (windSpeed ld =? EIGHT_ONES))
         (f32_of_Z (windSpeed ld))
         (Z.lor (Z.lor WXD_VALID WXD_ENGLISH) 0) (windspeed w);
     winddir :=
       cvt_field "deg" (windDir ld <=? 360)
         (f32_of_Z (windDir ld)) (Z.lor WXD_VALID 0) (winddir w);
     avgwindspeed :=
       cvt_field "mph" (negb (windSpeed10 ld =? EIGHT_ONES))
         (f32_of_Z (windSpeed10 ld))
         (Z.lor (Z.lor WXD_VALID WXD_ENGLISH) 0) (avgwindspeed w);
     avgwindspeedinterval :=
       cvt_field "min" (negb (windSpeed10 ld =? EIGHT_ONES))
         (f32_of_Z 10) (Z.lor WXD_VALID 0) (avgwindspeedinterval w);
     indoortemp :=
       cvt_field "deg F" (temp_ok (tempIn ld))
         (f32_div (f32_of_Z (tempIn ld)) (f32_of_Z 10))
         (Z.lor (Z.lor WXD_VALID WXD_ENGLISH) 1) (indoortemp w);
     outdoortemp :=
       cvt_field "deg F" (temp_ok (tempOut ld))
         (f32_div (f32_of_Z (tempOut ld)) (f32_of_Z 10))
         (Z.lor (Z.lor WXD_VALID WXD_ENGLISH) 1) (outdoortemp w);
     indoorhum :=
       cvt_field "%"
         (negb (humIn ld =? EIGHT_ONES) && (humIn ld <=? 100))
         (f32_of_Z (humIn ld)) (Z.lor WXD_VALID 0) (indoorhum w);
     outdoorhum :=
       cvt_field "%"
         (negb (humOut ld =? EIGHT_ONES) && (humOut ld <=? 100))
         (f32_of_Z (humOut ld)) (Z.lor WXD_VALID 0) (outdoorhum w);
     outdoordewpoint := outdoordewpoint w;
     rainrate :=
       cvt_field "in/hr" (negb (rainRate ld =? SIXTEEN_ONES))
         (f32_div (f32_of_Z (rainRate ld)) (f32_of_Z 100))
         (Z.lor (Z.lor WXD_VALID WXD_ENGLISH) 2) (rainrate w);
     rainday :=
       cvt_field "in" (negb (rainDay ld =? SIXTEEN_ONES))
         (f32_div (f32_of_Z (rainDay ld)) (f32_of_Z 100))
         (Z.lor (Z.lor WXD_VALID WXD_ENGLISH) 2) (rainday w);
     rainmonth :=
       cvt_field "in" (negb (rainMonth ld =? SIXTEEN_ONES))
         (f32_div (f32_of_Z (rainMonth ld)) (f32_of_Z 100))
         (Z.lor (Z.lor WXD_VALID WXD_ENGLISH) 2) (rainmonth w);
     rainyear :=
       cvt_field "in" (negb (rainYear ld =? SIXTEEN_ONES))
         (f32_div (f32_of_Z (rainYear ld)) (f32_of_Z 100))
         (Z.lor (Z.lor WXD_VALID WXD_ENGLISH) 2) (rainyear w);
     solar :=
       cvt_field "w/m2" (negb (solarRad ld =? SIXTEEN_ONES))
         (solarRad ld)
         (Z.lor (Z.lor WXD_VALID WXD_METRIC) 2) (solar w) |}.

(** [cvtvploop2fwx].  The result is [None] when the sizing of the tracker
    has no result, and when the tracker hands back [&warr[found]] with
    [found] never assigned: the [memcpy] through that pointer is undefined,
    and nothing is said about what the program does from there on. *)
Definition cvtvploop2fwx (lm : libm) (fuel : nat) (fwxinterval : Z)
    (malloc_ok : bool) (ld : vploopdata_t) (g : gust_state) (w : wxdat_t)
    : option (gust_state * wxdat_t) :=
  let wc := cvt_windcur ld (windcur w) in
  match wxcalcwindgust fuel fwxinterval malloc_ok g wc with
  | None => None
  | Some (g', GustNull) => Some (g', cvt_fields lm ld wc (windgust w) w)
  | Some (g', GustSlot None) => None
  | Some (g', GustSlot (Some idx)) =>
      Some (g', cvt_fields lm ld wc (Some (warr_get (warr g') idx)) w)
  end.

(** ** support.c: the serial device

    The station is reached through system calls.  An [oracle] fixes what
    each call answers, by the number of earlier calls of the same kind;
    [dev] counts the calls made so far and keeps the trace of what went
    over the line. *)

Record oracle := mk_oracle
  { o_time : nat -> Z;                 (* time() *)
    o_tcget : nat -> bool;             (* tcgetattr() succeeds *)
    o_tcset : nat -> bool;             (* tcsetattr() succeeds *)
    o_read : nat -> option (list Z);   (* read(): None is -1, else the bytes *)
    o_write : nat -> option Z;         (* write(): None is -1, else the count *)
    o_stack : nat -> Z }.              (* uninitialised automatic storage *)

Inductive event :=
| EvFlush
| EvWrite (bytes : list Z) (rc : Z)
| EvRead (want : Z) (vtime : Z) (got : option (list Z)).

Record dev := mk_dev
  { n_time : nat; n_tcget : nat; n_tcset : nat; n_read : nat;
    n_write : nat; n_stack : nat; c_vtime : Z; trace : list event }.

Definition dev0 : dev := mk_dev 0 0 0 0 0 0 0 [].

(** State passing with failure; [None] is a computation that has no result
    within the fuel of its loops. *)
Definition io (A : Type) : Type := dev -> option (A * dev).

Definition io_ret {A} (a : A) : io A := fun d => Some (a, d).
Definition io_bind {A B} (m : io A) (k : A -> io B) : io B :=
  fun d => match m d with
           | Some (a, d') => k a d'
           | None => None
           end.
Definition io_fail {A} : io A := fun _ => None.

Notation "x <- m ;; k" := (io_bind m (fun x => k))
  (at level 100, m at next level, right associativity).

Definition MAX_TIMEOUT : Z := 30.
Definition MAX_READ : Z := 256.
Definition ACK : Z := 0x06.
Definition CR : Z := 13.
Definition NL : Z := 10.

(** [memcpy] of [bs] into [buf] at offset [off]. *)
Definition store (buf : list Z) (off : nat) (bs : list Z) : list Z :=
  take off buf ++ bs ++ drop (off + length bs) buf.

Definition bytes_of_string (s : string) : list Z :=
  map (fun c => Z.of_N (N_of_ascii c)) (list_ascii_of_string s).

Section Serial.
Variable env : oracle.

Definition sys_time : io Z := fun d =>
  Some (o_time env (n_time d),
        mk_dev (S (n_time d)) (n_tcget d) (n_tcset d) (n_read d)
               (n_write d) (n_stack d) (c_vtime d) (trace d)).

Definition sys_tcgetattr : io bool := fun d =>
  Some (o_tcget env (n_tcget d),
        mk_dev (n_time d) (S (n_tcget d)) (n_tcset d) (n_read d)
               (n_write d) (n_stack d) (c_vtime d) (trace d)).

(** [tcsetattr]; [vt] is the VTIME of the new settings and [flush] tells
    TCSAFLUSH from TCSANOW. *)
Definition sys_tcsetattr (vt : Z) (flush : bool) : io bool := fun d =>
  let ok := o_tcset env (n_tcset d) in
  Some (ok,
        mk_dev (n_time d) (n_tcget d) (S (n_tcset d)) (n_read d)
               (n_write d) (n_stack d) (if ok then vt else c_vtime d)
               (if ok && flush then trace d ++ [EvFlush] else trace d)).

(** [read(fd, bufp, want)]: at most [want] bytes are delivered. *)
Definition sys_read (want : Z) : io (option (list Z)) := fun d =>
  let got := option_map (take (Z.to_nat want)) (o_read env (n_read d)) in
  Some (got,
        mk_dev (n_time d) (n_tcget d) (n_tcset d) (S (n_read d))
               (n_write d) (n_stack d) (c_vtime d)
               (trace d ++ [EvRead want (c_vtime d) got])).

(** [write(fd, bs, len)]: -1, or a count of at most [len]. *)
Definition sys_write (bs : list Z) : io Z := fun d =>
  let rc := match o_write env (n_write d) with
            | None => -1
            | Some n => Z.max 0 (Z.min n (Z.of_nat (length bs)))
            end in
  Some (rc,
        mk_dev (n_time d) (n_tcget d) (n_tcset d) (n_read d)
               (S (n_write d)) (n_stack d) (c_vtime d)
               (trace d ++ [EvWrite bs rc])).

(** An automatic array of [n] bytes, not initialised. *)
Definition alloca (n : nat) : io (list Z) := fun d =>
  Some (map (fun k => o_stack env (n_stack d + k)%nat) (seq 0 n),
        mk_dev (n_time d) (n_tcget d) (n_tcset d) (n_read d)
               (n_write d) (n_stack d + n)%nat (c_vtime d) (trace d)).

Definition wxsettimeout (timeout : Z) : io Z :=
  ok <- sys_tcgetattr ;;
  if negb ok then io_ret (-1)
  else
    ok' <- sys_tcsetattr ((timeout * 10) mod 256) false ;;
    if negb ok' then io_ret (-1) else io_ret 0.

Definition wxflush : io Z :=
  ok <- sys_tcgetattr ;;
  if negb ok then io_ret (-1)
  else fun d =>
    (ok' <- sys_tcsetattr (c_vtime d) true ;;
     if negb ok' then io_ret (-1) else io_ret 0) d.

(** The loop of [wxread]; [remaining] and [timeout] are its variables,
    the bytes received so far sit in [buf] from offset 0. *)
Fixpoint wxread_loop (fuel : nat) (expire : Z) (buf : list Z)
    (len remaining timeout : Z) : io (Z * list Z) :=
  match fuel with
  | O => io_fail
  | S fuel' =>
      if (remaining >? 0) && (timeout >? 0) then
        r <- wxsettimeout timeout ;;
        if r =? -1 then io_ret (-1, buf)
        else
          got <- sys_read remaining ;;
          match got with
          | None => io_ret (-1, buf)
          | Some bs =>
              now <- sys_time ;;
              wxread_loop fuel' expire
                (store buf (Z.to_nat (len - remaining)) bs) len
                (remaining - Z.of_nat (length bs))
                (sint32 (expire - now))
          end
      else io_ret (len - remaining, buf)
  end.

(** [wxread(fd, buf, len, timeout)]: the return value and the buffer. *)
Definition wxread (fuel : nat) (buf : list Z) (len timeout : Z)
    : io (Z * list Z) :=
  if (timeout <=? 0) || (timeout >? MAX_TIMEOUT) then io_ret (-1, buf)
  else if (len =? 0) || (len >? MAX_READ) then io_ret (-1, buf)
  else
    t <- sys_time ;;
    wxread_loop fuel (t + timeout) buf len len timeout.

Definition wxwakeup (fuel : nat) : io Z :=
  r <- wxflush ;;
  if negb (r =? 0) then io_ret (-1)
  else
    rc <- sys_write [NL] ;;
    if negb (rc =? 1) then io_ret (-1)
    else
      resp0 <- alloca 2 ;;
      r <- wxread fuel resp0 2 5 ;;
      let '(rr, resp) := r in
      if rr =? -1 then io_ret (-1)
      else
        if (negb (nth 0 resp 0 =? CR) && negb (nth 1 resp 0 =? NL))
           && (negb (nth 0 resp 0 =? NL) && negb (nth 1 resp 0 =? CR))
        then io_ret (-1)
        else io_ret 0.

(** [do { ... } while (ackbuf != ACK);] with its counter [i].  The
    counter stops the loop at the sixth iteration at the latest. *)
Fixpoint wxgetack_loop (n : nat) (fuel : nat) (i : Z) (ackbuf : list Z)
    : io Z :=
  match n with
  | O => io_fail
  | S n' =>
      r <- wxread fuel ackbuf 1 1 ;;
      let '(rr, ackbuf') := r in
      if rr =? -1 then io_ret (-1)
      else if i >=? 5 then io_ret (-1)
      else if negb (nth 0 ackbuf' 0 =? ACK)
           then wxgetack_loop n' fuel (i + 1) ackbuf'
           else io_ret 0
  end.

Definition wxgetack (fuel : nat) : io Z :=
  ackbuf <- alloca 1 ;;
  wxgetack_loop 6 fuel 0 ackbuf.

Definition wxcmd (fuel : nat) (cmd : list Z) : io Z :=
  rc <- sys_write cmd ;;
  if rc =? -1 then io_ret (-1)
  else if negb (rc =? Z.of_nat (length cmd)) then io_ret (-1)
  else
    r <- wxgetack fuel ;;
    if negb (r =? 0) then io_ret (-1) else io_ret 0.
End Serial.

(** ** fwx.c: wxgetloop and wxident *)

Definition VPLOOPCMD : list Z := bytes_of_string ("LOOP 01" ++ newline).
Definition IDENT_VP : Z := 0x10.

(** The bytes [wxcrc(buf, len)] is handed when called as
    [wxcrc((unsigned char * )&ld + 1, rc)]: [rc] bytes from the second byte
    of the record on.  [mem] is the record followed by the storage that
    comes after it. *)
Definition crc_region (mem : list Z) (rc : Z) : list Z :=
  take (Z.to_nat rc) (drop 1 mem).

(** Where a call of [wxgetloop] returns.  The last two carry the record
    that was read. *)
Inductive loop_exit :=
| LoopCmdFailed
| LoopReadFailed
| LoopShort (rc : Z)
| LoopBadCrc (ld : list Z)
| LoopDecoded (ld : list Z).

Section Loop.
Variable env : oracle.
(** [wxcrc] lives in crc.c, which is not part of the sources at hand: it
    is a parameter, a function of the bytes it is handed. *)
Variable wxcrc : list Z -> Z.
Variable lm : libm.
Variable fwxinterval : Z.
Variable malloc_ok : bool.

(** [for (i = 0; i < 4; ++i) { if (wxwakeup(fd) == 0) break; }]; [n] is
    the number of iterations left.  The value is that of [i] at the exit,
    which the function does not look at. *)
Fixpoint wake_loop (n : nat) (fuel : nat) (i : Z) : io Z :=
  match n with
  | O => io_ret i
  | S n' =>
      r <- wxwakeup env fuel ;;
      if r =? 0 then io_ret i else wake_loop n' fuel (i + 1)
  end.

Definition wxgetloop (fuel gfuel : nat) (g : gust_state) (w : wxdat_t)
    : io (loop_exit * gust_state * wxdat_t) :=
  _ <- wake_loop 4 fuel 0 ;;
  r <- wxcmd env fuel VPLOOPCMD ;;
  if negb (r =? 0) then io_ret (LoopCmdFailed, g, w)
  else
    ld0 <- alloca env 99 ;;
    after <- alloca env 1 ;;
    x <- wxread env fuel ld0 VPLOOPSIZE 10 ;;
    let '(rc, ld) := x in
    if rc =? -1 then io_ret (LoopReadFailed, g, w)
    else if negb (rc =? VPLOOPSIZE) then io_ret (LoopShort rc, g, w)
    else if negb (wxcrc (crc_region (ld ++ after) rc) =? 0)
    then io_ret (LoopBadCrc ld, g, w)
    else
      match cvtvploop2fwx lm gfuel fwxinterval malloc_ok
              (vploop_of_bytes ld) g w with
      | None => io_fail
      | Some (g', w') => io_ret (LoopDecoded ld, g', w')
      end.

(** [do { if (++i > 4) return -1; } while (wxwakeup(fd) != 0);] *)
Fixpoint ident_wake (n : nat) (fuel : nat) (i : Z) : io bool :=
  match n with
  | O => io_fail
  | S n' =>
      if i + 1 >? 4 then io_ret false
      else
        r <- wxwakeup env fuel ;;
        if negb (r =? 0) then ident_wake n' fuel (i + 1) else io_ret true
  end.

Definition wxident (fuel : nat) : io Z :=
  woke <- ident_wake 5 fuel 0 ;;
  if negb woke then io_ret (-1)
  else
    r <- wxcmd env fuel (bytes_of_string "WRD" ++ [0x12; 0x4d; CR]) ;;
    if r =? -1 then io_ret (-1)
    else
      id0 <- alloca env 1 ;;
      x <- wxread env fuel id0 1 5 ;;
      let '(rc, ident) := x in
      if negb (rc =? 1) then io_ret (-1)
      else io_ret (Z.land (nth 0 ident 0) 0xff).
End Loop.

(** Modelled from the spec: crc.c, which holds [wxcrc], is not among the
    sources.  The spec calls for a CCITT-style CRC-16 whose residual matches
    the device family's algorithm: polynomial 0x1021, initial value 0, most
    significant bit first, so that a block followed by its checksum (high
    byte first) has residual 0. *)
Definition crc16_bit (c : Z) : Z :=
  if Z.testbit c 15
  then Z.land (Z.lxor (Z.shiftl c 1) 0x1021) 0xffff
  else Z.land (Z.shiftl c 1) 0xffff.

Definition crc16_byte (crc b : Z) : Z :=
  Nat.iter 8 crc16_bit (Z.lxor crc (Z.shiftl b 8)).

Definition crc16_ccitt (bs : list Z) : Z := fold_left crc16_byte bs 0.

(** ** fwx.c: wxlog

    The line is assembled in the character array [str] through the cursor
    [s]; a pair [(str, s)] is the array and the offset of the cursor. *)

Definition VERSION_MAJ : Z := 0.
Definition VERSION_MIN : Z := 5.
Definition FILENAME_MAX : nat := 1024.

Definition cursor : Type := list Z * nat.

(** [s += sprintf(s, ...)]: the text and its terminating NUL are stored at
    the cursor, which moves onto the NUL. *)
Definition sprintf_at (text : string) (b : cursor) : cursor :=
  (store (fst b) (snd b) (bytes_of_string text ++ [0]),
   (snd b + String.length text)%nat).

(** [*s++ = c;] *)
Definition poke (c : Z) (b : cursor) : cursor :=
  (store (fst b) (snd b) [c], S (snd b)).

Definition COMMA : Z := 44.

(** The C string that starts at [str]. *)
Fixpoint cstring (l : list Z) : list Z :=
  match l with
  | [] => []
  | c :: r => if c =? 0 then [] else c :: cstring r
  end.

Definition string_of_bytes (l : list Z) : string :=
  string_of_list_ascii (map (fun z => ascii_of_N (Z.to_N z)) l).

(** [if (WXD_ISVALID(x)) { s += sprintf(s, fmt ",", ...); }
     else { *s++ = ','; *s++ = '\0'; }] *)
Definition log_field (valid : Z) (text : string) (b : cursor) : cursor :=
  if truthy valid then sprintf_at (text ++ ",") b
  else poke 0 (poke COMMA b).

(** The array as [fprintf(file, "%s\n", str)] finds it.  [str0] is the
    array on entry to the formatting part (it holds the file name). *)
Definition wxlog_buf (str0 : list Z) (w : wxdat_t) : cursor :=
  let b := (str0, O) in
  let b := sprintf_at (fmt_d VERSION_MAJ ++ "," ++ fmt_d VERSION_MIN ++ ","
                         ++ fmt_d (time w) ++ ",") b in
  let b := log_field (WXD_ISVALID (barometer w))
             (fmt_f 3 (dat (barometer w))) b in
  let b := if truthy (WXD_ISVALID (windspeed w)) then
             log_field (WXD_ISVALID (winddir w)) (fmt_f 0 (dat (winddir w)))
               (sprintf_at (fmt_f 0 (dat (windspeed w)) ++ ",") b)
           else poke 0 (poke COMMA (poke COMMA b)) in
  let b := log_field (WXD_ISVALID (avgwindspeed w))
             (fmt_f 0 (dat (avgwindspeed w))) b in
  let b := log_field (WXD_ISVALID (indoortemp w))
             (fmt_f 1 (dat (indoortemp w))) b in
  let b := log_field (WXD_ISVALID (outdoortemp w))
             (fmt_f 1 (dat (outdoortemp w))) b in
  let b := log_field (WXD_ISVALID (outdoordewpoint w))
             (fmt_f 1 (dat (outdoordewpoint w))) b in
  let b := log_field (WXD_ISVALID (indoorhum w))
             (fmt_f 0 (dat (indoorhum w))) b in
  let b := log_field (WXD_ISVALID (outdoorhum w))
             (fmt_f 0 (dat (outdoorhum w))) b in
  let b := log_field (WXD_ISVALID (rainrate w))
             (fmt_f 2 (dat (rainrate w))) b in
  let b := log_field (WXD_ISVALID (rainday w))
             (fmt_f 2 (dat (rainday w))) b in
  let b := log_field (WXD_ISVALID (rainmonth w))
             (fmt_f 2 (dat (rainmonth w))) b in
  let b := log_field (WXD_ISVALID (rainyear w))
             (fmt_f 2 (dat (rainyear w))) b in
  log_field (WXD_ISVALID (solar w)) (fmt_d (dat (solar w))) b.

(** The text [fprintf(file, "%s\n", str)] appends to the log file. *)
Definition wxlog_line (str0 : list Z) (w : wxdat_t) : string :=
  (string_of_bytes (cstring (fst (wxlog_buf str0 w))) ++ newline)%string.

(** [wxlog].  [datefile] is what [strftime] makes of ["/%Y.%m.%d.fwx"] for
    the sample's local time (the test [*s == '/'] looks at the terminating
    NUL of the directory name, so the other format is never used) and
    [junk] fills the part of [str] that was never written.  The result is
    the file name and the text appended to it, or [None] when [fopen]
    fails. *)
Definition wxlog (fopen_ok : bool) (junk : Z) (wxlogdir datefile : string)
    (w : wxdat_t) : option (string * string) :=
  let name := (wxlogdir ++ datefile)%string in
  let str0 := resize FILENAME_MAX junk (bytes_of_string name ++ [0]) in
  if fopen_ok then Some (name, wxlog_line str0 w) else None.

(** ** fwx.c: wxsendcwop *)

Definition f32_mul : spec_float -> spec_float -> spec_float := SFmul 24 128.

(** [(int)nearbyintf(x)], rounding to nearest even; the conversion of a
    NaN, of an infinity or of a value outside the range of [int] yields
    INT_MIN on the supported platforms. *)
Definition int_nearbyintf (x : spec_float) : Z :=
  match to_f32 x with
  | S754_zero _ => 0
  | S754_finite s m e =>
      let z := cond_Zopp s (scaled_round m e 0) in
      if (- 2^31 <=? z) && (z <? 2^31) then z else - 2^31
  | _ => - 2^31
  end.

(** [%0<w>d] *)
Definition fmt_0d (w : nat) (z : Z) : string :=
  if z <? 0 then ("-" ++ pad_zeros (w - 1) (string_of_Z (- z)))%string
  else pad_zeros w (string_of_Z z).

Record cwop_conf := mk_cwop
  { cwopsvr : string; cwopuser : string; cwoploc : string }.




(** The APRS packet built in [str].  [stamp] is what [strftime] makes of
    [">APRS,TCPIP*:@%d%H%M"] for the sample's UTC time.  The text is
    indeterminate ([None]) when the gust is. *)
Definition cwop_packet (cf : cwop_conf) (stamp : string) (w : wxdat_t)
    : option string :=
  match windgust w with
  | None => None
  | Some wg =>
      let t := int_nearbyintf (dat (outdoortemp w)) in
      let p := int_nearbyintf (f32_mul (dat (rainday w)) (f32_of_Z 100)) in
      let h := int_nearbyintf (dat (outdoorhum w)) in
      let b := int_nearbyintf
                 (f64_mul (f64_mul (to_f64 (dat (barometer w)))
                                   (f64_lit 3386389 100000))
                          (f64_of_Z 10)) in
      let l := dat (solar w) in
      Some (cwopuser cf ++ stamp ++ "z" ++ cwoploc cf
            ++ "_" ++ fmt_0d 3 (direction (windcur w))
            ++ "/" ++ fmt_0d 3 (speed (windcur w))
            ++ "g" ++ fmt_0d 3 (speed wg)
            ++ (if (t <? 0)%Z then "t-" ++ fmt_0d 2 (sint32 (- t))
                else "t" ++ fmt_0d 3 t)
            ++ "r...p..."
            ++ "P" ++ fmt_0d 3 p
            ++ "h" ++ fmt_0d 2 (if (h >? 99)%Z then 0%Z else h)
            ++ "b" ++ fmt_0d 5 b
            ++ (if (l >? 999)%Z then "l" ++ fmt_0d 3 (l - 1000)%Z
                else "L" ++ fmt_0d 3 l)
            ++ "wfwx" ++ crlf)%string
  end.


Definition is_empty (s : string) : bool :=
  match s with EmptyString => true | _ => false end.



(** ** A C library to run the model with

    [libm_series] computes [exp] and [log] in binary64 by a Taylor series
    with argument halving and by Halley's iteration on it.  It stands for the
    platform's libm wherever an example has to be evaluated; the theorems
    that do not evaluate examples hold for every [libm]. *)

Fixpoint exp_taylor (n : nat) (x term acc : spec_float) (k : Z) : spec_float :=
  match n with
  | O => acc
  | S n' =>
      let term' := f64_div (f64_mul term x) (f64_of_Z k) in
      exp_taylor n' x term' (f64_add acc term') (k + 1)
  end.

Definition exp_series (x : spec_float) : spec_float :=
  match x with
  | S754_nan => S754_nan
  | S754_infinity s => if s then S754_zero false else x
  | S754_zero _ => f64_of_Z 1
  | S754_finite _ _ _ =>
      let y := f64_div x (f64_of_Z 1024) in
      Nat.iter 10 (fun v => f64_mul v v)
        (exp_taylor 14 y (f64_of_Z 1) (f64_of_Z 1) 1)
  end.

Definition log_halley (x y : spec_float) : spec_float :=
  let e := exp_series y in
  f64_add y (f64_div (f64_mul (f64_of_Z 2) (f64_sub x e)) (f64_add x e)).

Definition log_series (x : spec_float) : spec_float :=
  match x with
  | S754_nan => S754_nan
  | S754_infinity s => if s then S754_nan else x
  | S754_zero _ => S754_infinity true
  | S754_finite true _ _ => S754_nan
  | S754_finite false m e =>
      (* first guess: the binary exponent times ln 2 *)
      let y0 := f64_mul (f64_of_Z (Z.pos (digits2_pos m) + e))
                        (f64_lit 6931 10000) in
      Nat.iter 8 (log_halley x) y0
  end.

Definition libm_series : libm := mk_libm exp_series log_series.

(** ** Vocabulary of the properties *)

(** [p] is the smallest power of two that is at least [n]. *)
Definition smallest_pow2_ge (n p : Z) : Prop :=
  (exists k, 0 <= k /\ p = 2 ^ k) /\ n <= p
  /\ forall j, 0 <= j -> n <= 2 ^ j -> p <= 2 ^ j.

(** [p] is the smallest power of two that is greater than [n]. *)
Definition smallest_pow2_gt (n p : Z) : Prop :=
  (exists k, 0 <= k /\ p = 2 ^ k) /\ n < p
  /\ forall j, 0 <= j -> n < 2 ^ j -> p <= 2 ^ j.

(** Every byte between the signature and the trailing newline, carriage
    return and checksum is 0xFF. *)
Definition all_ones_payload (ld : list Z) : Prop :=
  forall i, (3 <= i < 95)%nat -> nth i ld 0 = 0xff.

(** No measurement field of the sample is flagged valid. *)
Definition measurements_invalid (w : wxdat_t) : Prop :=
  WXD_ISVALID (barometer w) = 0 /\ WXD_ISVALID (windspeed w) = 0
  /\ WXD_ISVALID (winddir w) = 0 /\ WXD_ISVALID (avgwindspeed w) = 0
  /\ WXD_ISVALID (indoortemp w) = 0 /\ WXD_ISVALID (outdoortemp w) = 0
  /\ WXD_ISVALID (indoorhum w) = 0 /\ WXD_ISVALID (outdoorhum w) = 0
  /\ WXD_ISVALID (outdoordewpoint w) = 0 /\ WXD_ISVALID (rainrate w) = 0
  /\ WXD_ISVALID (rainday w) = 0 /\ WXD_ISVALID (rainmonth w) = 0
  /\ WXD_ISVALID (rainyear w) = 0 /\ WXD_ISVALID (solar w) = 0.

(** The same but for the two temperatures, which hold -0.1 deg F. *)
Definition invalid_but_temperatures (w : wxdat_t) : Prop :=
  WXD_ISVALID (barometer w) = 0 /\ WXD_ISVALID (windspeed w) = 0
  /\ WXD_ISVALID (winddir w) = 0 /\ WXD_ISVALID (avgwindspeed w) = 0
  /\ indoortemp w
     = mk_wxd (f32_div (f32_of_Z (-1)) (f32_of_Z 10))
              (Z.lor (Z.lor WXD_VALID WXD_ENGLISH) 1) (Some "deg F"%string)
  /\ outdoortemp w
     = mk_wxd (f32_div (f32_of_Z (-1)) (f32_of_Z 10))
              (Z.lor (Z.lor WXD_VALID WXD_ENGLISH) 1) (Some "deg F"%string)
  /\ WXD_ISVALID (indoorhum w) = 0 /\ WXD_ISVALID (outdoorhum w) = 0
  /\ WXD_ISVALID (outdoordewpoint w) = 0 /\ WXD_ISVALID (rainrate w) = 0
  /\ WXD_ISVALID (rainday w) = 0 /\ WXD_ISVALID (rainmonth w) = 0
  /\ WXD_ISVALID (rainyear w) = 0 /\ WXD_ISVALID (solar w) = 0.

(** The polling loop of [main] as far as the tracker goes: one call per
    reading, each result dereferenced as the decoder does. *)
Fixpoint gust_feed (fuel : nat) (fwxinterval : Z) (st : gust_state)
    (obs : list wind_t) : option (gust_state * list (option wind_t)) :=
  match obs with
  | [] => Some (st, [])
  | wp :: rest =>
      match wxcalcwindgust fuel fwxinterval true st wp with
      | None => None
      | Some (st', r) =>
          match gust_feed fuel fwxinterval st' rest with
          | None => None
          | Some (st'', rs) => Some (st'', gust_deref st' r :: rs)
          end
      end
  end.

(** ** Stations to run the protocol engine against *)

(** A line on which every system call succeeds, the clock advances by one
    second per [time()] and the [k]-th [read()] delivers [reads !! k] (no
    byte at all once the list is used up); [junk] fills uninitialised
    storage. *)
Definition station (reads : list (option (list Z))) (junk : Z) : oracle :=
  {| o_time := fun k => Z.of_nat k;
     o_tcget := fun _ => true;
     o_tcset := fun _ => true;
     o_read := fun k => nth k reads (Some []);
     o_write := fun _ => Some MAX_READ;
     o_stack := fun _ => junk |}.

(** A station that answers every read with the letters "XX". *)
Definition station_xx : oracle :=
  {| o_time := fun k => Z.of_nat k;
     o_tcget := fun _ => true;
     o_tcset := fun _ => true;
     o_read := fun _ => Some [88; 88];
     o_write := fun _ => Some MAX_READ;
     o_stack := fun _ => 0 |}.

(** What a trace shows: the byte strings written and the answers read. *)
Definition writes_of (tr : list event) : list (list Z) :=
  omap (fun e => match e with EvWrite bs _ => Some bs | _ => None end) tr.

Definition reads_of (tr : list event) : list (option (list Z)) :=
  omap (fun e => match e with EvRead _ _ got => Some got | _ => None end) tr.

(** A record that starts with the letter L and is zero everywhere else. *)
Definition record_L : list Z := 76 :: repeat 0 98.

(** The dewpoint of a Fahrenheit reading as the claim describes it:
    converted to Celsius, put through the Sonntag formula, converted back. *)
Definition dewpoint_fahrenheit (lm : libm) (temp hum : spec_float)
    : spec_float :=
  fahrenheit_of_celsius (sonntag lm (celsius_of_fahrenheit temp) hum).

(** An all-ones record but for an outdoor temperature of 72.3 deg F (raw
    723) and an outdoor humidity of 50 %. *)
Definition record_72F_50 : list Z :=
  store (store (repeat 0xff 99) 12 [211; 2]) 33 [50].

(** A sample in which only the barometer (29.921 in) and the outdoor
    temperature (72.3 deg F) are valid, taken at 1064905402. *)
Definition sample_bar_temp : wxdat_t :=
  set_outdoortemp
    (mk_wxd (f32_div (f32_of_Z 723) (f32_of_Z 10))
            (Z.lor (Z.lor WXD_VALID WXD_ENGLISH) 1) (Some "deg F"%string))
    (set_barometer
       (mk_wxd (f32_div (f32_of_Z 29921) (f32_of_Z 1000))
               (Z.lor (Z.lor WXD_VALID WXD_ENGLISH) 3) (Some "in"%string))
       (wxdat_zero 1064905402)).





(** A configured uplink and a network on which everything succeeds. *)
Definition cwop_conf0 : cwop_conf :=
  mk_cwop "cwop.aprs.net" "CW0001" "4903.50N/07201.75W".


(** The observations the scan looks at, in the order it looks at them: the
    window, oldest slot first. *)
Definition scan_window (a : list wind_t) (wl tm f : Z) : list wind_t :=
  map (fun i => warr_get a (Z.land (f + i) (wl - 1))) (scan_range tm).

(** [w] is the first observation of greatest speed in [ws]. *)
Definition first_max (ws : list wind_t) (w : wind_t) : Prop :=
  exists j : nat,
    ws !! j = Some w
    /\ Forall (fun x => speed x <= speed w) ws
    /\ forall (j' : nat) x, (j' < j)%nat -> ws !! j' = Some x ->
                            speed x < speed w.

(** The [tm] most recent observations of the history [h] (chronological,
    the newest last), oldest first; a zero observation stands in where the
    history is shorter than the window, as in the zeroed buffer. *)
Definition recent (h : list wind_t) (tm : Z) : list wind_t :=
  map (fun i => nth (Z.to_nat (tm - 1 - i)) (rev h) wind_zero) (scan_range tm).

(** The tracker after the observations [h]: a buffer of [2^k] slots, a
    window of [tm] slots, the cursor on the oldest slot, and the [j]-th most
    recent observation [j] slots behind the cursor. *)
Definition gust_wf (k tm : Z) (h : list wind_t) (st : gust_state) : Prop :=
  1 <= k /\ walen st = 2 ^ k /\ tenmin st = tm /\ 1 <= tm < 2 ^ k
  /\ length (warr st) = Z.to_nat (2 ^ k)
  /\ waidx st = Z.of_nat (length h) mod 2 ^ k
  /\ forall j : nat,
       Z.of_nat j < 2 ^ k ->
       warr_get (warr st) ((Z.of_nat (length h) - 1 - Z.of_nat j) mod 2 ^ k)
       = nth j (rev h) wind_zero.

(** What a call should hand back after the history [h]: the first
    observation of greatest speed among the [tm] most recent ones, the
    calm window aside, for which the code leaves [found] unassigned. *)
Definition gust_outcome (h : list wind_t) (tm : Z) (r : option wind_t)
    : Prop :=
  match r with
  | Some w => first_max (recent h tm) w /\ 0 < speed w
  | None => Forall (fun x => speed x <= 0) (recent h tm)
  end.

(** The tracker as the first call sets it up, before the first store. *)
Definition gust_fresh (fwxinterval : Z) : gust_state :=
  let tm := Z.quot (10 * 60) fwxinterval + 1 in
  {| warr := replicate (Z.to_nat (2 ^ (Z.log2 tm + 1))) wind_zero;
     walen := 2 ^ (Z.log2 tm + 1); waidx := 0; tenmin := tm |}.

(** The tracker after one call with 5 mph from 180 deg at a sampling
    interval of 30 s: its window holds a reading above 0. *)
Definition gust_breeze : gust_state :=
  fst (gust_record (gust_fresh 30) (mk_wind 5 180)).

(** A record in which every field the decoder reads holds a reading:
    29.921 in, 70.0 and 72.3 deg F, 40 and 50 %, wind 5 mph from 180 deg
    (average 4 mph), no rain at the moment, 300 W/m2, rain 0.12, 1.20 and
    12.00 in. *)
Definition record_fair : list Z :=
  store (store (store (store (store (store (store (store (store (store
    (repeat 0 99)
    7 [225; 116; 188; 2; 40; 211; 2; 5; 4; 180; 0])
    33 [50]) 41 [0; 0]) 44 [44; 1]) 50 [12; 0]) 52 [120; 0]) 54 [176; 4])
    0 [76; 79; 79]) 95 [10; 13]) 97 [0; 0].

(** A record with its checksum: the CRC of the first 97 bytes, high byte
    first, in the last two. *)
Definition seal (ld : list Z) : list Z :=
  let c := crc16_ccitt (take 97 ld) in
  take 97 ld ++ [c / 256; c mod 256].

Definition record_sealed : list Z := seal record_fair.

(** The poll gave the record [ld] up for its checksum. *)
Definition bad_crc_exit (ld : list Z)
    (r : option (loop_exit * gust_state * wxdat_t * dev)) : bool :=
  match r with
  | Some (LoopBadCrc ld', _, _, _) =>
      if decide (ld' = ld) then true else false
  | _ => false
  end.

(** [f] holds for the [n] integers from [lo] on. *)
Fixpoint all_from (n : nat) (lo : Z) (f : Z -> bool) : bool :=
  match n with
  | O => true
  | S n' => f lo && all_from n' (lo + 1) f
  end.

(** A computation that writes nothing to the line. *)
Definition quiet {A} (m : io A) : Prop :=
  forall d a d', m d = Some (a, d') ->
                 writes_of (trace d') = writes_of (trace d).


(** * Vocabulary of the further properties *)

(** ** The log line, field by field *)

(** What [wxlog] does for one measurement: it prints the value and a comma,
    or it stores [commas] commas and ends the string. *)
Inductive log_item :=
| Shown (text : string)
| Missing (commas : nat).

Definition log_item_of (valid : Z) (text : string) : log_item :=
  if truthy valid then Shown text else Missing 1.

(** The items in the order [wxlog] goes through them.  The wind direction
    has no item of its own when the wind speed is invalid: the two share one
    branch that stores two commas. *)
Definition wxlog_items (w : wxdat_t) : list log_item :=
  [log_item_of (WXD_ISVALID (barometer w)) (fmt_f 3 (dat (barometer w)))]
  ++ (if truthy (WXD_ISVALID (windspeed w))
      then [Shown (fmt_f 0 (dat (windspeed w)));
            log_item_of (WXD_ISVALID (winddir w))
              (fmt_f 0 (dat (winddir w)))]
      else [Missing 2])
  ++ [log_item_of (WXD_ISVALID (avgwindspeed w))
        (fmt_f 0 (dat (avgwindspeed w)));
      log_item_of (WXD_ISVALID (indoortemp w))
        (fmt_f 1 (dat (indoortemp w)));
      log_item_of (WXD_ISVALID (outdoortemp w))
        (fmt_f 1 (dat (outdoortemp w)));
      log_item_of (WXD_ISVALID (outdoordewpoint w))
        (fmt_f 1 (dat (outdoordewpoint w)));
      log_item_of (WXD_ISVALID (indoorhum w))
        (fmt_f 0 (dat (indoorhum w)));
      log_item_of (WXD_ISVALID (outdoorhum w))
        (fmt_f 0 (dat (outdoorhum w)));
      log_item_of (WXD_ISVALID (rainrate w)) (fmt_f 2 (dat (rainrate w)));
      log_item_of (WXD_ISVALID (rainday w)) (fmt_f 2 (dat (rainday w)));
      log_item_of (WXD_ISVALID (rainmonth w)) (fmt_f 2 (dat (rainmonth w)));
      log_item_of (WXD_ISVALID (rainyear w)) (fmt_f 2 (dat (rainyear w)));
      log_item_of (WXD_ISVALID (solar w)) (fmt_d (dat (solar w)))].

(** The part of the items that a reader of the file sees: every value up to
    the first missing one, and the commas stored for that one. *)
Fixpoint visible (items : list log_item) : string :=
  match items with
  | [] => EmptyString
  | Shown text :: rest => (text ++ "," ++ visible rest)%string
  | Missing commas :: _ => string_of_list_ascii (repeat ","%char commas)
  end.

Definition log_header (w : wxdat_t) : string :=
  (fmt_d VERSION_MAJ ++ "," ++ fmt_d VERSION_MIN ++ ","
     ++ fmt_d (time w) ++ ",")%string.

(** Where the cursor [s] of [wxlog] stands in [str] at the end. *)
Definition wxlog_extent (w : wxdat_t) : nat :=
  snd (wxlog_buf (replicate FILENAME_MAX 0) w).

Definition run_item (it : log_item) (b : cursor) : cursor :=
  match it with
  | Shown text => sprintf_at (text ++ ",") b
  | Missing commas => poke 0 (Nat.iter commas (poke COMMA) b)
  end.

Definition run_items (items : list log_item) (b : cursor) : cursor :=
  fold_left (fun b it => run_item it b) items b.

(** A text in which the character [bad] does not occur. *)
Definition free_of (bad : Z) (s : string) : Prop :=
  Forall (fun c => c <> bad) (bytes_of_string s).

(** The characters [%d] and [%.<n>f] can print. *)
Definition PRINTF_CHARS : string := "0123456789-.naif".

(** A text without a NUL character. *)
Definition clean (s : string) : Prop :=
  Forall (fun z => z <> 0) (bytes_of_string s).

Definition clean_item (it : log_item) : Prop :=
  match it with Shown text => clean text | Missing _ => True end.

(** The states of the array [str] while the line is put together: the
    string so far is [p] and the cursor stands on its NUL, or the string has
    been ended at [p] and the cursor is past its NUL. *)
Definition log_open (N : nat) (p : list Z) (b : cursor) : Prop :=
  length (fst b) = N /\ take (S (length p)) (fst b) = p ++ [0]
  /\ snd b = length p.

Definition log_cut (N : nat) (p : list Z) (b : cursor) : Prop :=
  length (fst b) = N /\ take (S (length p)) (fst b) = p ++ [0]
  /\ (length p < snd b)%nat.

Definition has_missing (items : list log_item) : bool :=
  existsb (fun it => match it with Missing _ => true | _ => false end) items.

(** ** fwx.c: the polling cycle of [main]

    The first statements of the body of [while (1)]: the sample is cleared,
    stamped with the time, filled by [wxgetloop], whose return value is not
    looked at, and logged.  [datefile] stands for [strftime] and the time
    zone, [junk] for what the array [str] of [wxlog] holds on entry.  The
    way [wxgetloop] returned is part of the result for the statements about
    it; the program does not have it. *)
Definition poll_and_log (env : oracle) (wxcrc : list Z -> Z) (lm : libm)
    (fwxinterval : Z) (malloc_ok : bool) (fuel gfuel : nat)
    (fopen_ok : bool) (junk : Z) (fwxlogdir : string)
    (datefile : Z -> string) (g : gust_state)
    : io (loop_exit * gust_state * wxdat_t * option (string * string)) :=
  t <- sys_time env ;;
  r <- wxgetloop env wxcrc lm fwxinterval malloc_ok fuel gfuel g
         (wxdat_zero t) ;;
  let '(e, g', w) := r in
  io_ret (e, g', w, wxlog fopen_ok junk fwxlogdir (datefile (time w)) w).

Definition decoded (e : loop_exit) : bool :=
  match e with LoopDecoded _ => true | _ => false end.

(** ** Raw integers and the decimals printed for them *)

(** The digits of [r] with the decimal point [places] digits from the
    right, and a minus sign when [r] is negative. *)
Definition shifted (places : nat) (r : Z) : string :=
  if (r <? 0)%Z then ("-" ++ fixed_digits (- r) places)%string
  else fixed_digits r places.

(** What [wxlog] makes of a measurement. *)
Definition column (places : nat) (x : wxd_t spec_float) : log_item :=
  log_item_of (WXD_ISVALID x) (fmt_f places (dat x)).

Definition wire_byte (b : Z) : Prop := 0 <= b < 256.

(** What the log is to show for the integer [raw] of a record: its digits
    with the decimal point moved when the decoder accepts the field, and the
    comma of a missing value when it does not. *)
Definition raw_item (accepted : bool) (places : nat) (raw : Z) : log_item :=
  if accepted then Shown (shifted places raw) else Missing 1.

(** The items of the line for a record, read off the record itself, in the
    order of the columns of the data file.  The dewpoint is computed, not
    received, and is given. *)
Definition record_items (ld : vploopdata_t) (dewpoint : log_item)
    : list log_item :=
  [raw_item (negb (bar ld =? SIXTEEN_ONES)) 3 (bar ld)]
  ++ (if negb (windSpeed ld =? EIGHT_ONES)
      then [Shown (shifted 0 (windSpeed ld));
            raw_item (windDir ld <=? 360) 0 (windDir ld)]
      else [Missing 2])
  ++ [raw_item (negb (windSpeed10 ld =? EIGHT_ONES)) 0 (windSpeed10 ld);
      raw_item (temp_ok (tempIn ld)) 1 (tempIn ld);
      raw_item (temp_ok (tempOut ld)) 1 (tempOut ld);
      dewpoint;
      raw_item (negb (humIn ld =? EIGHT_ONES) && (humIn ld <=? 100)) 0
        (humIn ld);
      raw_item (negb (humOut ld =? EIGHT_ONES) && (humOut ld <=? 100)) 0
        (humOut ld);
      raw_item (negb (rainRate ld =? SIXTEEN_ONES)) 2 (rainRate ld);
      raw_item (negb (rainDay ld =? SIXTEEN_ONES)) 2 (rainDay ld);
      raw_item (negb (rainMonth ld =? SIXTEEN_ONES)) 2 (rainMonth ld);
      raw_item (negb (rainYear ld =? SIXTEEN_ONES)) 2 (rainYear ld);
      raw_item (negb (solarRad ld =? SIXTEEN_ONES)) 0 (solarRad ld)].

(** [record_fair] with no reading of the wind speed, and the sample it
    decodes to at 1064905402 when the wind history holds a reading. *)
Definition record_no_wind : list Z := store record_fair 14 [255].

Definition sample_no_wind : wxdat_t :=
  snd (default (gust_breeze, wxdat_zero 0)
         (cvtvploop2fwx libm_series 10 30 true
            (vploop_of_bytes record_no_wind) gust_breeze
            (wxdat_zero 1064905402))).

(** ** fwx.c: chkvar

    C strings are lists of character codes; a read past the end of the list
    finds the terminating NUL.  [isspace] is that of the C locale. *)

Definition isspace (c : Z) : bool :=
  (c =? 32) || ((9 <=? c) && (c <=? 13)).

Definition strlen (s : list Z) : nat := length (cstring s).

(** [strncmp(a, b, n) == 0] *)
Fixpoint strncmp_zero (a b : list Z) (n : nat) : bool :=
  match n with
  | O => true
  | S n' =>
      let x := hd 0 a in
      let y := hd 0 b in
      if x =? y then (if x =? 0 then true else strncmp_zero (tl a) (tl b) n')
      else false
  end.

(** The [n] bytes that [strncpy(dst, s, n)] stores: the characters of [s]
    up to its NUL, then NULs; no NUL when [s] has [n] characters or more. *)
Fixpoint strncpy_bytes (s : list Z) (n : nat) : list Z :=
  match n with
  | O => []
  | S n' =>
      match s with
      | [] => 0 :: strncpy_bytes [] n'
      | c :: r => if c =? 0 then 0 :: strncpy_bytes [] n'
                  else c :: strncpy_bytes r n'
      end
  end.

(** [while (isspace( *s)) ++s;] *)
Fixpoint skip_space (s : list Z) : list Z :=
  match s with
  | [] => []
  | c :: r => if isspace c then skip_space r else s
  end.

(** [while (!*p || isspace( *p)) *p-- = 0;] with [p = &dst[k-1]].  The
    result is [None] when the loop steps below [dst[0]]. *)
Fixpoint chkvar_trim (k : nat) (dst : list Z) : option (list Z) :=
  match k with
  | O => None
  | S p =>
      let c := nth p dst 0 in
      if (c =? 0) || isspace c then chkvar_trim p (<[p := 0]> dst)
      else Some dst
  end.

(** [chkvar(s, name, dst, len)]: the return value and the array [dst]
    afterwards, or [None] when the function reads or writes outside [dst]. *)
Definition chkvar (s name dst : list Z) (len : nat)
    : option (Z * list Z) :=
  let l := strlen name in
  if negb (strncmp_zero s name l) then Some (0, dst)
  else
    let s := drop l s in
    if hd 0 s =? 0 then Some (0, dst)
    else
      let s := skip_space s in
      if hd 0 s =? 0 then Some (0, dst)
      else if (length dst <? len)%nat then None
      else
        match chkvar_trim len (store dst 0 (strncpy_bytes s len)) with
        | None => None
        | Some dst' => Some (1, dst')
        end.

(** A character that is neither NUL nor white space. *)
Definition solid (c : Z) : Prop := c <> 0 /\ isspace c = false.

(** ** fwx.c: the command of [wxident] *)

Definition WRDCMD : list Z := bytes_of_string "WRD" ++ [0x12; 0x4d; CR].


(** A station that answers the first wake-up, acknowledges the command and
    sends the byte 16. *)
Definition station_ident : oracle :=
  station [Some [NL; CR]; Some [ACK]; Some [16]] 0.

(** ** support.c: wxopen

    The calls [wxopen] makes on the operating system, and what they
    answer.  The flag words of [termios] are kept as the names the source
    writes. *)

Inductive tflag := IGNBRK | CS8 | CREAD | CLOCAL | NOKERNINFO.

Record termios := mk_termios
  { c_iflag : list tflag; c_oflag : list tflag; c_cflag : list tflag;
    c_lflag : list tflag; c_vmin : Z; c_vtime_ds : Z; c_speed : Z }.

Definition IF_SPEED : Z := 19200.

Record open_oracle := mk_open
  { os_open : option Z;        (* open(): the descriptor, if any *)
    os_excl : bool;            (* ioctl(TIOCEXCL) succeeds *)
    os_setfl : bool;           (* fcntl(F_SETFL, 0) succeeds *)
    os_tcget : bool;           (* tcgetattr() succeeds *)
    os_tcset : bool }.         (* tcsetattr() succeeds *)

Inductive open_event :=
| OsOpen (path : string) (nonblock : bool)
| OsExcl (fd : Z)
| OsSetfl (fd : Z) (fl : Z)
| OsTcget (fd : Z)
| OsTcset (fd : Z) (flush : bool) (t : termios)
| OsClose (fd : Z).

Definition wxopen_termios : termios :=
  {| c_iflag := [IGNBRK]; c_oflag := []; c_cflag := [CS8; CREAD; CLOCAL];
     c_lflag := [NOKERNINFO]; c_vmin := 0; c_vtime_ds := 0;
     c_speed := IF_SPEED |}.

(** The device name, completed with ["/dev/"] unless it starts with a
    slash. *)
Definition wxdev_path (devname : string) : string :=
  match devname with
  | String "/" _ => devname
  | _ => ("/dev/" ++ devname)%string
  end.

(** [wxopen(devname)]: the return value and the calls made. *)
Definition wxopen (os : open_oracle) (devname : string)
    : Z * list open_event :=
  let wxdev := wxdev_path devname in
  match os_open os with
  | None => (-1, [OsOpen wxdev true])
  | Some wxfd =>
      if negb (os_excl os)
      then (-1, [OsOpen wxdev true; OsExcl wxfd; OsClose wxfd])
      else if negb (os_setfl os)
      then (-1, [OsOpen wxdev true; OsExcl wxfd; OsSetfl wxfd 0;
                 OsClose wxfd])
      else if negb (os_tcget os)
      then (-1, [OsOpen wxdev true; OsExcl wxfd; OsSetfl wxfd 0;
                 OsTcget wxfd; OsClose wxfd])
      else if negb (os_tcset os)
      then (-1, [OsOpen wxdev true; OsExcl wxfd; OsSetfl wxfd 0;
                 OsTcget wxfd; OsTcset wxfd true wxopen_termios;
                 OsClose wxfd])
      else (wxfd, [OsOpen wxdev true; OsExcl wxfd; OsSetfl wxfd 0;
                   OsTcget wxfd; OsTcset wxfd true wxopen_termios])
  end.

(** The descriptors a run of calls leaves open. *)
Fixpoint open_fds (opened : option Z) (evs : list open_event)
    (held : list Z) : list Z :=
  match evs with
  | [] => held
  | OsOpen _ _ :: r =>
      open_fds opened r (match opened with
                         | Some fd => fd :: held
                         | None => held
                         end)
  | OsClose fd :: r => open_fds opened r (List.filter (fun x => negb (x =? fd)) held)
  | _ :: r => open_fds opened r held
  end.

(** ** The clock and the line while [wxread] waits

    [time()] never goes back and moves by less than 2^24 seconds from one
    call to the next, from the [p]-th call on; and a [read] that comes back
    empty-handed has waited for its VTIME, at least a second, which shows in
    the next [time()].  The [i]-th [read] from the [r]-th on lies between
    the calls [p + i] and [p + i + 1] of [time()]. *)
Definition clock_runs (env : oracle) (p r : nat) : Prop :=
  (forall i : nat,
      0 <= o_time env (S (p + i)) - o_time env (p + i) < 2 ^ 24)
  /\ (forall i : nat,
         o_read env (r + i) = Some [] ->
         o_time env (p + i) < o_time env (S (p + i))).

(** A computation that comes back from every state, after at most [k]
    calls of [read]. *)
Definition runs_within {A} (k : nat) (m : io A) : Prop :=
  forall d, exists a d', m d = Some (a, d') /\ (n_read d' <= n_read d + k)%nat.

(** The clock moves on, whatever the calls of [read] bring: [time()] never
    goes back and moves by less than 2^24 seconds from one call to the next,
    and of any [G + 1] calls in a row the last is later than the first.
    ([wxread] calls [time()] once when it starts and once after each
    [read]; the calls that fall into one second are those that follow a
    [read] that brought bytes, and the first of a [wxread].) *)
Definition clock_advances (env : oracle) (G : nat) : Prop :=
  (forall k : nat, 0 <= o_time env (S k) - o_time env k < 2 ^ 24)
  /\ (forall k : nat, o_time env k < o_time env (k + G)).

(** The gust tracker hands back the null pointer or a slot its scan found,
    whatever the wind. *)
Definition gust_determinate (fuel : nat) (fwxinterval : Z) (malloc_ok : bool)
    (g : gust_state) : Prop :=
  forall wp : wind_t,
    exists g' r,
      wxcalcwindgust fuel fwxinterval malloc_ok g wp = Some (g', r)
      /\ r <> GustSlot None.

(** What [time()] returns, call after call, while a station that never
    sends a byte is polled on a clock that counts seconds: an empty [read]
    takes a second, and the call that opens a [wxread] falls into the second
    of the call before.  Four wake-ups of five seconds and six waits of one
    second for the ACK. *)
Definition silent_clock : list Z :=
  [0; 1; 2; 3; 4; 5;  5; 6; 7; 8; 9; 10;  10; 11; 12; 13; 14; 15;
   15; 16; 17; 18; 19; 20;  20; 21;  21; 22;  22; 23;  23; 24;  24; 25;
   25; 26].

(** A station that never sends a byte, on that clock. *)
Definition station_silent : oracle :=
  {| o_time := fun k => nth k silent_clock (Z.of_nat k - 10);
     o_tcget := fun _ => true;
     o_tcset := fun _ => true;
     o_read := fun _ => Some [];
     o_write := fun _ => Some MAX_READ;
     o_stack := fun _ => 0 |}.

(** ** fwx.c: wxsendwu and wxsendaeris

    Both build a command line for [system()]: [fetch] and a URL between
    single quotes.  [stamp] is what [strftime] makes of the date format for
    the sample's UTC time.  The result is [UplinkOff] when the uplink is not
    configured; the text is indeterminate ([None]) when the gust is.  The
    array [str] has 2048 bytes; the station name and the password have at
    most 63 each. *)

Inductive uplink_cmd :=
| UplinkOff
| UplinkRun (cmd : option string).

Definition QUOTE : Z := 39.

Definition FETCH : string := "/usr/bin/fetch -q -a -T 3 -o /dev/null '".

(** [if (WXD_ISVALID(x)) s += sprintf(s, key "...", ...);] *)
Definition url_field {A} (key : string) (x : wxd_t A) (text : string)
    : string :=
  if truthy (WXD_ISVALID x) then (key ++ text)%string else EmptyString.

(** The measurements both uplinks report, in the order both write them. *)
Definition url_measurements (w : wxdat_t) : string :=
  (url_field "&tempf=" (outdoortemp w) (fmt_f 1 (dat (outdoortemp w)))
   ++ url_field "&rainin=" (rainrate w) (fmt_f 2 (dat (rainrate w)))
   ++ url_field "&dailyrainin=" (rainday w) (fmt_f 2 (dat (rainday w)))
   ++ url_field "&baromin=" (barometer w) (fmt_f 3 (dat (barometer w)))
   ++ url_field "&humidity=" (outdoorhum w) (fmt_f 0 (dat (outdoorhum w)))
   ++ url_field "&dewptf=" (outdoordewpoint w)
        (fmt_f 1 (dat (outdoordewpoint w)))
   ++ url_field "&solarradiation=" (solar w) (fmt_d (dat (solar w))))%string.

(** The URL of [wxsendwu], between the quotes. *)
Definition wu_url (wustation wupassword : string) (fwxinterval : Z)
    (stamp : string) (w : wxdat_t) (wg : wind_t) : string :=
  ("http://rtupdate.wunderground.com/weatherstation/updateweatherstation.php?action=updateraw&realtime=1"
   ++ "&rtfreq=" ++ fmt_d fwxinterval
   ++ "&ID=" ++ wustation ++ "&PASSWORD=" ++ wupassword
   ++ "&dateutc=" ++ stamp
   ++ "&softwaretype=fwx%20v" ++ fmt_d VERSION_MAJ ++ "."
   ++ fmt_d VERSION_MIN
   ++ "&windspeedmph=" ++ fmt_d (speed (windcur w))
   ++ (if (speed (windcur w) =? 0)%Z then EmptyString
       else "&winddir=" ++ fmt_d (direction (windcur w)))
   ++ "&windgustmph=" ++ fmt_d (speed wg)
   ++ (if (speed wg =? 0)%Z then EmptyString
       else "&windgustdir=" ++ fmt_d (direction wg))
   ++ url_measurements w)%string.

Definition wxsendwu (wustation wupassword : string) (fwxinterval : Z)
    (stamp : string) (w : wxdat_t) : uplink_cmd :=
  if is_empty wustation || is_empty wupassword then UplinkOff
  else
    UplinkRun
      (match windgust w with
       | None => None
       | Some wg =>
           Some (FETCH ++ wu_url wustation wupassword fwxinterval stamp w wg
                   ++ "'")%string
       end).

(** The URL of [wxsendaeris], between the quotes. *)
Definition aeris_url (aerisstation aerispassword : string) (stamp : string)
    (w : wxdat_t) (wg : wind_t) : string :=
  ("https://www.pwsweather.com/pwsupdate/pwsupdate.php?"
   ++ "ID=" ++ aerisstation ++ "&PASSWORD=" ++ aerispassword
   ++ "&dateutc=" ++ stamp
   ++ "&windspeedmph=" ++ fmt_d (speed (windcur w))
   ++ (if (speed (windcur w) =? 0)%Z then EmptyString
       else "&winddir=" ++ fmt_d (direction (windcur w)))
   ++ "&windgustmph=" ++ fmt_d (speed wg)
   ++ url_measurements w
   ++ "&softwaretype=fwx%20v" ++ fmt_d VERSION_MAJ ++ "."
   ++ fmt_d VERSION_MIN ++ "&action=updateraw")%string.

Definition wxsendaeris (aerisstation aerispassword : string)
    (stamp : string) (w : wxdat_t) : uplink_cmd :=
  if is_empty aerisstation || is_empty aerispassword then UplinkOff
  else
    UplinkRun
      (match windgust w with
       | None => None
       | Some wg =>
           Some (FETCH ++ aeris_url aerisstation aerispassword stamp w wg
                   ++ "'")%string
       end).

(** The number of commas in a text. *)
Definition commas (s : string) : nat :=
  count_occ Z.eq_dec (bytes_of_string s) COMMA.

Definition comma_free_item (it : log_item) : Prop :=
  match it with Shown text => commas text = 0%nat | Missing _ => True end.

(** ** support.c: dumpbyte and dumpbuf *)

Definition LINELEN : Z := 80.
Definition CHARLEN : Z := 5.

Definition hexdigit (n : Z) : ascii :=
  nth (Z.to_nat n) (list_ascii_of_string "0123456789abcdef") "0"%char.

(** [sprintf(buf, "0x%02x ", c)] for an [unsigned char]. *)
Definition dumpbyte (c : Z) : string :=
  String "0" (String "x" (String (hexdigit (c / 16))
    (String (hexdigit (c mod 16)) (String " " EmptyString)))).

(** The loop of [dumpbuf]: [buf] is the line put together so far, [i] the
    number of bytes on it; the result is what [fputs] was handed, call
    after call. *)
Fixpoint dumpbuf_loop (p : list Z) (i : Z) (buf : string) : string :=
  match p with
  | [] => EmptyString
  | c :: r =>
      let buf := (buf ++ dumpbyte c)%string in
      let i := i + 1 in
      if (i >=? LINELEN / CHARLEN) || (Z.of_nat (length r) =? 0)
      then ((buf ++ newline) ++ dumpbuf_loop r 0 EmptyString)%string
      else dumpbuf_loop r i buf
  end.

Definition dumpbuf (p : list Z) : string := dumpbuf_loop p 0 EmptyString.

Definition hexval (a : ascii) : Z :=
  let n := Z.of_N (N_of_ascii a) in
  if n <? 58 then n - 48 else n - 87.

(** Reading a dump back: every ["0xhh "] is a byte, anything else is
    skipped. *)
Fixpoint undump (s : string) : list Z :=
  match s with
  | String "0" (String "x" (String h (String l (String " " rest)))) =>
      (16 * hexval h + hexval l) :: undump rest
  | String _ rest => undump rest
  | EmptyString => []
  end.

(** ** The integers of the CWOP packet *)

(** [n / d] rounded to the nearest integer, ties to the even one. *)
Definition round_half_even (n d : Z) : Z :=
  let q := n / d in
  let r := n mod d in
  match Z.compare (2 * r) d with
  | Lt => q
  | Gt => q + 1
  | Eq => if Z.even q then q else q + 1
  end.

(** The pressure figure of the packet. *)
Definition cwop_pressure (w : wxdat_t) : Z :=
  int_nearbyintf
    (f64_mul (f64_mul (to_f64 (dat (barometer w))) (f64_lit 3386389 100000))
             (f64_of_Z 10)).

(** The packet, from the integers that go into it. *)
Definition cwop_text (cf : cwop_conf) (stamp : string)
    (dir spd gust t p h b l : Z) : string :=
  (cwopuser cf ++ stamp ++ "z" ++ cwoploc cf
   ++ "_" ++ fmt_0d 3 dir ++ "/" ++ fmt_0d 3 spd ++ "g" ++ fmt_0d 3 gust
   ++ (if (t <? 0)%Z then "t-" ++ fmt_0d 2 (- t)%Z else "t" ++ fmt_0d 3 t)
   ++ "r...p..."
   ++ "P" ++ fmt_0d 3 p
   ++ "h" ++ fmt_0d 2 (if (h >? 99)%Z then 0%Z else h)
   ++ "b" ++ fmt_0d 5 b
   ++ (if (l >? 999)%Z then "l" ++ fmt_0d 3 (l - 1000)%Z
       else "L" ++ fmt_0d 3 l)
   ++ "wfwx" ++ crlf)%string.

(** * Properties *)

(** ** Sizing of the gust buffer *)

Lemma sint32_small (z : Z) : - 2^31 <= z < 2^31 -> sint32 z = z.
Proof.
  intros H. unfold sint32.
  rewrite Z.mod_small by lia. lia.
Qed.

(** The sizing loop doubles once more than [i] has binary digits past the
    first: it stops on the power of two above [i]. *)
Lemma walen_loop_pow2 (fuel : nat) :
  forall wl i,
    1 <= i -> Z.log2 i < Z.of_nat fuel ->
    0 < wl -> wl * 2 ^ (Z.log2 i + 1) < 2^31 ->
    walen_loop fuel wl i = Some (wl * 2 ^ (Z.log2 i + 1)).
Proof.
  induction fuel as [|fuel IH]; intros wl i Hi Hfuel Hwl Hbound.
  - pose proof (Z.log2_nonneg i). lia.
  - cbn [walen_loop].
    pose proof (Z.log2_nonneg i) as Hlog.
    assert (Hpow : 2 ^ (Z.log2 i + 1) = 2 * 2 ^ Z.log2 i)
      by (rewrite Z.pow_add_r, Z.pow_1_r by lia; lia).
    assert (Hp : 0 < 2 ^ Z.log2 i) by (apply Z.pow_pos_nonneg; lia).
    rewrite Z.shiftl_mul_pow2 by lia.
    rewrite Z.pow_1_r.
    rewrite sint32_small by nia.
    rewrite Z.shiftr_div_pow2 by lia. rewrite Z.pow_1_r.
    destruct (Z.eqb_spec (i / 2) 0) as [Hz|Hnz].
    + assert (i = 1) by (pose proof (Z.div_mod i 2); pose proof (Z.mod_pos_bound i 2); lia).
      subst i. cbn. f_equal; lia.
    + assert (Hi2 : 1 <= i / 2).
      { pose proof (Z.div_pos i 2). lia. }
      assert (Hl : Z.log2 (i / 2) = Z.log2 i - 1).
      { rewrite <- (Z.pow_1_r 2) at 1. rewrite <- Z.shiftr_div_pow2 by lia.
        rewrite Z.log2_shiftr by lia.
        assert (1 <= Z.log2 i).
        { apply Z.log2_le_pow2; [lia|]. cbn.
          pose proof (Z.div_mod i 2); pose proof (Z.mod_pos_bound i 2); lia. }
        lia. }
      rewrite IH; rewrite ?Hl; try lia.
      * f_equal. replace (Z.log2 i - 1 + 1) with (Z.log2 i) by lia. lia.
      * replace (Z.log2 i - 1 + 1) with (Z.log2 i) by lia. lia.
Qed.

(** The window is between 1 and 601 slots for every positive interval. *)
Lemma tenmin_bounds (iv : Z) : 1 <= iv -> 1 <= Z.quot 600 iv + 1 <= 601.
Proof.
  intros H. rewrite Z.quot_div_nonneg by lia.
  pose proof (Z.div_pos 600 iv). 
  assert (600 / iv <= 600) by (apply Z.div_le_upper_bound; nia).
  lia.
Qed.

Lemma gust_sizing_pow2 (fuel : nat) (iv : Z) :
  1 <= iv -> (10 <= fuel)%nat ->
  gust_sizing fuel iv
  = Some (Z.quot 600 iv + 1, 2 ^ (Z.log2 (Z.quot 600 iv + 1) + 1)).
Proof.
  intros Hiv Hfuel. unfold gust_sizing.
  destruct (Z.eqb_spec iv 0); [lia|].
  change (10 * 60) with 600.
  pose proof (tenmin_bounds iv Hiv) as Hb.
  rewrite sint32_small by lia.
  assert (Hlog : Z.log2 (Z.quot 600 iv + 1) <= 9).
  { change 9 with (Z.log2 601). apply Z.log2_le_mono. lia. }
  pose proof (Z.log2_nonneg (Z.quot 600 iv + 1)).
  rewrite walen_loop_pow2; try lia.
  - rewrite Z.mul_1_l. reflexivity.
  - rewrite Z.mul_1_l.
    apply Z.le_lt_trans with (2 ^ 10); [|lia].
    apply Z.pow_le_mono_r; lia.
Qed.

Lemma pow2_gt_log2 (n : Z) :
  1 <= n -> smallest_pow2_gt n (2 ^ (Z.log2 n + 1)).
Proof.
  intros Hn.
  pose proof (Z.log2_nonneg n) as Hlog.
  destruct (Z.log2_spec n) as [Hlo Hhi]; [lia|].
  repeat split.
  - exists (Z.log2 n + 1). lia.
  - replace (Z.log2 n + 1) with (Z.succ (Z.log2 n)) by lia. exact Hhi.
  - intros j Hj Hlt.
    apply Z.pow_le_mono_r; [lia|].
    assert (Z.log2 n < j); [|lia].
    apply (Z.pow_lt_mono_r_iff 2); lia.
Qed.

(** C5, as stated, fails: with a sampling interval of 200 seconds the window
    is 600/200 + 1 = 4 slots, itself a power of two, and the buffer that the
    first call allocates has 8 elements, not 4. *)
Lemma C5_counterexample :
  exists st r,
    wxcalcwindgust 10 200 true gust_state0 wind_zero = Some (st, r)
    /\ tenmin st = Z.quot (10 * 60) 200 + 1
    /\ walen st = 8 /\ length (warr st) = 8%nat
    /\ ~ smallest_pow2_ge (Z.quot (10 * 60) 200 + 1) (walen st).
Proof.
  eexists. eexists. split; [reflexivity|].
  repeat split.
  intros (_ & _ & Hmin).
  assert (H : 8 <= 4) by (apply (Hmin 2); vm_compute; congruence).
  lia.
Qed.

(** C5, amended: for every positive sampling interval the capacity chosen at
    first use is the smallest power of two strictly greater than
    600/interval + 1.  It is the smallest power of two at or above that
    number unless the number is itself a power of two, in which case the
    capacity is twice the number. *)
Theorem C5_capacity (iv : Z) (fuel : nat) (wp : wind_t) :
  1 <= iv -> (10 <= fuel)%nat ->
  exists st r,
    wxcalcwindgust fuel iv true gust_state0 wp = Some (st, r)
    /\ tenmin st = Z.quot (10 * 60) iv + 1
    /\ Z.of_nat (length (warr st)) = walen st
    /\ smallest_pow2_gt (tenmin st) (walen st)
    /\ ((forall k, 0 <= k -> tenmin st <> 2 ^ k) ->
        smallest_pow2_ge (tenmin st) (walen st))
    /\ (forall k, 0 <= k -> tenmin st = 2 ^ k -> walen st = 2 * tenmin st).
Proof.
  intros Hiv Hfuel.
  unfold wxcalcwindgust. cbn [walen gust_state0 Z.eqb].
  rewrite gust_sizing_pow2 by assumption.
  change (10 * 60) with 600.
  set (tm := Z.quot 600 iv + 1).
  pose proof (tenmin_bounds iv Hiv) as Hb. fold tm in Hb.
  pose proof (Z.log2_nonneg tm) as Hlog.
  pose proof (pow2_gt_log2 tm ltac:(lia)) as Hgt.
  eexists. eexists. split; [reflexivity|].
  cbn [gust_record tenmin walen warr fst snd].
  split; [reflexivity|].
  split.
  { rewrite length_insert, length_replicate.
    apply Z2Nat.id. apply Z.pow_nonneg. lia. }
  split; [exact Hgt|].
  destruct Hgt as (Hk & Hlt & Hmin).
  split.
  - intros Hnp. repeat split; [exact Hk|lia|].
    intros j Hj Hle. apply Hmin; [lia|].
    specialize (Hnp j Hj). lia.
  - intros k Hk0 Heq. rewrite Heq.
    rewrite Z.log2_pow2 by lia.
    rewrite Z.pow_add_r, Z.pow_1_r by lia. lia.
Qed.

Lemma C5_capacity_witness :
  exists st r,
    wxcalcwindgust 10 30 true gust_state0 wind_zero = Some (st, r)
    /\ tenmin st = Z.quot (10 * 60) 30 + 1
    /\ Z.of_nat (length (warr st)) = walen st
    /\ smallest_pow2_gt (tenmin st) (walen st)
    /\ ((forall k, 0 <= k -> tenmin st <> 2 ^ k) ->
        smallest_pow2_ge (tenmin st) (walen st))
    /\ (forall k, 0 <= k -> tenmin st = 2 ^ k -> walen st = 2 * tenmin st).
Proof.
  apply (C5_capacity 30 10 wind_zero); lia.
Defined.

(** ** The scan of the gust window *)

Lemma scan_calm (a : list wind_t) (wl tm f : Z) :
  (forall idx, speed (warr_get a idx) <= 0) ->
  scan a wl tm f = (0, None).
Proof.
  intros Hcalm. unfold scan.
  induction (scan_range tm) as [|i l IH]; [reflexivity|].
  cbn [fold_left]. 
  replace (scan_step a wl f (0, None) i) with (0, @None Z); [exact IH|].
  unfold scan_step. cbn [fst].
  specialize (Hcalm (Z.land (f + i) (wl - 1))).
  destruct (Z.gtb_spec (speed (warr_get a (Z.land (f + i) (wl - 1)))) 0);
    [lia|reflexivity].
Qed.

Lemma fresh_buffer_calm (n : nat) (wp : wind_t) (k : nat) :
  speed wp <= 0 ->
  forall idx,
    speed (warr_get (<[k := wp]> (replicate n wind_zero)) idx) <= 0.
Proof.
  intros Hwp idx. unfold warr_get.
  destruct (<[k := wp]> (replicate n wind_zero) !! Z.to_nat idx)
    as [x|] eqn:Hx; cbn; [|lia].
  apply list_lookup_insert_Some in Hx.
  destruct Hx as [(_ & <- & _)|(_ & Hx)]; [exact Hwp|].
  apply lookup_replicate in Hx. destruct Hx as [-> _]. cbn. lia.
Qed.

(** C10 fails on the code: on the first call (the buffer has just been
    zeroed) with a reading whose speed is 0, no slot of the scanned window
    has a speed above [gust = 0], the assignment [found = idx] never runs,
    and [return &warr[found]] reads [found] unassigned. *)
Theorem C10_found_unassigned (iv : Z) (fuel : nat) (wp : wind_t) :
  1 <= iv -> (10 <= fuel)%nat -> speed wp <= 0 ->
  exists st,
    wxcalcwindgust fuel iv true gust_state0 wp = Some (st, GustSlot None).
Proof.
  intros Hiv Hfuel Hwp.
  unfold wxcalcwindgust. cbn [walen gust_state0 Z.eqb].
  rewrite gust_sizing_pow2 by assumption.
  unfold gust_record. cbn [tenmin walen warr waidx].
  rewrite scan_calm by (apply fresh_buffer_calm; exact Hwp).
  eexists. reflexivity.
Qed.

Lemma C10_found_unassigned_witness :
  exists st,
    wxcalcwindgust 10 30 true gust_state0 (mk_wind 0 0)
    = Some (st, GustSlot None).
Proof.
  apply (C10_found_unassigned 30 10 (mk_wind 0 0)); cbn; lia.
Defined.

(** ** The decoder on an all-ones record *)

Lemma wxcalcwindgust_total (fuel : nat) (iv : Z) (mok : bool)
    (g : gust_state) (wp : wind_t) :
  1 <= iv -> (10 <= fuel)%nat ->
  exists g' r, wxcalcwindgust fuel iv mok g wp = Some (g', r).
Proof.
  intros Hiv Hfuel. unfold wxcalcwindgust.
  destruct (walen g =? 0); [|eauto].
  rewrite gust_sizing_pow2 by assumption.
  destruct mok; eauto.
Qed.

(** A decode that has a result has made the stores of [cvt_fields], with
    some gust. *)
Lemma cvtvploop2fwx_Some (lm : libm) (fuel : nat) (iv : Z) (mok : bool)
    (ld : vploopdata_t) (g g' : gust_state) (w w' : wxdat_t) :
  cvtvploop2fwx lm fuel iv mok ld g w = Some (g', w') ->
  exists wgust,
    w' = cvt_fields lm ld (cvt_windcur ld (windcur w)) wgust w.
Proof.
  unfold cvtvploop2fwx. intros H.
  destruct (wxcalcwindgust fuel iv mok g _) as [[g1 [|[idx|]]]|];
    try discriminate; inversion H; eauto.
Qed.

(** With a pointer from the tracker that is the null pointer or a slot the
    scan found, the decode has a result. *)
Lemma cvtvploop2fwx_defined (lm : libm) (fuel : nat) (iv : Z) (mok : bool)
    (ld : vploopdata_t) (g g' : gust_state) (w : wxdat_t) (r : gust_ret) :
  wxcalcwindgust fuel iv mok g (cvt_windcur ld (windcur w)) = Some (g', r) ->
  r <> GustSlot None ->
  exists w', cvtvploop2fwx lm fuel iv mok ld g w = Some (g', w').
Proof.
  intros Hg Hr. unfold cvtvploop2fwx. rewrite Hg.
  destruct r as [|[idx|]]; [eauto|eauto|contradiction].
Qed.

Lemma all_ones_fields (ld : list Z) :
  all_ones_payload ld ->
  vploop_of_bytes ld
  = mk_vploop 0xffff (-1) 0xff (-1) 0xff 0xff 0xffff 0xff 0xffff 0xffff
      0xffff 0xffff 0xffff.
Proof.
  intros H.
  unfold vploop_of_bytes, ld_i16, ld_u16, ld_u8, ld_byte.
  rewrite !H by lia.
  reflexivity.
Qed.

(** C1, as stated, fails: decoding the record made of 99 bytes 0xFF, with
    a wind history that holds a reading above 0, leaves the indoor and the
    outdoor temperature flagged valid. *)
Lemma C1_counterexample :
  exists g' w',
    cvtvploop2fwx libm_series 10 30 true
      (vploop_of_bytes (repeat 0xff 99)) gust_breeze
      (wxdat_zero 0) = Some (g', w')
    /\ all_ones_payload (repeat 0xff 99)
    /\ ~ measurements_invalid w'.
Proof.
  eexists. eexists. split; [vm_compute; reflexivity|].
  split.
  - intros i Hi. apply nth_repeat_lt. lia.
  - intros (_ & _ & _ & _ & Hin & _). vm_compute in Hin. discriminate.
Qed.

(** C1, amended: a record whose payload bytes are all 0xFF leaves the
    current wind of a zeroed sample at zero; whenever the gust tracker, given
    that wind, hands back the null pointer or a slot its scan found (on a
    calm window it hands back a slot picked by an unassigned index, and the
    decode is undefined), the decode has a result in which every measurement
    field is invalid except the indoor and the outdoor temperature; these
    two read the raw value -1, which is inside the plausibility band and is
    not the 0x1000 sentinel, and are valid at -0.1 deg F. *)
Theorem C1_all_ones_decode (lm : libm) (fuel : nat) (iv : Z) (mok : bool)
    (ld : list Z) (g g' : gust_state) (r : gust_ret) (t : Z) :
  all_ones_payload ld ->
  wxcalcwindgust fuel iv mok g wind_zero = Some (g', r) ->
  r <> GustSlot None ->
  exists w',
    cvtvploop2fwx lm fuel iv mok (vploop_of_bytes ld) g (wxdat_zero t)
    = Some (g', w')
    /\ invalid_but_temperatures w'.
Proof.
  intros Hones Hg Hr.
  rewrite (all_ones_fields ld Hones).
  unfold cvtvploop2fwx.
  change (cvt_windcur _ (windcur (wxdat_zero t))) with wind_zero.
  rewrite Hg.
  destruct r as [|[idx|]]; [| |contradiction];
    (eexists; split; [reflexivity|]);
    vm_compute; repeat split; reflexivity.
Qed.

Lemma C1_all_ones_decode_witness :
  exists w',
    cvtvploop2fwx libm_series 10 30 true
      (vploop_of_bytes (repeat 0xff 99)) gust_breeze
      (wxdat_zero 0)
    = Some (fst (gust_record gust_breeze wind_zero), w')
    /\ invalid_but_temperatures w'.
Proof.
  apply (C1_all_ones_decode libm_series 10 30 true (repeat 0xff 99)
           gust_breeze (fst (gust_record gust_breeze wind_zero))
           (snd (gust_record gust_breeze wind_zero)) 0).
  - intros i Hi. apply nth_repeat_lt. lia.
  - vm_compute. reflexivity.
  - vm_compute. discriminate.
Defined.

(** ** The protocol engine *)

Lemma io_bind_Some {A B} (m : io A) (k : A -> io B) (d d' : dev) (b : B) :
  io_bind m k d = Some (b, d') ->
  exists a d1, m d = Some (a, d1) /\ k a d1 = Some (b, d').
Proof.
  unfold io_bind. destruct (m d) as [[a d1]|]; [|discriminate].
  intros H. exists a, d1. split; [reflexivity|exact H].
Qed.

Lemma io_ret_Some {A} (a b : A) (d d' : dev) :
  io_ret a d = Some (b, d') -> b = a /\ d' = d.
Proof. unfold io_ret. intros H. inversion H. split; reflexivity. Qed.

(** C3 fails on the code.  Against a station that answers every wake-up
    with "XX" all four attempts of [wxgetloop] fail, and the function goes on
    to write the LOOP command and to read for its acknowledgement; the
    sibling [wxident] gives up after the fourth attempt without sending its
    command.  A wake-up is also accepted on the answer "\rX", which is
    neither "\r\n" nor "\n\r". *)
Theorem C3_loop_sent_after_failed_wake :
  (exists d1, wake_loop station_xx 4 8 0 dev0 = Some (4, d1)
              /\ writes_of (trace d1) = [[NL]; [NL]; [NL]; [NL]])
  /\ (exists d',
        wxgetloop station_xx crc16_ccitt libm_series 30 true 8 10
          gust_state0 (wxdat_zero 0) dev0
        = Some ((LoopCmdFailed, gust_state0, wxdat_zero 0), d')
        /\ writes_of (trace d') = [[NL]; [NL]; [NL]; [NL]; VPLOOPCMD]
        /\ length (reads_of (trace d')) = 10%nat)
  /\ (exists d', wxident station_xx 8 dev0 = Some (-1, d')
                 /\ writes_of (trace d') = [[NL]; [NL]; [NL]; [NL]])
  /\ (exists d', wxwakeup (station [Some [CR; 88]] 0) 8 dev0 = Some (0, d')).
Proof.
  split; [|split; [|split]].
  - eexists. split; [vm_compute; reflexivity|]. vm_compute. reflexivity.
  - eexists. split; [vm_compute; reflexivity|].
    split; vm_compute; reflexivity.
  - eexists. split; [vm_compute; reflexivity|]. vm_compute. reflexivity.
  - eexists. vm_compute. reflexivity.
Qed.

(** C7 fails on the code.  An ACK that comes as the fifth byte is honoured,
    but after five bytes that are not the ACK the loop of [wxgetack] reads a
    sixth time and only then gives up, without looking at the byte it got
    (an ACK here); and when the first read times out with no byte at all,
    the comparison is made on the uninitialised [ackbuf], so that the
    command succeeds although no read returned an ACK. *)
Theorem C7_ack_reads :
  (exists d',
     wxcmd (station [Some [88]; Some [88]; Some [88]; Some [88]; Some [ACK]]
                    0) 8 VPLOOPCMD dev0 = Some (0, d')
     /\ length (reads_of (trace d')) = 5%nat)
  /\ (exists d',
        wxcmd (station [Some [88]; Some [88]; Some [88]; Some [88];
                        Some [88]; Some [ACK]] 0) 8 VPLOOPCMD dev0
        = Some (-1, d')
        /\ reads_of (trace d')
           = [Some [88]; Some [88]; Some [88]; Some [88]; Some [88];
              Some [ACK]])
  /\ (exists d',
        wxcmd (station [] ACK) 8 VPLOOPCMD dev0 = Some (0, d')
        /\ reads_of (trace d') = [Some []]).
Proof.
  split; [|split]; eexists.
  - split; [vm_compute; reflexivity|]. vm_compute. reflexivity.
  - split; [vm_compute; reflexivity|]. vm_compute. reflexivity.
  - split; [vm_compute; reflexivity|]. vm_compute. reflexivity.
Qed.

(** ** The CRC gate of [wxgetloop] *)

Ltac io_inv H a d Ha :=
  apply io_bind_Some in H; destruct H as (a & d & Ha & H).

Lemma alloca_Some (env : oracle) (n : nat) (d d' : dev) (l : list Z) :
  alloca env n d = Some (l, d') ->
  l = map (fun k => o_stack env (n_stack d + k)%nat) (seq 0 n)
  /\ trace d' = trace d.
Proof. unfold alloca. intros H. inversion H. split; reflexivity. Qed.

Lemma store_length (buf : list Z) (off : nat) (bs : list Z) :
  (off + length bs <= length buf)%nat ->
  length (store buf off bs) = length buf.
Proof.
  intros H. unfold store.
  rewrite !length_app, length_take, length_drop. lia.
Qed.

(** [wxread] writes inside the buffer it is given. *)
Lemma wxread_loop_length (env : oracle) (fuel : nat) :
  forall expire buf len remaining timeout d rc buf' d',
    0 <= remaining <= len -> len <= Z.of_nat (length buf) ->
    wxread_loop env fuel expire buf len remaining timeout d
    = Some ((rc, buf'), d') ->
    length buf' = length buf.
Proof.
  induction fuel as [|fuel IH];
    intros expire buf len remaining timeout d rc buf' d' Hrem Hlen H.
  - discriminate.
  - cbn [wxread_loop] in H.
    destruct ((remaining >? 0) && (timeout >? 0)).
    + io_inv H r d1 Hset.
      destruct (r =? -1).
      { apply io_ret_Some in H. destruct H as [H _]. inversion H.
        reflexivity. }
      io_inv H got d2 Hgot.
      destruct got as [bs|].
      2:{ apply io_ret_Some in H. destruct H as [H _]. inversion H.
          reflexivity. }
      io_inv H now d3 Hnow.
      assert (Hbs : (length bs <= Z.to_nat remaining)%nat).
      { unfold sys_read in Hgot. inversion Hgot as [[Hg Hd]].
        destruct (o_read env (n_read d1)) as [l|]; [|discriminate].
        cbn in Hg. inversion Hg. rewrite length_take. lia. }
      apply IH in H; [|lia|].
      * rewrite H. apply store_length. lia.
      * rewrite store_length by lia. exact Hlen.
    + apply io_ret_Some in H. destruct H as [H _]. inversion H.
      reflexivity.
Qed.

Lemma wxread_length (env : oracle) (fuel : nat) (buf : list Z)
    (len timeout : Z) (d d' : dev) (rc : Z) (buf' : list Z) :
  len <= Z.of_nat (length buf) ->
  wxread env fuel buf len timeout d = Some ((rc, buf'), d') ->
  length buf' = length buf.
Proof.
  intros Hlen H. unfold wxread in H.
  destruct ((timeout <=? 0) || (timeout >? MAX_TIMEOUT)).
  { apply io_ret_Some in H. destruct H as [H _]. inversion H. reflexivity. }
  destruct (Z.eqb_spec len 0) as [->|Hnz]; cbn [orb] in H.
  { apply io_ret_Some in H. destruct H as [H _]. inversion H. reflexivity. }
  destruct (Z.gtb_spec len MAX_READ).
  { apply io_ret_Some in H. destruct H as [H _]. inversion H. reflexivity. }
  io_inv H t d1 Ht.
  destruct (Z.le_gt_cases 0 len).
  - eapply wxread_loop_length; [| |exact H]; lia.
  - destruct fuel; [discriminate|]. cbn [wxread_loop] in H.
    destruct (Z.gtb_spec len 0); [lia|]. cbn [andb] in H.
    apply io_ret_Some in H. destruct H as [H _]. inversion H. reflexivity.
Qed.

(** The region handed to the CRC routine holds the checksum bytes. *)
Lemma crc_region_checksum (ld : list Z) (after : Z) :
  length ld = 99%nat ->
  crc_region (ld ++ [after]) VPLOOPSIZE !! 96%nat = ld !! 97%nat
  /\ crc_region (ld ++ [after]) VPLOOPSIZE !! 97%nat = ld !! 98%nat.
Proof.
  intros Hlen. unfold crc_region, VPLOOPSIZE.
  change (Z.to_nat 99) with 99%nat.
  split.
  - rewrite lookup_take_lt by lia. rewrite lookup_drop.
    apply lookup_app_l. lia.
  - rewrite lookup_take_lt by lia. rewrite lookup_drop.
    apply lookup_app_l. lia.
Qed.

(** The gate of [wxgetloop], for every CRC routine: the bytes handed to the
    routine contain the two trailing checksum bytes of the record; when the
    routine returns anything but 0 the record is discarded and never decoded,
    and the sample and the gust tracker are left as they were.  The sample
    changes only through the decoder, run on a complete record for which the
    routine returned 0. *)
Lemma wxgetloop_crc_gate (env : oracle) (wxcrc : list Z -> Z) (lm : libm)
    (iv : Z) (mok : bool) (fuel gfuel : nat) (g g' : gust_state)
    (w w' : wxdat_t) (d d' : dev) (tag : loop_exit) :
  wxgetloop env wxcrc lm iv mok fuel gfuel g w d = Some ((tag, g', w'), d') ->
  match tag with
  | LoopBadCrc ld =>
      exists after,
        length ld = 99%nat
        /\ wxcrc (crc_region (ld ++ [after]) VPLOOPSIZE) <> 0
        /\ crc_region (ld ++ [after]) VPLOOPSIZE !! 96%nat = ld !! 97%nat
        /\ crc_region (ld ++ [after]) VPLOOPSIZE !! 97%nat = ld !! 98%nat
        /\ g' = g /\ w' = w
  | LoopDecoded ld =>
      exists after,
        length ld = 99%nat
        /\ wxcrc (crc_region (ld ++ [after]) VPLOOPSIZE) = 0
        /\ crc_region (ld ++ [after]) VPLOOPSIZE !! 96%nat = ld !! 97%nat
        /\ crc_region (ld ++ [after]) VPLOOPSIZE !! 97%nat = ld !! 98%nat
        /\ cvtvploop2fwx lm gfuel iv mok (vploop_of_bytes ld) g w
           = Some (g', w')
  | _ => g' = g /\ w' = w
  end.
Proof.
  intros H. unfold wxgetloop in H.
  io_inv H i d1 Hwake. io_inv H r d2 Hcmd.
  destruct (negb (r =? 0)).
  { apply io_ret_Some in H. destruct H as [H _]. inversion H; subst.
    split; reflexivity. }
  io_inv H ld0 d3 Hld0. io_inv H aft d4 Haft. io_inv H x d5 Hread.
  destruct x as [rc ld].
  destruct (rc =? -1).
  { apply io_ret_Some in H. destruct H as [H _]. inversion H; subst.
    split; reflexivity. }
  destruct (Z.eqb_spec rc VPLOOPSIZE) as [->|Hrc]; cbn [negb] in H.
  2:{ apply io_ret_Some in H. destruct H as [H _]. inversion H; subst.
      split; reflexivity. }
  assert (Hlen : length ld = 99%nat).
  { apply wxread_length in Hread.
    - rewrite Hread. apply alloca_Some in Hld0. destruct Hld0 as [-> _].
      rewrite length_map, length_seq. reflexivity.
    - apply alloca_Some in Hld0. destruct Hld0 as [-> _].
      rewrite length_map, length_seq. unfold VPLOOPSIZE. lia. }
  apply alloca_Some in Haft. destruct Haft as [Haft _].
  cbn [seq map] in Haft. subst aft.
  destruct (crc_region_checksum ld (o_stack env (n_stack d3 + 0)) Hlen)
    as [Hhi Hlo].
  destruct (Z.eqb_spec (wxcrc (crc_region
              (ld ++ [o_stack env (n_stack d3 + 0)%nat]) VPLOOPSIZE)) 0)
    as [Hcrc|Hcrc]; cbn [negb] in H.
  - destruct (cvtvploop2fwx lm gfuel iv mok (vploop_of_bytes ld) g w)
      as [[g1 w1]|] eqn:Hcvt;
      [|discriminate].
    apply io_ret_Some in H. destruct H as [H _]. inversion H; subst.
    exists (o_stack env (n_stack d3 + 0)%nat). repeat split; assumption.
  - apply io_ret_Some in H. destruct H as [H _]. inversion H; subst.
    exists (o_stack env (n_stack d3 + 0)%nat). repeat split; assumption.
Qed.

Lemma all_from_spec (n : nat) (f : Z -> bool) :
  forall lo, all_from n lo f = true ->
             forall r, lo <= r < lo + Z.of_nat n -> f r = true.
Proof.
  induction n as [|n IH]; intros lo H r Hr; [lia|].
  cbn [all_from] in H. apply andb_true_iff in H. destruct H as [H0 H1].
  destruct (Z.eq_dec r lo) as [->|Hne]; [exact H0|].
  apply (IH (lo + 1) H1). lia.
Qed.

(** The region handed to the CRC routine is the record without its first
    byte, followed by the byte behind it. *)
Lemma crc_region_shifted (ld : list Z) (after : Z) :
  length ld = 99%nat ->
  crc_region (ld ++ [after]) VPLOOPSIZE = drop 1 ld ++ [after].
Proof.
  intros Hlen. unfold crc_region, VPLOOPSIZE.
  change (Z.to_nat 99) with 99%nat.
  rewrite drop_app_le by lia.
  rewrite take_ge; [reflexivity|].
  rewrite length_app, length_drop. cbn [length]. lia.
Qed.

Lemma bad_crc_exit_true (ld : list Z)
    (r : option (loop_exit * gust_state * wxdat_t * dev)) :
  bad_crc_exit ld r = true ->
  exists g w d, r = Some (LoopBadCrc ld, g, w, d).
Proof.
  unfold bad_crc_exit. intros H.
  destruct r as [[[[tag g] w] d]|]; [|discriminate H].
  destruct tag as [| | |ld'|ld']; try discriminate H.
  destruct (decide (ld' = ld)) as [->|]; [|discriminate H].
  eauto.
Qed.

(** Whatever byte lies behind it, the poll gives [record_sealed] up for its
    checksum. *)
Lemma record_sealed_rejected :
  all_from 256 0 (fun b =>
    bad_crc_exit record_sealed
      (wxgetloop
         (station [Some [NL; CR]; Some [ACK]; Some record_sealed] b)
         crc16_ccitt libm_series 30 true 8 10 gust_breeze
         (wxdat_zero 0) dev0)) = true.
Proof. vm_cast_no_check (eq_refl true). Qed.

(** C2 fails on the code.  [wxgetloop] hands the CRC routine the bytes from
    the second byte of the record to one byte behind it, and not the record.
    With the CCITT CRC-16 for [wxcrc]: the record [record_sealed] carries the
    CRC of its first 97 bytes in its last two (the residual over the whole
    record is 0), yet whatever byte lies behind it in memory, the poll gives
    it up as a CRC error and leaves the sample as it was; and the record
    [record_L], whose checksum field does not match the CRC of its first 97
    bytes (the residual over the record is not 0), is decoded into the
    sample when the byte behind it is 0. *)
Theorem C2_crc_off_by_one :
  (crc16_ccitt record_sealed = 0
   /\ crc16_ccitt (take 97 record_sealed)
      = 256 * ld_crc_hi record_sealed + ld_crc_lo record_sealed
   /\ forall after, 0 <= after < 256 ->
        crc_region (record_sealed ++ [after]) VPLOOPSIZE
        = drop 1 record_sealed ++ [after]
        /\ exists d',
             wxgetloop
               (station [Some [NL; CR]; Some [ACK]; Some record_sealed] after)
               crc16_ccitt libm_series 30 true 8 10 gust_breeze
               (wxdat_zero 0) dev0
             = Some ((LoopBadCrc record_sealed, gust_breeze, wxdat_zero 0),
                     d'))
  /\ (crc16_ccitt record_L <> 0
      /\ crc16_ccitt (take 97 record_L)
         <> 256 * ld_crc_hi record_L + ld_crc_lo record_L
      /\ exists g' w' d',
           wxgetloop (station [Some [NL; CR]; Some [ACK]; Some record_L] 0)
             crc16_ccitt libm_series 30 true 8 10 gust_breeze (wxdat_zero 0)
             dev0
           = Some ((LoopDecoded record_L, g', w'), d')
           /\ w' <> wxdat_zero 0).
Proof.
  split.
  - split; [vm_compute; reflexivity|].
    split; [vm_compute; reflexivity|].
    intros after Hafter. split.
    + apply crc_region_shifted. vm_compute. reflexivity.
    + pose proof (all_from_spec _ _ _ record_sealed_rejected after
                    ltac:(cbn; lia)) as Hb.
      cbv beta in Hb. apply bad_crc_exit_true in Hb.
      destruct Hb as (g1 & w1 & d1 & Hrun).
      pose proof Hrun as Hgate. apply wxgetloop_crc_gate in Hgate.
      destruct Hgate as (a0 & _ & _ & _ & _ & Hg & Hw). subst g1 w1.
      exists d1. exact Hrun.
  - split; [vm_compute; discriminate|].
    split; [vm_compute; discriminate|].
    do 3 eexists. split; [vm_compute; reflexivity|].
    intros H. apply (f_equal barometer) in H. vm_compute in H. discriminate.
Qed.

(** ** The dewpoint of a decoded record *)

(** C4 fails on the code.  [wxcalcdewpoint] decides on the unit system by
    the flags of the outdoor humidity, which the decoder never flags
    English, so for a decoded record the Fahrenheit branch is never taken:
    the dewpoint is never flagged English, and when it is valid it is the
    Sonntag formula applied to the outdoor temperature as it stands (in
    deg F, flagged English), labelled "deg C" and flagged metric. *)
Theorem C4_dewpoint_never_english (lm : libm) (fuel : nat) (iv : Z)
    (mok : bool) (ld : vploopdata_t) (g g' : gust_state) (t : Z) (w' : wxdat_t) :
  cvtvploop2fwx lm fuel iv mok ld g (wxdat_zero t) = Some (g', w') ->
  WXD_ISENGLISH (outdoordewpoint w') = 0
  /\ (WXD_ISVALID (outdoordewpoint w') <> 0 ->
      WXD_ISENGLISH (outdoortemp w') <> 0
      /\ units (outdoortemp w') = Some "deg F"%string
      /\ outdoordewpoint w'
         = mk_wxd (sonntag lm (dat (outdoortemp w')) (dat (outdoorhum w')))
                  (Z.lor (Z.lor WXD_VALID WXD_METRIC) 1)
                  (Some "deg C"%string)).
Proof.
  intros H. apply cvtvploop2fwx_Some in H. destruct H as [wg ->].
  unfold cvt_fields, wxcalcdewpoint.
  cbn [outdoortemp outdoorhum outdoordewpoint set_outdoordewpoint
       wxdat_zero cvt_field flags dat units WXD_ISVALID WXD_ISENGLISH].
  destruct (temp_ok (tempOut ld));
    destruct (negb (humOut ld =? EIGHT_ONES) && (humOut ld <=? 100));
    cbn [wxd_zero_f flags dat units];
    repeat match goal with
           | |- context [if ?c then _ else _] =>
               let E := fresh "E" in
               destruct c eqn:E; try discriminate E
           end;
    cbn [outdoortemp outdoorhum outdoordewpoint set_outdoordewpoint
       wxdat_zero cvt_field flags dat units WXD_ISVALID WXD_ISENGLISH
       wxd_zero_f];
    (split; [reflexivity|]); intros Hv;
    try (exfalso; apply Hv; reflexivity);
    repeat split; try reflexivity; try discriminate.
Qed.

Lemma C4_dewpoint_never_english_witness :
  exists g' w',
    cvtvploop2fwx libm_series 10 30 true (vploop_of_bytes record_72F_50)
      gust_breeze (wxdat_zero 0) = Some (g', w')
    /\ WXD_ISENGLISH (outdoordewpoint w') = 0
    /\ (WXD_ISVALID (outdoordewpoint w') <> 0 ->
        WXD_ISENGLISH (outdoortemp w') <> 0
        /\ units (outdoortemp w') = Some "deg F"%string
        /\ outdoordewpoint w'
           = mk_wxd (sonntag libm_series (dat (outdoortemp w'))
                       (dat (outdoorhum w')))
                    (Z.lor (Z.lor WXD_VALID WXD_METRIC) 1)
                    (Some "deg C"%string)).
Proof.
  eexists. eexists. split; [vm_compute; reflexivity|].
  eapply (C4_dewpoint_never_english libm_series 10 30 true
            (vploop_of_bytes record_72F_50) gust_breeze _ 0).
  vm_compute. reflexivity.
Defined.

(** With the series libm and a wind history that holds a reading above 0:
    the record with 72.3 deg F and 50 % is logged with a dewpoint of 57.0,
    where the conversion the claim describes gives 52.6. *)
Example dewpoint_72F_50 :
  exists g' w',
    cvtvploop2fwx libm_series 10 30 true (vploop_of_bytes record_72F_50)
      gust_breeze (wxdat_zero 0) = Some (g', w')
    /\ fmt_f 1 (dat (outdoortemp w')) = "72.3"%string
    /\ fmt_f 0 (dat (outdoorhum w')) = "50"%string
    /\ WXD_ISVALID (outdoordewpoint w') <> 0
    /\ fmt_f 1 (dat (outdoordewpoint w')) = "57.0"%string
    /\ fmt_f 1 (dewpoint_fahrenheit libm_series (dat (outdoortemp w'))
                  (dat (outdoorhum w'))) = "52.6"%string.
Proof.
  eexists. eexists. split; [vm_compute; reflexivity|].
  split; [vm_compute; reflexivity|].
  split; [vm_compute; reflexivity|].
  split; [vm_compute; discriminate|].
  split; vm_compute; reflexivity.
Qed.

(** ** The gust tracker over several cycles *)

(** C6 fails on the code, by the defect of C10.  With a window of ten slots
    (sampling interval 61 s), after a reading of 5 mph and ten calm
    readings the window holds no speed above 0: the eleventh call compares
    nothing above [gust = 0] and returns [&warr[found]] with [found]
    unassigned, where the claim has it return the oldest of the calm
    observations. *)
Theorem C6_calm_window_unassigned :
  exists st,
    gust_feed 10 61 gust_state0 (mk_wind 5 90 :: repeat (mk_wind 0 0) 10)
    = Some (st, repeat (Some (mk_wind 5 90)) 10 ++ [None])
    /\ tenmin st = 10.
Proof.
  eexists. split; [vm_compute; reflexivity|]. vm_compute. reflexivity.
Qed.

(** The scenario of the claim does hold: readings of 5 mph, one of 40 mph,
    readings of 5 mph again, each with its own direction.  The gust is the
    40 mph reading for the ten cycles that start with its own, and a 5 mph
    reading before and after; among equal speeds the oldest of the window
    is returned. *)
Example gust_spike_scenario :
  exists st,
    gust_feed 10 61 gust_state0
      (map (mk_wind 5) [1; 2; 3; 4; 5; 6; 7; 8; 9; 10; 11; 12]
       ++ [mk_wind 40 13]
       ++ map (mk_wind 5) [14; 15; 16; 17; 18; 19; 20; 21; 22; 23; 24; 25])
    = Some (st,
            map (fun d => Some (mk_wind 5 d))
                [1; 1; 1; 1; 1; 1; 1; 1; 1; 1; 2; 3]
            ++ repeat (Some (mk_wind 40 13)) 10
            ++ map (fun d => Some (mk_wind 5 d)) [14; 15; 16]).
Proof.
  eexists. vm_compute. reflexivity.
Qed.

(** ** The log line *)

(** C8 fails on the code.  For an invalid field the function stores a comma
    and a NUL and moves the cursor past both, so everything written after
    the first invalid field lies behind the end of the string that
    [fprintf] prints.  The sample with only the barometer and the outdoor
    temperature valid is logged as ["0,5,1064905402,29.921,,,"] and a
    newline: 6 commas, where the documented format has 17 columns. *)
Theorem C8_line_truncated :
  wxlog true 0 "/var/fwx" "/2003.09.30.fwx" sample_bar_temp
  = Some ("/var/fwx/2003.09.30.fwx"%string,
          ("0,5,1064905402,29.921,,," ++ newline)%string)
  /\ ("0,5,1064905402,29.921,,," ++ newline)%string
     <> ("0,5,1064905402,29.921,,,,,72.3,,,,,,,,," ++ newline)%string.
Proof.
  split; [vm_compute; reflexivity|vm_compute; discriminate].
Qed.

(** ** The CWOP rate limit *)



(** When every field is valid the line has the 17 columns of the format
    (the dewpoint column carries the value of C4). *)
Example log_line_all_valid :
  exists g' w',
    cvtvploop2fwx libm_series 10 30 true (vploop_of_bytes record_fair)
      gust_state0 (wxdat_zero 1064905402) = Some (g', w')
    /\ wxlog true 0 "/var/fwx" "/2003.09.30.fwx" w'
       = Some ("/var/fwx/2003.09.30.fwx"%string,
               ("0,5,1064905402,29.921,5,180,4,70.0,72.3,57.0,40,50,"
                ++ "0.00,0.12,1.20,12.00,300," ++ newline)%string).
Proof.
  eexists. eexists.
  split; [vm_compute; reflexivity|].
  vm_compute. reflexivity.
Qed.

(** ** What the scan returns when the window is not calm *)

Lemma scan_fold_spec (a : list wind_t) (wl f : Z) (l : list Z) :
  let ws := map (fun i => warr_get a (Z.land (f + i) (wl - 1))) l in
  let r := fold_left (scan_step a wl f) l (0, None) in
  match snd r with
  | None => fst r = 0 /\ Forall (fun x => speed x <= 0) ws
  | Some idx =>
      fst r = speed (warr_get a idx) /\ 0 < fst r
      /\ first_max ws (warr_get a idx)
  end.
Proof.
  induction l as [|i l IH] using rev_ind; cbn zeta.
  - cbn. split; [reflexivity|constructor].
  - cbn zeta in IH. rewrite fold_left_app, map_app. cbn [fold_left map].
    set (r := fold_left (scan_step a wl f) l (0, None)) in *.
    set (ws := map (fun i => warr_get a (Z.land (f + i) (wl - 1))) l) in *.
    unfold scan_step. clearbody ws r.
    destruct (Z.gtb_spec (speed (warr_get a (Z.land (f + i) (wl - 1))))
                (fst r)) as [Hgt|Hle]; cbn [fst snd].
    + (* a new maximum: the slot just read *)
      split; [reflexivity|].
      assert (Hall : Forall (fun y => speed y <= fst r) ws).
      { destruct (snd r) as [idx|].
        - destruct IH as (Hr & _ & (j & _ & Hall & _)).
          rewrite Hr. exact Hall.
        - destruct IH as (Hr & Hall). rewrite Hr. exact Hall. }
      assert (Hpos : 0 <= fst r).
      { destruct (snd r) as [idx|]; destruct IH as (Hr & IH);
          [destruct IH as (IH & _)|]; lia. }
      split; [lia|].
      exists (length ws). split; [|split].
      * rewrite lookup_app_r by lia. rewrite Nat.sub_diag. reflexivity.
      * apply Forall_app. split.
        -- eapply Forall_impl; [exact Hall|].
           intros y Hy. cbv beta in Hy |- *. lia.
        -- constructor; [lia|constructor].
      * intros j' y Hj' Hy. rewrite lookup_app_l in Hy by lia.
        rewrite Forall_forall in Hall.
        specialize (Hall y).
        assert (y ∈ ws) as Hin by (eapply list_elem_of_lookup_2; exact Hy).
        specialize (Hall Hin).
        cbv beta in Hall. lia.
    + (* the maximum so far stays *)
      destruct (snd r) as [idx|].
      * destruct IH as (Hr & Hp & (j & Hj & Hall & Hbefore)).
        split; [exact Hr|]. split; [exact Hp|].
        exists j. split; [|split].
        -- rewrite lookup_app_l; [exact Hj|].
           apply lookup_lt_Some in Hj. exact Hj.
        -- apply Forall_app. split; [exact Hall|].
           constructor; [lia|constructor].
        -- intros j' y Hj' Hy. apply (Hbefore j' y Hj').
           rewrite lookup_app_l in Hy; [exact Hy|].
           apply lookup_lt_Some in Hj. lia.
      * destruct IH as (Hr & Hall). split; [exact Hr|].
        apply Forall_app. split; [exact Hall|].
        constructor; [lia|constructor].
Qed.

(** Whenever [found] is assigned, the call returns the first observation of
    greatest speed among the slots of the window, taken oldest first; it is
    left unassigned exactly when no slot of the window has a speed above
    0. *)
Lemma gust_record_first_max (st : gust_state) (wp : wind_t) :
  let st' := fst (gust_record st wp) in
  let ws := scan_window (warr st') (walen st) (tenmin st)
              (Z.land (waidx st' + (walen st - tenmin st)) (walen st - 1)) in
  match gust_deref st' (snd (gust_record st wp)) with
  | Some w => first_max ws w /\ 0 < speed w
  | None => Forall (fun x => speed x <= 0) ws
  end.
Proof.
  cbn zeta. unfold gust_record. cbn [fst snd warr waidx gust_deref].
  unfold scan, scan_window.
  set (a := <[Z.to_nat (waidx st) := wp]> (warr st)).
  set (f := Z.land (Z.land (waidx st + 1) (walen st - 1)
                    + (walen st - tenmin st)) (walen st - 1)).
  pose proof (scan_fold_spec a (walen st) f (scan_range (tenmin st))) as H.
  cbn zeta in H.
  destruct (snd (fold_left (scan_step a (walen st) f)
                   (scan_range (tenmin st)) (0, None))) as [idx|].
  - destruct H as (Hr & Hp & Hmax). split; [exact Hmax|lia].
  - destruct H as (_ & Hall). exact Hall.
Qed.

(** ** The ring buffer *)

Lemma land_mask (a k : Z) : 0 <= k -> Z.land a (2 ^ k - 1) = a mod 2 ^ k.
Proof.
  intros Hk. rewrite <- Z.land_ones by exact Hk.
  rewrite Z.ones_equiv. reflexivity.
Qed.

Lemma mod_shift_ne (n j m : Z) :
  0 < j < m -> (n - j) mod m <> n mod m.
Proof.
  intros Hj Heq.
  assert (Hz : (n - (n - j)) mod m = 0).
  { rewrite Zminus_mod, Heq, Z.sub_diag. apply Z.mod_0_l. lia. }
  replace (n - (n - j)) with j in Hz by lia.
  rewrite Z.mod_small in Hz; lia.
Qed.

(** Recording an observation keeps the buffer in shape: the observation
    goes over the oldest slot and the cursor advances modulo the capacity. *)
Lemma gust_record_wf (k tm : Z) (h : list wind_t) (st : gust_state)
    (wp : wind_t) :
  gust_wf k tm h st -> gust_wf k tm (h ++ [wp]) (fst (gust_record st wp)).
Proof.
  intros (Hk & Hwl & Htm & Hrange & Hlen & Hidx & Hslots).
  assert (Hpow : 0 < 2 ^ k) by (apply Z.pow_pos_nonneg; lia).
  pose proof (Z.mod_pos_bound (Z.of_nat (length h)) (2 ^ k) Hpow) as Hb.
  unfold gust_wf, gust_record. cbn [fst warr walen waidx tenmin].
  split; [exact Hk|]. split; [exact Hwl|]. split; [exact Htm|].
  split; [exact Hrange|]. split; [|split].
  - rewrite length_insert. exact Hlen.
  - rewrite Hwl, land_mask by lia. rewrite Hidx.
    rewrite Z.add_mod_idemp_l by lia.
    rewrite length_app. cbn [length]. f_equal. lia.
  - intros j Hj. rewrite length_app, rev_app_distr. cbn [length rev app].
    replace (Z.of_nat (length h + 1) - 1 - Z.of_nat j)
      with (Z.of_nat (length h) - Z.of_nat j) by lia.
    unfold warr_get. destruct j as [|j].
    + cbn [nth]. rewrite Z.sub_0_r, Hidx.
      rewrite list_lookup_insert_eq by lia. reflexivity.
    + cbn [nth]. rewrite list_lookup_insert_ne.
      * specialize (Hslots j ltac:(lia)). unfold warr_get in Hslots.
        replace (Z.of_nat (length h) - Z.of_nat (S j))
          with (Z.of_nat (length h) - 1 - Z.of_nat j) by lia.
        exact Hslots.
      * rewrite Hidx. intros Heq. apply Z2Nat.inj in Heq.
        -- symmetry in Heq. revert Heq. apply mod_shift_ne. lia.
        -- lia.
        -- apply Z.mod_pos_bound. lia.
Qed.

(** The slots the scan visits are the [tenmin] most recent observations,
    the new one included, oldest first. *)
Lemma gust_record_window (k tm : Z) (h : list wind_t) (st : gust_state)
    (wp : wind_t) :
  gust_wf k tm h st ->
  let st' := fst (gust_record st wp) in
  scan_window (warr st') (walen st) (tenmin st)
    (Z.land (waidx st' + (walen st - tenmin st)) (walen st - 1))
  = recent (h ++ [wp]) tm.
Proof.
  intros Hwf. pose proof (gust_record_wf k tm h st wp Hwf) as Hwf'.
  destruct Hwf as (Hk & Hwl & Htm & Hrange & _).
  destruct Hwf' as (_ & _ & _ & _ & _ & Hidx' & Hslots').
  cbn zeta. unfold scan_window, recent.
  unfold gust_record in *. cbn [fst warr walen waidx tenmin] in *.
  rewrite Hidx', Hwl, Htm.
  assert (Hpow : 0 < 2 ^ k) by (apply Z.pow_pos_nonneg; lia).
  unfold scan_range. rewrite !map_map.
  apply map_ext_in. intros i Hi. apply in_seq in Hi.
  rewrite !land_mask by lia.
  rewrite Z.add_mod_idemp_l by lia.
  rewrite <- Z.add_assoc, Z.add_mod_idemp_l by lia.
  specialize (Hslots' (Z.to_nat (tm - 1 - Z.of_nat i)) ltac:(lia)).
  rewrite <- Hslots'.
  f_equal.
  rewrite Z2Nat.id by lia.
  replace (Z.of_nat (length (h ++ [wp])) + (2 ^ k - tm + Z.of_nat i))
    with (Z.of_nat (length (h ++ [wp])) - 1 - (tm - 1 - Z.of_nat i)
          + 1 * 2 ^ k) by lia.
  apply Z.mod_add. lia.
Qed.

Lemma gust_record_outcome (k tm : Z) (h : list wind_t) (st : gust_state)
    (wp : wind_t) :
  gust_wf k tm h st ->
  gust_outcome (h ++ [wp]) tm
    (gust_deref (fst (gust_record st wp)) (snd (gust_record st wp))).
Proof.
  intros Hwf.
  pose proof (gust_record_first_max st wp) as Hmax.
  pose proof (gust_record_window k tm h st wp Hwf) as Hwin.
  cbn zeta in Hmax, Hwin. rewrite Hwin in Hmax.
  unfold gust_outcome. exact Hmax.
Qed.

Lemma gust_fresh_wf (iv : Z) :
  1 <= iv ->
  gust_wf (Z.log2 (Z.quot (10 * 60) iv + 1) + 1) (Z.quot (10 * 60) iv + 1)
    [] (gust_fresh iv).
Proof.
  intros Hiv. change (10 * 60) with 600.
  pose proof (tenmin_bounds iv Hiv) as Hb.
  set (tm := Z.quot 600 iv + 1) in *.
  pose proof (Z.log2_nonneg tm) as Hlog.
  destruct (pow2_gt_log2 tm ltac:(lia)) as (_ & Hlt & _).
  unfold gust_wf, gust_fresh. change (10 * 60) with 600. fold tm.
  cbn [warr walen waidx tenmin length rev].
  split; [lia|]. split; [reflexivity|]. split; [reflexivity|].
  split; [lia|]. split; [|split].
  - apply length_replicate.
  - rewrite Z.mod_0_l; [reflexivity|lia].
  - intros j Hj. unfold warr_get.
    destruct (replicate _ wind_zero !! _) as [x|] eqn:Hx.
    + apply lookup_replicate in Hx. destruct Hx as [-> _].
      destruct j; reflexivity.
    + destruct j; reflexivity.
Qed.

Lemma wxcalcwindgust_wf (fuel : nat) (iv k tm : Z) (h : list wind_t)
    (st : gust_state) (wp : wind_t) :
  gust_wf k tm h st ->
  wxcalcwindgust fuel iv true st wp = Some (gust_record st wp).
Proof.
  intros (Hk & Hwl & _). unfold wxcalcwindgust.
  assert (0 < 2 ^ k) by (apply Z.pow_pos_nonneg; lia).
  destruct (Z.eqb_spec (walen st) 0); [lia|reflexivity].
Qed.

Lemma gust_feed_wf (fuel : nat) (iv k tm : Z) (obs : list wind_t) :
  forall (h : list wind_t) (st : gust_state),
    gust_wf k tm h st ->
    exists st' rs,
      gust_feed fuel iv st obs = Some (st', rs)
      /\ gust_wf k tm (h ++ obs) st'
      /\ forall i : nat,
           (i < length obs)%nat ->
           exists r, rs !! i = Some r
                     /\ gust_outcome (h ++ take (S i) obs) tm r.
Proof.
  induction obs as [|wp obs IH]; intros h st Hwf.
  - exists st, []. cbn. rewrite app_nil_r.
    split; [reflexivity|]. split; [exact Hwf|]. intros i Hi. lia.
  - cbn [gust_feed].
    rewrite (wxcalcwindgust_wf fuel iv k tm h st wp Hwf).
    pose proof (gust_record_wf k tm h st wp Hwf) as Hwf'.
    pose proof (gust_record_outcome k tm h st wp Hwf) as Hout.
    destruct (gust_record st wp) as [st1 r1]. cbn [fst snd] in *.
    destruct (IH (h ++ [wp]) st1 Hwf') as (st' & rs & Hfeed & Hwf'' & Hrs).
    rewrite Hfeed. exists st', (gust_deref st1 r1 :: rs).
    split; [reflexivity|].
    rewrite <- app_assoc in Hwf''. split; [exact Hwf''|].
    intros [|i] Hi.
    + exists (gust_deref st1 r1). split; [reflexivity|].
      cbn [take]. rewrite take_0. exact Hout.
    + cbn [length] in Hi. destruct (Hrs i ltac:(lia)) as (r & Hr & Ho).
      exists r. split; [exact Hr|].
      rewrite <- app_assoc in Ho. exact Ho.
Qed.

(** From a fresh tracker and for every positive interval, every call
    completes, and what the [i]-th call hands back is the first observation
    of greatest speed among the [tenmin] most recent ones, unless the
    window is calm. *)
Theorem gust_feed_outcomes (fuel : nat) (iv : Z) (obs : list wind_t) :
  1 <= iv -> (10 <= fuel)%nat ->
  exists st rs,
    gust_feed fuel iv gust_state0 obs = Some (st, rs)
    /\ forall i : nat,
         (i < length obs)%nat ->
         exists r, rs !! i = Some r
                   /\ gust_outcome (take (S i) obs)
                        (Z.quot (10 * 60) iv + 1) r.
Proof.
  intros Hiv Hfuel.
  pose proof (gust_fresh_wf iv Hiv) as Hwf.
  destruct obs as [|wp obs].
  - exists gust_state0, []. split; [reflexivity|]. cbn. intros i Hi. lia.
  - destruct (gust_feed_wf fuel iv _ _ (wp :: obs) [] (gust_fresh iv) Hwf)
      as (st & rs & Hfeed & _ & Hrs).
    exists st, rs. split; [|exact Hrs].
    rewrite <- Hfeed. cbn [gust_feed].
    rewrite (wxcalcwindgust_wf fuel iv _ _ [] (gust_fresh iv) wp Hwf).
    unfold wxcalcwindgust. cbn [walen gust_state0 Z.eqb].
    rewrite gust_sizing_pow2 by assumption. reflexivity.
Qed.

(** ** What a polling cycle writes to the station *)

Lemma writes_of_app (t1 t2 : list event) :
  writes_of (t1 ++ t2) = writes_of t1 ++ writes_of t2.
Proof. unfold writes_of. apply omap_app. Qed.

Lemma quiet_ret {A} (a : A) : quiet (io_ret a).
Proof. intros d b d' H. apply io_ret_Some in H. destruct H as [_ ->]. reflexivity. Qed.

Lemma quiet_bind {A B} (m : io A) (k : A -> io B) :
  quiet m -> (forall a, quiet (k a)) -> quiet (io_bind m k).
Proof.
  intros Hm Hk d b d' H. io_inv H a d1 Ha.
  rewrite (Hk a _ _ _ H). apply (Hm _ _ _ Ha).
Qed.

Lemma quiet_fail {A} : quiet (@io_fail A).
Proof. intros d a d' H. discriminate. Qed.

Lemma quiet_sys_time (env : oracle) : quiet (sys_time env).
Proof. intros d a d' H. inversion H. reflexivity. Qed.

Lemma quiet_sys_tcgetattr (env : oracle) : quiet (sys_tcgetattr env).
Proof. intros d a d' H. inversion H. reflexivity. Qed.

Lemma quiet_sys_tcsetattr (env : oracle) (vt : Z) (fl : bool) :
  quiet (sys_tcsetattr env vt fl).
Proof.
  intros d a d' H. inversion H. cbn [trace].
  destruct (o_tcset env (n_tcset d) && fl); [|reflexivity].
  rewrite writes_of_app. cbn. apply app_nil_r.
Qed.

Lemma quiet_sys_read (env : oracle) (want : Z) : quiet (sys_read env want).
Proof.
  intros d a d' H. inversion H. cbn [trace].
  rewrite writes_of_app. cbn. apply app_nil_r.
Qed.

Lemma quiet_alloca (env : oracle) (n : nat) : quiet (alloca env n).
Proof. intros d a d' H. inversion H. reflexivity. Qed.

Lemma sys_write_writes (env : oracle) (bs : list Z) (d d' : dev) (rc : Z) :
  sys_write env bs d = Some (rc, d') ->
  writes_of (trace d') = writes_of (trace d) ++ [bs].
Proof.
  intros H. inversion H. cbn [trace]. rewrite writes_of_app. reflexivity.
Qed.

Lemma quiet_wxsettimeout (env : oracle) (timeout : Z) :
  quiet (wxsettimeout env timeout).
Proof.
  unfold wxsettimeout. apply quiet_bind; [apply quiet_sys_tcgetattr|].
  intros ok. destruct (negb ok); [apply quiet_ret|].
  apply quiet_bind; [apply quiet_sys_tcsetattr|].
  intros ok'. destruct (negb ok'); apply quiet_ret.
Qed.

Lemma quiet_wxflush (env : oracle) : quiet (wxflush env).
Proof.
  unfold wxflush. apply quiet_bind; [apply quiet_sys_tcgetattr|].
  intros ok. destruct (negb ok); [apply quiet_ret|].
  intros d. revert d.
  change (quiet (fun d =>
            io_bind (sys_tcsetattr env (c_vtime d) true)
              (fun ok' => if negb ok' then io_ret (-1) else io_ret 0) d)).
  intros d a d' H.
  assert (Hq : quiet (io_bind (sys_tcsetattr env (c_vtime d) true)
                        (fun ok' => if negb ok' then io_ret (-1)
                                    else io_ret 0))).
  { apply quiet_bind; [apply quiet_sys_tcsetattr|].
    intros ok'. destruct (negb ok'); apply quiet_ret. }
  exact (Hq d a d' H).
Qed.

Lemma quiet_wxread_loop (env : oracle) (fuel : nat) :
  forall expire buf len remaining timeout,
    quiet (wxread_loop env fuel expire buf len remaining timeout).
Proof.
  induction fuel as [|fuel IH]; intros expire buf len remaining timeout.
  - apply quiet_fail.
  - cbn [wxread_loop].
    destruct ((remaining >? 0) && (timeout >? 0)); [|apply quiet_ret].
    apply quiet_bind; [apply quiet_wxsettimeout|].
    intros r. destruct (r =? -1); [apply quiet_ret|].
    apply quiet_bind; [apply quiet_sys_read|].
    intros [bs|]; [|apply quiet_ret].
    apply quiet_bind; [apply quiet_sys_time|].
    intros now. apply IH.
Qed.

Lemma quiet_wxread (env : oracle) (fuel : nat) (buf : list Z)
    (len timeout : Z) : quiet (wxread env fuel buf len timeout).
Proof.
  unfold wxread.
  destruct (_ || _); [apply quiet_ret|].
  destruct (_ || _); [apply quiet_ret|].
  apply quiet_bind; [apply quiet_sys_time|].
  intros t. apply quiet_wxread_loop.
Qed.

Lemma quiet_wxgetack (env : oracle) (fuel : nat) : quiet (wxgetack env fuel).
Proof.
  unfold wxgetack. apply quiet_bind; [apply quiet_alloca|].
  intros ackbuf. generalize 0 at 1. generalize 6%nat.
  intros n. revert ackbuf.
  induction n as [|n IH]; intros ackbuf i; cbn [wxgetack_loop].
  - apply quiet_fail.
  - apply quiet_bind; [apply quiet_wxread|].
    intros [rr ackbuf'].
    destruct (rr =? -1); [apply quiet_ret|].
    destruct (i >=? 5); [apply quiet_ret|].
    destruct (negb _); [apply IH|apply quiet_ret].
Qed.

(** A wake-up attempt writes its newline once at most. *)
Lemma wxwakeup_writes (env : oracle) (fuel : nat) (d d' : dev) (r : Z) :
  wxwakeup env fuel d = Some (r, d') ->
  writes_of (trace d') = writes_of (trace d)
  \/ writes_of (trace d') = writes_of (trace d) ++ [[NL]].
Proof.
  intros H. unfold wxwakeup in H.
  io_inv H r0 d1 Hflush. apply quiet_wxflush in Hflush.
  destruct (negb (r0 =? 0)).
  { apply io_ret_Some in H. destruct H as [_ ->]. left. exact Hflush. }
  io_inv H rc d2 Hwrite. apply sys_write_writes in Hwrite.
  rewrite Hflush in Hwrite.
  destruct (negb (rc =? 1)).
  { apply io_ret_Some in H. destruct H as [_ ->]. right. exact Hwrite. }
  io_inv H resp0 d3 Hal. apply quiet_alloca in Hal.
  io_inv H x d4 Hread. apply quiet_wxread in Hread.
  right. rewrite <- Hwrite, <- Hal, <- Hread.
  destruct x as [rr resp].
  destruct (rr =? -1).
  { apply io_ret_Some in H. destruct H as [_ ->]. reflexivity. }
  destruct (_ && _); apply io_ret_Some in H; destruct H as [_ ->];
    reflexivity.
Qed.

(** The wake loop makes at most as many attempts as it has iterations. *)
Lemma wake_loop_writes (env : oracle) (fuel : nat) (n : nat) :
  forall (i : Z) (d d' : dev) (r : Z),
    wake_loop env n fuel i d = Some (r, d') ->
    exists m : nat,
      (m <= n)%nat
      /\ writes_of (trace d') = writes_of (trace d) ++ repeat [NL] m.
Proof.
  induction n as [|n IH]; intros i d d' r H; cbn [wake_loop] in H.
  - apply io_ret_Some in H. destruct H as [_ ->].
    exists 0%nat. split; [lia|]. cbn. symmetry. apply app_nil_r.
  - io_inv H r0 d1 Hwake. apply wxwakeup_writes in Hwake.
    destruct (r0 =? 0).
    + apply io_ret_Some in H. destruct H as [_ ->].
      destruct Hwake as [Hw|Hw].
      * exists 0%nat. split; [lia|]. rewrite Hw. cbn. symmetry.
        apply app_nil_r.
      * exists 1%nat. split; [lia|]. exact Hw.
    + apply IH in H. destruct H as (m & Hm & Hw).
      destruct Hwake as [Hw1|Hw1]; rewrite Hw1 in Hw.
      * exists m. split; [lia|exact Hw].
      * exists (S m). split; [lia|]. rewrite Hw, <- app_assoc. reflexivity.
Qed.

(** Whatever the wake attempts gave, a polling cycle that returns has
    written the LOOP command after them: nothing in [wxgetloop] depends on
    the outcome of the wake loop. *)
Theorem wxgetloop_always_sends_loop (env : oracle) (wxcrc : list Z -> Z)
    (lm : libm) (iv : Z) (mok : bool) (fuel gfuel : nat) (g : gust_state)
    (w : wxdat_t) (d d' : dev) (r : loop_exit * gust_state * wxdat_t) :
  wxgetloop env wxcrc lm iv mok fuel gfuel g w d = Some (r, d') ->
  exists m : nat,
    (m <= 4)%nat
    /\ writes_of (trace d')
       = writes_of (trace d) ++ repeat [NL] m ++ [VPLOOPCMD].
Proof.
  intros H. unfold wxgetloop in H.
  io_inv H i d1 Hwake. apply wake_loop_writes in Hwake.
  destruct Hwake as (m & Hm & Hw1).
  exists m. split; [exact Hm|].
  io_inv H rcmd d2 Hcmd.
  assert (Hw2 : writes_of (trace d2) = writes_of (trace d1) ++ [VPLOOPCMD]).
  { unfold wxcmd in Hcmd. io_inv Hcmd rc d3 Hwr.
    apply sys_write_writes in Hwr. rewrite <- Hwr.
    destruct (rc =? -1).
    { apply io_ret_Some in Hcmd. destruct Hcmd as [_ ->]. reflexivity. }
    destruct (negb _).
    { apply io_ret_Some in Hcmd. destruct Hcmd as [_ ->]. reflexivity. }
    io_inv Hcmd ra d4 Hack. apply quiet_wxgetack in Hack.
    rewrite <- Hack.
    destruct (negb _); apply io_ret_Some in Hcmd; destruct Hcmd as [_ ->];
      reflexivity. }
  rewrite Hw1, <- app_assoc in Hw2. rewrite <- Hw2.
  destruct (negb (rcmd =? 0)).
  { apply io_ret_Some in H. destruct H as [_ ->]. reflexivity. }
  io_inv H ld0 d3 Hld. apply quiet_alloca in Hld.
  io_inv H aft d4 Haft. apply quiet_alloca in Haft.
  io_inv H x d5 Hread. apply quiet_wxread in Hread.
  rewrite <- Hld, <- Haft, <- Hread.
  destruct x as [rc ld].
  destruct (rc =? -1).
  { apply io_ret_Some in H. destruct H as [_ ->]. reflexivity. }
  destruct (negb (rc =? VPLOOPSIZE)).
  { apply io_ret_Some in H. destruct H as [_ ->]. reflexivity. }
  destruct (negb (wxcrc _ =? 0)).
  { apply io_ret_Some in H. destruct H as [_ ->]. reflexivity. }
  destruct (cvtvploop2fwx _ _ _ _ _ _ _) as [[g1 w1]|]; [|discriminate].
  apply io_ret_Some in H. destruct H as [_ ->]. reflexivity.
Qed.

(** * Further properties of the code *)

(** ** The gust tracker keeps its shape *)

Lemma gust_feed_length (fuel : nat) (iv : Z) (obs : list wind_t) :
  forall st st' rs,
    gust_feed fuel iv st obs = Some (st', rs) -> length rs = length obs.
Proof.
  induction obs as [|wp obs IH]; intros st st' rs H; cbn [gust_feed] in H.
  - inversion H. reflexivity.
  - destruct (wxcalcwindgust fuel iv true st wp) as [[st1 r1]|];
      [|discriminate].
    destruct (gust_feed fuel iv st1 obs) as [[st2 rs2]|] eqn:Hfeed;
      [|discriminate].
    inversion H. cbn [length]. f_equal. eapply IH. exact Hfeed.
Qed.

(** The capacity and the window chosen by the first call stay for good:
    after any number of calls the array has [walen] elements, [walen] is the
    power of two of the first call, [tenmin] is the window of the first call
    and the cursor is the number of calls modulo the capacity. *)
Theorem gust_feed_shape (fuel : nat) (iv : Z) (obs : list wind_t) :
  1 <= iv -> (10 <= fuel)%nat -> obs <> [] ->
  exists st rs,
    gust_feed fuel iv gust_state0 obs = Some (st, rs)
    /\ length rs = length obs
    /\ tenmin st = Z.quot (10 * 60) iv + 1
    /\ walen st = 2 ^ (Z.log2 (Z.quot (10 * 60) iv + 1) + 1)
    /\ Z.of_nat (length (warr st)) = walen st
    /\ waidx st = Z.of_nat (length obs) mod walen st
    /\ 0 <= waidx st < walen st.
Proof.
  intros Hiv Hfuel Hne.
  pose proof (gust_fresh_wf iv Hiv) as Hwf.
  destruct obs as [|wp obs]; [contradiction|].
  destruct (gust_feed_wf fuel iv _ _ (wp :: obs) [] (gust_fresh iv) Hwf)
    as (st & rs & Hfeed & Hwf' & _).
  assert (Hfeed0 : gust_feed fuel iv gust_state0 (wp :: obs) = Some (st, rs)).
  { rewrite <- Hfeed. cbn [gust_feed].
    rewrite (wxcalcwindgust_wf fuel iv _ _ [] (gust_fresh iv) wp Hwf).
    unfold wxcalcwindgust. cbn [walen gust_state0 Z.eqb].
    rewrite gust_sizing_pow2 by assumption. reflexivity. }
  exists st, rs. split; [exact Hfeed0|].
  split; [eapply gust_feed_length; exact Hfeed0|].
  destruct Hwf' as (Hk & Hwl & Htm & Hrange & Hlen & Hidx & _).
  cbn [app] in Hidx.
  assert (Hpow : 0 < 2 ^ (Z.log2 (Z.quot (10 * 60) iv + 1) + 1))
    by (apply Z.pow_pos_nonneg; lia).
  split; [exact Htm|]. split; [exact Hwl|].
  split; [rewrite Hlen, Hwl; apply Z2Nat.id; lia|].
  rewrite Hwl. split; [exact Hidx|].
  rewrite Hidx. apply Z.mod_pos_bound. exact Hpow.
Qed.

Lemma gust_feed_shape_witness :
  exists st rs,
    gust_feed 10 30 gust_state0 [mk_wind 3 10; mk_wind 7 20] = Some (st, rs)
    /\ length rs = 2%nat
    /\ tenmin st = Z.quot (10 * 60) 30 + 1
    /\ walen st = 2 ^ (Z.log2 (Z.quot (10 * 60) 30 + 1) + 1)
    /\ Z.of_nat (length (warr st)) = walen st
    /\ waidx st = Z.of_nat 2 mod walen st
    /\ 0 <= waidx st < walen st.
Proof.
  apply (gust_feed_shape 10 30 [mk_wind 3 10; mk_wind 7 20]);
    [lia|lia|discriminate].
Defined.

Lemma gust_feed_outcomes_witness :
  exists st rs,
    gust_feed 10 61 gust_state0 [mk_wind 3 10; mk_wind 7 20] = Some (st, rs)
    /\ forall i : nat,
         (i < 2)%nat ->
         exists r, rs !! i = Some r
                   /\ gust_outcome (take (S i) [mk_wind 3 10; mk_wind 7 20])
                        (Z.quot (10 * 60) 61 + 1) r.
Proof.
  apply (gust_feed_outcomes 10 61 [mk_wind 3 10; mk_wind 7 20]); lia.
Defined.

(** ** [wxread] *)

Lemma reads_of_app (t1 t2 : list event) :
  reads_of (t1 ++ t2) = reads_of t1 ++ reads_of t2.
Proof. unfold reads_of. apply omap_app. Qed.

Lemma wxsettimeout_reads (env : oracle) (timeout : Z) (d d' : dev) (r : Z) :
  wxsettimeout env timeout d = Some (r, d') ->
  reads_of (trace d') = reads_of (trace d).
Proof.
  intros H. unfold wxsettimeout in H.
  io_inv H ok d1 Hget. inversion Hget as [[Hok Hd1]]. clear Hget.
  destruct (negb _).
  { apply io_ret_Some in H. destruct H as [_ ->]. rewrite <- Hd1.
    reflexivity. }
  io_inv H ok' d2 Hset. inversion Hset as [[Hok' Hd2]]. clear Hset.
  assert (Hr : reads_of (trace d2) = reads_of (trace d)).
  { rewrite <- Hd2, <- Hd1. cbn [trace andb]. rewrite andb_false_r.
    reflexivity. }
  destruct (negb _); apply io_ret_Some in H; destruct H as [_ ->];
    exact Hr.
Qed.

Lemma store_take (buf : list Z) (off : nat) (bs : list Z) :
  (off <= length buf)%nat ->
  take (off + length bs) (store buf off bs) = take off buf ++ bs.
Proof.
  intros H. unfold store. rewrite app_assoc.
  apply take_app_length'. rewrite length_app, length_take. lia.
Qed.

Lemma store_drop (buf : list Z) (off : nat) (bs : list Z) (k : nat) :
  (off <= length buf)%nat ->
  drop (off + length bs + k) (store buf off bs)
  = drop (off + length bs + k) buf.
Proof.
  intros H. unfold store. rewrite app_assoc.
  rewrite drop_app_ge by (rewrite length_app, length_take; lia).
  rewrite length_app, length_take, drop_drop. f_equal. lia.
Qed.

(** Partial reads pile up from the start of the buffer, in the order they
    come; the loop carries the count of what is still missing. *)
Lemma wxread_loop_chunks (env : oracle) (fuel : nat) :
  forall expire buf len remaining timeout d rc buf' d',
    0 <= remaining <= len -> len <= Z.of_nat (length buf) ->
    wxread_loop env fuel expire buf len remaining timeout d
    = Some ((rc, buf'), d') ->
    rc <> -1 ->
    exists chunks : list (list Z),
      reads_of (trace d') = reads_of (trace d) ++ map Some chunks
      /\ rc = len - remaining + Z.of_nat (length (concat chunks))
      /\ Z.of_nat (length (concat chunks)) <= remaining
      /\ buf' = take (Z.to_nat (len - remaining)) buf ++ concat chunks
                ++ drop (Z.to_nat (len - remaining)
                         + length (concat chunks)) buf.
Proof.
  induction fuel as [|fuel IH];
    intros expire buf len remaining timeout d rc buf' d' Hrem Hlen H Hrc.
  - discriminate.
  - cbn [wxread_loop] in H.
    destruct ((remaining >? 0) && (timeout >? 0)).
    + io_inv H r d1 Hset. apply wxsettimeout_reads in Hset.
      destruct (r =? -1).
      { apply io_ret_Some in H. destruct H as [H _]. inversion H. lia. }
      io_inv H got d2 Hgot.
      unfold sys_read in Hgot. inversion Hgot as [[Hg Hd2]]. clear Hgot.
      destruct (o_read env (n_read d1)) as [l|]; cbn [option_map] in *.
      2:{ subst got. apply io_ret_Some in H. destruct H as [H _].
          inversion H. lia. }
      subst got. set (bs := take (Z.to_nat remaining) l) in *.
      assert (Hbs : (length bs <= Z.to_nat remaining)%nat).
      { unfold bs. rewrite length_take. lia. }
      io_inv H now d3 Hnow. inversion Hnow as [[Hn Hd3]]. clear Hnow.
      apply IH in H; [|lia|rewrite store_length by lia; exact Hlen|exact Hrc].
      destruct H as (chunks & Htr & Hcnt & Hle & Hbuf).
      exists (bs :: chunks). cbn [concat map].
      rewrite length_app.
      split; [|split; [|split]].
      * rewrite Htr, <- Hd3, <- Hd2. cbn [trace].
        rewrite reads_of_app, Hset. cbn. rewrite <- app_assoc. reflexivity.
      * lia.
      * lia.
      * rewrite Hbuf.
        replace (Z.to_nat (len - (remaining - Z.of_nat (length bs))))
          with (Z.to_nat (len - remaining) + length bs)%nat by lia.
        rewrite store_take by lia.
        rewrite store_drop by lia.
        rewrite <- !app_assoc, Nat.add_assoc. reflexivity.
    + apply io_ret_Some in H. destruct H as [H <-]. inversion H.
      exists []. cbn [concat map length app].
      rewrite !app_nil_r, Nat.add_0_r.
      split; [reflexivity|]. split; [lia|]. split; [lia|].
      symmetry. apply take_drop.
Qed.

(** [len] is a [size_t]: the case of a negative length is there for the
    arithmetic only. *)
Lemma wxread_chunks (env : oracle) (fuel : nat) (buf : list Z)
    (len timeout : Z) (d d' : dev) (rc : Z) (buf' : list Z) :
  len <= Z.of_nat (length buf) ->
  wxread env fuel buf len timeout d = Some ((rc, buf'), d') ->
  rc <> -1 ->
  exists chunks : list (list Z),
    reads_of (trace d') = reads_of (trace d) ++ map Some chunks
    /\ rc = Z.of_nat (length (concat chunks))
    /\ 0 <= rc <= Z.max 0 len
    /\ buf' = concat chunks ++ drop (length (concat chunks)) buf.
Proof.
  intros Hlen H Hrc. unfold wxread in H.
  destruct (_ || _).
  { apply io_ret_Some in H. destruct H as [H _]. inversion H. lia. }
  destruct (Z.eqb_spec len 0) as [->|Hnz]; cbn [orb] in H.
  { apply io_ret_Some in H. destruct H as [H _]. inversion H. lia. }
  destruct (Z.gtb_spec len MAX_READ).
  { apply io_ret_Some in H. destruct H as [H _]. inversion H. lia. }
  io_inv H t d1 Ht. inversion Ht as [[Ht' Hd1]]. clear Ht.
  destruct (Z.le_gt_cases 0 len) as [Hpos|Hneg].
  - apply wxread_loop_chunks in H; [|lia|exact Hlen|exact Hrc].
    destruct H as (chunks & Htr & Hcnt & Hle & Hbuf).
    exists chunks. rewrite Z.sub_diag in *. cbn [Z.to_nat take app] in Hbuf.
    split; [rewrite Htr, <- Hd1; reflexivity|].
    split; [lia|]. split; [lia|exact Hbuf].
  - destruct fuel; [discriminate|]. cbn [wxread_loop] in H.
    destruct (Z.gtb_spec len 0); [lia|]. cbn [andb] in H.
    apply io_ret_Some in H. destruct H as [H <-]. inversion H.
    exists []. cbn [concat map length app drop]. rewrite app_nil_r, <- Hd1.
    split; [reflexivity|]. split; [lia|]. split; [lia|reflexivity].
Qed.

(** A call of [wxread] that does not fail returns the number of bytes it
    stored; they are the bytes the [read] calls delivered, in order, at the
    start of the buffer, at most [len] of them, and the rest of the buffer
    is as before. *)
Theorem wxread_accumulates (env : oracle) (fuel : nat) (buf : list Z)
    (len timeout : Z) (d d' : dev) (rc : Z) (buf' : list Z) :
  0 <= len <= Z.of_nat (length buf) ->
  wxread env fuel buf len timeout d = Some ((rc, buf'), d') ->
  rc <> -1 ->
  exists chunks : list (list Z),
    reads_of (trace d') = reads_of (trace d) ++ map Some chunks
    /\ rc = Z.of_nat (length (concat chunks))
    /\ 0 <= rc <= len
    /\ buf' = concat chunks ++ drop (length (concat chunks)) buf.
Proof.
  intros [Hpos Hlen] H Hrc.
  destruct (wxread_chunks env fuel buf len timeout d d' rc buf' Hlen H Hrc)
    as (chunks & Htr & Hcnt & Hle & Hbuf).
  exists chunks. split; [exact Htr|]. split; [exact Hcnt|].
  split; [lia|exact Hbuf].
Qed.

Lemma wxread_accumulates_witness :
  exists chunks : list (list Z),
    reads_of (trace (mk_dev 3 2 2 2 0 0 40
                       [EvRead 3 50 (Some [1; 2]); EvRead 1 40 (Some [3])]))
    = reads_of (trace dev0) ++ map Some chunks
    /\ 3 = Z.of_nat (length (concat chunks))
    /\ 0 <= 3 <= 3
    /\ [1; 2; 3; 9] = concat chunks ++ drop (length (concat chunks))
                                            [9; 9; 9; 9].
Proof.
  apply (wxread_accumulates (station [Some [1; 2]; Some [3; 4]] 0) 8
           [9; 9; 9; 9] 3 5 dev0 _ 3 [1; 2; 3; 9]);
    [cbn; lia|vm_compute; reflexivity|lia].
Defined.

Lemma wxgetloop_always_sends_loop_witness :
  exists m : nat,
    (m <= 4)%nat
    /\ writes_of (trace (snd (default ((LoopCmdFailed, gust_state0,
                                        wxdat_zero 0), dev0)
                                (wxgetloop station_xx crc16_ccitt libm_series
                                   60 true 8 10 gust_state0 (wxdat_zero 0)
                                   dev0))))
       = writes_of (trace dev0) ++ repeat [NL] m ++ [VPLOOPCMD].
Proof.
  apply (wxgetloop_always_sends_loop station_xx crc16_ccitt libm_series 60
           true 8 10 gust_state0 (wxdat_zero 0) dev0 _
           (LoopCmdFailed, gust_state0, wxdat_zero 0)).
  vm_compute. reflexivity.
Defined.

(** ** [wxgetack] *)

Lemma last_app_cons (a : Z) (l1 l2 : list Z) :
  List.last (a :: l1 ++ l2) 0 = List.last (List.last (a :: l1) 0 :: l2) 0.
Proof.
  revert a. induction l1 as [|b l1 IH]; intros a; [reflexivity|].
  change (List.last (a :: (b :: l1) ++ l2) 0)
    with (List.last (b :: l1 ++ l2) 0).
  change (List.last (a :: b :: l1) 0) with (List.last (b :: l1) 0).
  apply IH.
Qed.

Lemma alloca_reads (env : oracle) (n : nat) (d d' : dev) (b : list Z) :
  alloca env n d = Some (b, d') ->
  reads_of (trace d') = reads_of (trace d)
  /\ b = map (fun k => o_stack env (n_stack d + k)%nat) (seq 0 n).
Proof.
  unfold alloca. intros H. inversion H. split; reflexivity.
Qed.

(** One-byte reads: the buffer afterwards holds the last byte delivered,
    or what it held before when none was. *)
Lemma wxread_one (env : oracle) (fuel : nat) (b timeout : Z) (d d' : dev)
    (rc : Z) (buf' : list Z) :
  wxread env fuel [b] 1 timeout d = Some ((rc, buf'), d') ->
  rc <> -1 ->
  exists chunks : list (list Z),
    reads_of (trace d') = reads_of (trace d) ++ map Some chunks
    /\ (length (concat chunks) <= 1)%nat
    /\ buf' = [List.last (b :: concat chunks) 0].
Proof.
  intros H Hrc. apply wxread_chunks in H; [|cbn; lia|exact Hrc].
  destruct H as (chunks & Htr & Hcnt & Hle & Hbuf).
  exists chunks. split; [exact Htr|]. split; [lia|].
  rewrite Hbuf.
  destruct (concat chunks) as [|x [|y l]]; [reflexivity|reflexivity|].
  cbn [length] in Hcnt. lia.
Qed.

Lemma wxgetack_loop_ack (env : oracle) (fuel : nat) (n : nat) :
  forall i b d d',
    0 <= i ->
    wxgetack_loop env n fuel i [b] d = Some (0, d') ->
    exists chunks : list (list Z),
      reads_of (trace d') = reads_of (trace d) ++ map Some chunks
      /\ Z.of_nat (length (concat chunks)) <= 5 - i
      /\ List.last (b :: concat chunks) 0 = ACK.
Proof.
  induction n as [|n IH]; intros i b d d' Hi H; [discriminate|].
  cbn [wxgetack_loop] in H.
  io_inv H r d1 Hrd. destruct r as [rr ackbuf'].
  destruct (Z.eqb_spec rr (-1)) as [Hrr|Hrr].
  { apply io_ret_Some in H. destruct H as [H _]. discriminate. }
  destruct (Z.geb_spec i 5) as [Hi5|Hi5].
  { apply io_ret_Some in H. destruct H as [H _]. discriminate. }
  apply wxread_one in Hrd; [|exact Hrr].
  destruct Hrd as (chunks & Htr & Hcnt & ->).
  cbn [nth] in H.
  destruct (Z.eqb_spec (List.last (b :: concat chunks) 0) ACK) as [Hack|Hack];
    cbn [negb] in H.
  - apply io_ret_Some in H. destruct H as [_ <-].
    exists chunks. split; [exact Htr|]. split; [lia|exact Hack].
  - apply IH in H; [|lia].
    destruct H as (chunks' & Htr' & Hcnt' & Hlast).
    exists (chunks ++ chunks').
    rewrite map_app, concat_app, length_app, app_assoc, <- Htr.
    split; [exact Htr'|]. split; [lia|].
    rewrite last_app_cons. exact Hlast.
Qed.

Lemma wxgetack_ack (env : oracle) (fuel : nat) (d d' : dev) :
  wxgetack env fuel d = Some (0, d') ->
  exists chunks : list (list Z),
    reads_of (trace d') = reads_of (trace d) ++ map Some chunks
    /\ (length (concat chunks) <= 5)%nat
    /\ List.last (o_stack env (n_stack d) :: concat chunks) 0 = ACK.
Proof.
  intros H. unfold wxgetack in H.
  io_inv H ackbuf d1 Hal. apply alloca_reads in Hal.
  destruct Hal as [Htr ->]. cbn [seq map] in H.
  apply wxgetack_loop_ack in H; [|lia].
  destruct H as (chunks & Htr' & Hcnt & Hlast).
  exists chunks. rewrite <- Htr. split; [exact Htr'|].
  split; [lia|]. rewrite Nat.add_0_r in Hlast. exact Hlast.
Qed.

(** [wxgetack] reports success only after the byte it holds is ACK: the
    last byte the station delivered or, when the station delivered none, the
    value the automatic variable [ackbuf] started with.  A call that
    reports success has taken at most five bytes from the line (one that
    fails may have taken a sixth). *)
Theorem wxgetack_success (env : oracle) (fuel : nat) (d d' : dev) :
  wxgetack env fuel d = Some (0, d') ->
  exists chunks : list (list Z),
    reads_of (trace d') = reads_of (trace d) ++ map Some chunks
    /\ (length (concat chunks) <= 5)%nat
    /\ List.last (o_stack env (n_stack d) :: concat chunks) 0 = ACK.
Proof. apply wxgetack_ack. Qed.

Lemma wxgetack_success_witness :
  exists chunks : list (list Z),
    reads_of (trace (mk_dev 4 2 2 2 0 1 10
                       [EvRead 1 10 (Some [33]); EvRead 1 10 (Some [6])]))
    = reads_of (trace dev0) ++ map Some chunks
    /\ (length (concat chunks) <= 5)%nat
    /\ List.last (o_stack (station [Some [33]; Some [6]] 0) (n_stack dev0)
                  :: concat chunks) 0 = ACK.
Proof.
  apply (wxgetack_success (station [Some [33]; Some [6]] 0) 8 dev0
           (mk_dev 4 2 2 2 0 1 10
              [EvRead 1 10 (Some [33]); EvRead 1 10 (Some [6])])).
  vm_compute. reflexivity.
Defined.

(** [wxcmd] returns 0 only when [write] took the whole command and the
    acknowledgement was accepted as in [wxgetack]; the command is the only
    thing written. *)
Theorem wxcmd_success (env : oracle) (fuel : nat) (cmd : list Z)
    (d d' : dev) :
  wxcmd env fuel cmd d = Some (0, d') ->
  o_write env (n_write d) <> None
  /\ writes_of (trace d') = writes_of (trace d) ++ [cmd]
  /\ exists chunks : list (list Z),
       reads_of (trace d') = reads_of (trace d) ++ map Some chunks
       /\ (length (concat chunks) <= 5)%nat
       /\ List.last (o_stack env (n_stack d) :: concat chunks) 0 = ACK.
Proof.
  intros H. unfold wxcmd in H.
  io_inv H rc d1 Hw.
  destruct (Z.eqb_spec rc (-1)) as [Hrc|Hrc].
  { apply io_ret_Some in H. destruct H as [H _]. discriminate. }
  destruct (Z.eqb_spec rc (Z.of_nat (length cmd))) as [Hfull|Hfull];
    cbn [negb] in H.
  2:{ apply io_ret_Some in H. destruct H as [H _]. discriminate. }
  io_inv H r d2 Hack.
  destruct (Z.eqb_spec r 0) as [->|Hr]; cbn [negb] in H.
  2:{ apply io_ret_Some in H. destruct H as [H _]. discriminate. }
  apply io_ret_Some in H. destruct H as [_ <-].
  pose proof (quiet_wxgetack env fuel _ _ _ Hack) as Hq.
  apply wxgetack_ack in Hack.
  destruct Hack as (chunks & Htr & Hcnt & Hlast).
  unfold sys_write in Hw. inversion Hw as [[Hrc' Hd1]]. clear Hw.
  split.
  { intros Hn. rewrite Hn in Hrc'. lia. }
  split.
  { rewrite Hq, <- Hd1. cbn [trace]. rewrite writes_of_app. reflexivity. }
  exists chunks. rewrite <- Hd1 in Htr, Hlast. cbn [trace n_stack] in *.
  rewrite reads_of_app in Htr. cbn in Htr. rewrite app_nil_r in Htr.
  split; [exact Htr|]. split; [exact Hcnt|exact Hlast].
Qed.

Lemma wxcmd_success_witness :
  o_write (station [Some [6]] 0) (n_write dev0) <> None
  /\ writes_of (trace (mk_dev 2 1 1 1 1 1 10
                         [EvWrite VPLOOPCMD 8; EvRead 1 10 (Some [6])]))
     = writes_of (trace dev0) ++ [VPLOOPCMD]
  /\ exists chunks : list (list Z),
       reads_of (trace (mk_dev 2 1 1 1 1 1 10
                          [EvWrite VPLOOPCMD 8; EvRead 1 10 (Some [6])]))
       = reads_of (trace dev0) ++ map Some chunks
       /\ (length (concat chunks) <= 5)%nat
       /\ List.last (o_stack (station [Some [6]] 0) (n_stack dev0)
                     :: concat chunks) 0 = ACK.
Proof.
  apply (wxcmd_success (station [Some [6]] 0) 8 VPLOOPCMD dev0
           (mk_dev 2 1 1 1 1 1 10
              [EvWrite VPLOOPCMD 8; EvRead 1 10 (Some [6])])).
  vm_compute. reflexivity.
Defined.

(** ** [wxlog]: what a line holds *)

Lemma bytes_of_string_app (a b : string) :
  bytes_of_string (a ++ b) = bytes_of_string a ++ bytes_of_string b.
Proof.
  unfold bytes_of_string. rewrite <- map_app. f_equal.
  induction a as [|c a IH]; [reflexivity|].
  cbn. rewrite IH. reflexivity.
Qed.

Lemma length_bytes_of_string (s : string) :
  length (bytes_of_string s) = String.length s.
Proof.
  unfold bytes_of_string. rewrite length_map.
  induction s as [|c s IH]; [reflexivity|]. cbn. rewrite IH. reflexivity.
Qed.

Lemma string_of_bytes_of_string (s : string) :
  string_of_bytes (bytes_of_string s) = s.
Proof.
  unfold string_of_bytes, bytes_of_string.
  induction s as [|c s IH]; [reflexivity|].
  cbn. rewrite IH, N2Z.id, ascii_N_embedding. reflexivity.
Qed.

(** *** What [printf] cannot print *)

Section FreeOf.
Variable bad : Z.
Hypothesis Hbad : free_of bad PRINTF_CHARS.

Lemma free_nil : free_of bad EmptyString.
Proof. constructor. Qed.

Lemma free_app (a b : string) :
  free_of bad a -> free_of bad b -> free_of bad (a ++ b).
Proof.
  unfold free_of. rewrite bytes_of_string_app. intros Ha Hb.
  apply Forall_app. split; assumption.
Qed.

Lemma free_String (c : ascii) (s : string) :
  Z.of_N (N_of_ascii c) <> bad -> free_of bad s -> free_of bad (String c s).
Proof. intros Hc Hs. constructor; assumption. Qed.

Lemma free_printf_char (c : ascii) :
  In (Z.of_N (N_of_ascii c)) (bytes_of_string PRINTF_CHARS) ->
  Z.of_N (N_of_ascii c) <> bad.
Proof.
  intros Hin. unfold free_of in Hbad. rewrite List.Forall_forall in Hbad.
  apply Hbad. exact Hin.
Qed.

Ltac free_chars :=
  repeat (apply free_String; [apply free_printf_char; vm_compute; tauto|]);
  try apply free_nil.

Lemma free_uint (d : Decimal.uint) :
  free_of bad (NilEmpty.string_of_uint d).
Proof.
  induction d; cbn [NilEmpty.string_of_uint];
    [apply free_nil|..];
    (apply free_String; [apply free_printf_char; vm_compute; tauto|]);
    assumption.
Qed.

Lemma free_uint0 (d : Decimal.uint) :
  free_of bad (NilZero.string_of_uint d).
Proof.
  pose proof (free_uint d) as H.
  destruct d; try exact H. cbn. free_chars.
Qed.

Lemma free_string_of_Z (z : Z) : free_of bad (string_of_Z z).
Proof.
  unfold string_of_Z.
  destruct (Z.to_int z) as [d|d]; cbn [NilZero.string_of_int].
  - apply free_uint0.
  - apply free_String; [apply free_printf_char; vm_compute; tauto|].
    apply free_uint0.
Qed.

Lemma free_zeros (n : nat) : free_of bad (zeros n).
Proof.
  induction n as [|n IH]; [apply free_nil|].
  cbn [zeros]. apply free_String;
    [apply free_printf_char; vm_compute; tauto|exact IH].
Qed.

Lemma free_pad_zeros (w : nat) (s : string) :
  free_of bad s -> free_of bad (pad_zeros w s).
Proof.
  intros H. unfold pad_zeros. apply free_app; [apply free_zeros|exact H].
Qed.

Lemma free_fixed_digits (n : Z) (places : nat) :
  free_of bad (fixed_digits n places).
Proof.
  unfold fixed_digits. destruct places as [|k].
  - apply free_string_of_Z.
  - apply free_app; [apply free_string_of_Z|].
    apply free_app; [free_chars|].
    apply free_pad_zeros, free_string_of_Z.
Qed.

Lemma free_fmt_f (places : nat) (x : spec_float) :
  free_of bad (fmt_f places x).
Proof.
  destruct x as [s|s| |s m e]; cbn [fmt_f].
  - apply free_app; [destruct s; free_chars|apply free_fixed_digits].
  - destruct s; free_chars.
  - free_chars.
  - apply free_app; [destruct s; free_chars|apply free_fixed_digits].
Qed.

Lemma free_fmt_d (z : Z) : free_of bad (fmt_d z).
Proof.
  unfold fmt_d. destruct (z <? 0).
  - apply free_app; [free_chars|apply free_string_of_Z].
  - apply free_string_of_Z.
Qed.

End FreeOf.

Lemma free_lit (bad : Z) (s : string) :
  forallb (fun z => negb (z =? bad)) (bytes_of_string s) = true ->
  free_of bad s.
Proof.
  unfold free_of. intros H. apply Forall_forall. intros z Hz.
  apply list_elem_of_In in Hz.
  rewrite forallb_forall in H. specialize (H z Hz).
  destruct (Z.eqb_spec z bad); [discriminate|assumption].
Qed.

Lemma clean_printf : free_of 0 PRINTF_CHARS.
Proof. apply free_lit. reflexivity. Qed.

Lemma clean_app (a b : string) : clean a -> clean b -> clean (a ++ b).
Proof. apply free_app. Qed.

Lemma clean_lit (s : string) :
  forallb (fun z => negb (z =? 0)) (bytes_of_string s) = true -> clean s.
Proof. apply free_lit. Qed.

Lemma clean_fmt_f (places : nat) (x : spec_float) : clean (fmt_f places x).
Proof. apply free_fmt_f, clean_printf. Qed.

Lemma clean_fmt_d (z : Z) : clean (fmt_d z).
Proof. apply free_fmt_d, clean_printf. Qed.

Lemma clean_log_item_of (v : Z) (t : string) :
  clean t -> clean_item (log_item_of v t).
Proof.
  intros H. unfold log_item_of. destruct (truthy v); [exact H|exact I].
Qed.

Lemma clean_wxlog_items (w : wxdat_t) : Forall clean_item (wxlog_items w).
Proof.
  unfold wxlog_items.
  destruct (truthy (WXD_ISVALID (windspeed w)));
    repeat first
      [ apply Forall_app; split
      | apply Forall_cons; split
      | apply Forall_nil
      | apply clean_log_item_of
      | apply clean_fmt_f
      | apply clean_fmt_d
      | exact I ].
Qed.

Lemma store_keeps (buf : list Z) (off : nat) (bs : list Z) (k : nat) :
  (k <= off)%nat -> (off <= length buf)%nat ->
  take k (store buf off bs) = take k buf.
Proof.
  intros Hk Hoff. unfold store.
  rewrite take_app_le by (rewrite length_take; lia).
  rewrite take_take. f_equal. lia.
Qed.

Lemma cstring_prefix (p rest : list Z) :
  Forall (fun z => z <> 0) p -> cstring (p ++ 0 :: rest) = p.
Proof.
  induction p as [|c p IH]; intros H; [reflexivity|].
  apply Forall_cons in H. destruct H as [Hc Hp].
  cbn [app cstring]. destruct (Z.eqb_spec c 0); [contradiction|].
  rewrite IH by exact Hp. reflexivity.
Qed.

Lemma cstring_take (p buf : list Z) :
  Forall (fun z => z <> 0) p ->
  take (S (length p)) buf = p ++ [0] -> cstring buf = p.
Proof.
  intros Hp Ht. rewrite <- (take_drop (S (length p)) buf), Ht, <- app_assoc.
  apply cstring_prefix. exact Hp.
Qed.

Lemma snd_sprintf_at (t : string) (b : cursor) :
  snd (sprintf_at t b) = (snd b + String.length t)%nat.
Proof. reflexivity. Qed.

Lemma snd_pokes (n : nat) (b : cursor) :
  snd (Nat.iter n (poke COMMA) b) = (snd b + n)%nat.
Proof.
  induction n as [|n IH]; [cbn; lia|].
  rewrite Nat.iter_succ. unfold poke at 1. cbn [snd]. rewrite IH. lia.
Qed.

Lemma snd_run_item (it : log_item) (b : cursor) :
  (snd b <= snd (run_item it b))%nat.
Proof.
  destruct it as [t|n]; cbn [run_item].
  - rewrite snd_sprintf_at. lia.
  - unfold poke at 1. cbn [snd]. rewrite snd_pokes. lia.
Qed.

Lemma snd_run_items (items : list log_item) :
  forall b, (snd b <= snd (run_items items b))%nat.
Proof.
  induction items as [|it items IH]; intros b; [apply Nat.le_refl|].
  cbn. etransitivity; [apply (snd_run_item it)|apply IH].
Qed.

(** The cursor moves the same way whatever the array holds. *)
Lemma snd_run_item_indep (it : log_item) (b b' : cursor) :
  snd b = snd b' -> snd (run_item it b) = snd (run_item it b').
Proof.
  intros H. destruct it as [t|n]; cbn [run_item].
  - rewrite !snd_sprintf_at, H. reflexivity.
  - unfold poke at 1 3. cbn [snd]. rewrite !snd_pokes, H. reflexivity.
Qed.

Lemma snd_run_items_indep (items : list log_item) :
  forall b b', snd b = snd b' ->
               snd (run_items items b) = snd (run_items items b').
Proof.
  induction items as [|it items IH]; intros b b' H; [exact H|].
  cbn. apply IH. apply snd_run_item_indep. exact H.
Qed.

(** [sprintf] at the end of the string so far. *)
Lemma sprintf_at_open (N : nat) (p : list Z) (t : string) (b : cursor) :
  length (fst b) = N -> take (length p) (fst b) = p -> snd b = length p ->
  (snd b + String.length t < N)%nat ->
  log_open N (p ++ bytes_of_string t) (sprintf_at t b).
Proof.
  intros HN Hp Hs Hroom. destruct b as [buf off]. cbn [fst snd] in *.
  unfold log_open, sprintf_at. cbn [fst snd].
  assert (Hlen : length (bytes_of_string t ++ [0]) = S (String.length t)).
  { rewrite length_app, length_bytes_of_string. cbn. lia. }
  split; [rewrite store_length; [exact HN|lia]|].
  split.
  - rewrite length_app, length_bytes_of_string, <- Hs.
    replace (S (off + String.length t))
      with (off + length (bytes_of_string t ++ [0%Z]))%nat by lia.
    rewrite store_take by lia. rewrite Hs, Hp, app_assoc. reflexivity.
  - rewrite length_app, length_bytes_of_string. lia.
Qed.

(** [*s++ = c] at the end of the string so far, any number of times. *)
Lemma pokes_pre (N : nat) (n : nat) :
  forall (p : list Z) (b : cursor),
    length (fst b) = N -> take (length p) (fst b) = p -> snd b = length p ->
    (snd b + n <= N)%nat ->
    let b' := Nat.iter n (poke COMMA) b in
    length (fst b') = N
    /\ take (length p + n) (fst b') = p ++ repeat COMMA n
    /\ snd b' = (length p + n)%nat.
Proof.
  induction n as [|n IH]; intros p b HN Hp Hs Hroom.
  - cbn. rewrite Nat.add_0_r, app_nil_r. auto.
  - rewrite Nat.iter_succ. cbn zeta. destruct (IH p b HN Hp Hs) as (HN' & Hp' & Hs'); [lia|].
    cbn zeta in *. destruct (Nat.iter n (poke COMMA) b) as [buf off].
    cbn [fst snd] in *. unfold poke. cbn [fst snd].
    split; [rewrite store_length; [exact HN'|cbn; lia]|].
    split; [|lia].
    replace (length p + S n)%nat with (off + length [COMMA])%nat
      by (cbn [length]; lia).
    rewrite store_take by lia. rewrite Hs', Hp'.
    rewrite <- app_assoc. f_equal.
    rewrite <- repeat_cons. reflexivity.
Qed.

Lemma run_item_open (N : nat) (p : list Z) (it : log_item) (b : cursor) :
  log_open N p b -> (snd (run_item it b) < N)%nat ->
  match it with
  | Shown t => log_open N (p ++ bytes_of_string (t ++ ",")) (run_item it b)
  | Missing n => log_cut N (p ++ repeat COMMA n) (run_item it b)
  end.
Proof.
  intros (HN & Hp & Hs) Hroom.
  assert (Hp' : take (length p) (fst b) = p).
  { replace (take (length p) (fst b))
      with (take (length p) (take (S (length p)) (fst b)))
      by (rewrite take_take; f_equal; lia).
    rewrite Hp. apply take_app_length. }
  destruct it as [t|n]; cbn [run_item] in *.
  - rewrite snd_sprintf_at in Hroom.
    apply sprintf_at_open; assumption.
  - unfold poke at 1 in Hroom. cbn [snd] in Hroom.
    rewrite snd_pokes in Hroom.
    destruct (pokes_pre N n p b HN Hp' Hs) as (HN' & Hq & Hs'); [lia|].
    cbn zeta in *. destruct (Nat.iter n (poke COMMA) b) as [buf off].
    cbn [fst snd] in *. unfold log_cut, poke. cbn [fst snd].
    split; [rewrite store_length; [exact HN'|cbn; lia]|].
    rewrite length_app, repeat_length.
    split; [|lia].
    replace (S (length p + n)) with (off + length [0%Z])%nat
      by (cbn [length]; lia).
    rewrite store_take by lia. rewrite Hs', Hq. reflexivity.
Qed.

Lemma store_cut (N : nat) (p : list Z) (buf : list Z) (off off' : nat)
    (bs : list Z) :
  log_cut N p (buf, off) -> (off + length bs <= N)%nat ->
  (off <= off')%nat ->
  log_cut N p (store buf off bs, off').
Proof.
  intros (HN & Hp & Hs) Hroom Hoff. cbn [fst snd] in *.
  unfold log_cut. cbn [fst snd].
  split; [rewrite store_length; [exact HN|lia]|].
  split; [|lia]. rewrite store_keeps by lia. exact Hp.
Qed.

Lemma pokes_cut (N : nat) (p : list Z) (n : nat) :
  forall b, log_cut N p b -> (snd b + n <= N)%nat ->
            log_cut N p (Nat.iter n (poke COMMA) b).
Proof.
  induction n as [|n IH]; intros b Hc Hroom; [exact Hc|].
  rewrite Nat.iter_succ. specialize (IH b Hc ltac:(lia)).
  pose proof (snd_pokes n b) as Hs.
  destruct (Nat.iter n (poke COMMA) b) as [buf off]. cbn [snd] in Hs.
  unfold poke. cbn [fst snd].
  apply store_cut; [exact IH|cbn; lia|lia].
Qed.

Lemma run_item_cut (N : nat) (p : list Z) (it : log_item) (b : cursor) :
  log_cut N p b -> (snd (run_item it b) < N)%nat ->
  log_cut N p (run_item it b).
Proof.
  intros Hc Hroom. destruct it as [t|n]; cbn [run_item] in *.
  - rewrite snd_sprintf_at in Hroom. destruct b as [buf off].
    unfold sprintf_at. cbn [fst snd] in *.
    apply store_cut; [exact Hc| |lia].
    rewrite length_app, length_bytes_of_string. cbn. lia.
  - unfold poke at 1 in Hroom. cbn [snd] in Hroom.
    rewrite snd_pokes in Hroom.
    pose proof (pokes_cut N p n b Hc ltac:(lia)) as Hc'.
    pose proof (snd_pokes n b) as Hs.
    destruct (Nat.iter n (poke COMMA) b) as [buf off]. cbn [snd] in Hs.
    unfold poke. cbn [fst snd].
    apply store_cut; [exact Hc'|cbn; lia|lia].
Qed.

Lemma run_items_cut (N : nat) (p : list Z) (items : list log_item) :
  forall b, log_cut N p b -> (snd (run_items items b) < N)%nat ->
            log_cut N p (run_items items b).
Proof.
  induction items as [|it items IH]; intros b Hc Hroom; [exact Hc|].
  cbn in *. apply IH; [|exact Hroom].
  apply run_item_cut; [exact Hc|].
  pose proof (snd_run_items items (run_item it b)). 
  unfold run_items in *. lia.
Qed.

Lemma bytes_of_commas (n : nat) :
  bytes_of_string (string_of_list_ascii (repeat ","%char n))
  = repeat COMMA n.
Proof.
  induction n as [|n IH]; [reflexivity|].
  cbn [repeat string_of_list_ascii].
  change (bytes_of_string (String "," ?s)) with (COMMA :: bytes_of_string s).
  unfold bytes_of_string in *. cbn [list_ascii_of_string map].
  rewrite IH. reflexivity.
Qed.

Lemma run_items_open (N : nat) (items : list log_item) :
  forall p b,
    log_open N p b -> (snd (run_items items b) < N)%nat ->
    let q := p ++ bytes_of_string (visible items) in
    if has_missing items then log_cut N q (run_items items b)
    else log_open N q (run_items items b).
Proof.
  induction items as [|it items IH]; intros p b Ho Hroom; cbn zeta.
  - cbn. rewrite app_nil_r. exact Ho.
  - assert (Hr1 : (snd (run_item it b) < N)%nat).
    { pose proof (snd_run_items items (run_item it b)).
      cbn in Hroom. unfold run_items in *. lia. }
    pose proof (run_item_open N p it b Ho Hr1) as Hstep.
    destruct it as [t|n].
    + specialize (IH _ _ Hstep Hroom). cbn zeta in IH.
      cbn [has_missing existsb orb visible].
      change (existsb _ items) with (has_missing items).
      rewrite !bytes_of_string_app.
      rewrite bytes_of_string_app, <- !app_assoc in IH.
      exact IH.
    + cbn [has_missing existsb orb visible]. rewrite bytes_of_commas.
      change (run_items (Missing n :: items) b)
        with (run_items items (run_item (Missing n) b)) in *.
      apply run_items_cut; [exact Hstep|exact Hroom].
Qed.

Lemma log_field_item (v : Z) (t : string) (b : cursor) :
  log_field v t b = run_item (log_item_of v t) b.
Proof.
  unfold log_field, log_item_of. destruct (truthy v); reflexivity.
Qed.

Lemma wxlog_buf_items (str0 : list Z) (w : wxdat_t) :
  wxlog_buf str0 w
  = run_items (wxlog_items w) (sprintf_at (log_header w) (str0, O)).
Proof.
  unfold wxlog_buf, wxlog_items, log_header, run_items.
  rewrite !fold_left_app. cbn [fold_left].
  rewrite !log_field_item.
  destruct (truthy (WXD_ISVALID (windspeed w))); reflexivity.
Qed.

Lemma wxlog_extent_any (str0 : list Z) (w : wxdat_t) :
  snd (wxlog_buf str0 w) = wxlog_extent w.
Proof.
  unfold wxlog_extent. rewrite !wxlog_buf_items.
  apply snd_run_items_indep. reflexivity.
Qed.

Lemma clean_visible (items : list log_item) :
  Forall clean_item items -> clean (visible items).
Proof.
  induction items as [|it items IH]; intros H; [constructor|].
  apply Forall_cons in H. destruct H as [Hit Hrest].
  destruct it as [t|n]; cbn [visible].
  - apply clean_app; [exact Hit|].
    apply clean_app; [apply clean_lit; reflexivity|apply IH; exact Hrest].
  - unfold clean. rewrite bytes_of_commas.
    apply Forall_forall. intros z Hz. apply list_elem_of_In in Hz.
    apply repeat_spec in Hz. subst z. discriminate.
Qed.

Lemma clean_log_header (w : wxdat_t) : clean (log_header w).
Proof.
  unfold log_header.
  repeat first [ apply clean_app | apply clean_fmt_d
               | apply clean_lit; reflexivity ].
Qed.

Lemma string_app_assoc (a b c : string) :
  ((a ++ b) ++ c = a ++ b ++ c)%string.
Proof.
  induction a as [|x a IH]; [reflexivity|]. cbn. rewrite IH. reflexivity.
Qed.

Lemma wxlog_line_items (str0 : list Z) (w : wxdat_t) :
  (wxlog_extent w < length str0)%nat ->
  wxlog_line str0 w
  = (log_header w ++ visible (wxlog_items w) ++ newline)%string.
Proof.
  intros Hroom. rewrite <- (wxlog_extent_any str0 w) in Hroom.
  unfold wxlog_line. rewrite wxlog_buf_items in *.
  set (N := length str0) in *.
  assert (Hhead : log_open N ([] ++ bytes_of_string (log_header w))
                    (sprintf_at (log_header w) (str0, O))).
  { apply sprintf_at_open; [reflexivity|reflexivity|reflexivity|].
    pose proof (snd_run_items (wxlog_items w)
                  (sprintf_at (log_header w) (str0, O))) as Hm.
    rewrite snd_sprintf_at in Hm. cbn [snd] in *. lia. }
  cbn [app] in Hhead.
  pose proof (run_items_open N (wxlog_items w) _ _ Hhead Hroom) as Hend.
  cbn zeta in Hend.
  assert (Hstr : cstring (fst (run_items (wxlog_items w)
                                 (sprintf_at (log_header w) (str0, O))))
                 = bytes_of_string (log_header w ++ visible (wxlog_items w))).
  { rewrite bytes_of_string_app.
    assert (Hclean : Forall (fun z => z <> 0)
                       (bytes_of_string (log_header w)
                        ++ bytes_of_string (visible (wxlog_items w)))).
    { apply Forall_app. split; [apply clean_log_header|].
      apply clean_visible, clean_wxlog_items. }
    destruct (has_missing (wxlog_items w));
      destruct Hend as (_ & Htake & _);
      apply cstring_take; assumption. }
  rewrite Hstr, string_of_bytes_of_string.
  apply string_app_assoc.
Qed.

(** What [wxlog] appends to the day's file, for every sample that fits the
    array: the version and time columns, then the values up to the first
    measurement that is not valid, then the commas stored for that one (one,
    or two for the wind), then the newline.  What the function formats for
    the measurements after it is never printed. *)
Theorem wxlog_line_shape (junk : Z) (wxlogdir datefile : string)
    (w : wxdat_t) :
  (wxlog_extent w < FILENAME_MAX)%nat ->
  wxlog true junk wxlogdir datefile w
  = Some ((wxlogdir ++ datefile)%string,
          (log_header w ++ visible (wxlog_items w) ++ newline)%string).
Proof.
  intros Hroom. unfold wxlog. f_equal. f_equal.
  apply wxlog_line_items. rewrite length_resize. exact Hroom.
Qed.

Lemma wxlog_line_shape_witness :
  wxlog true 0 "/var/fwx" "/2003.09.30.fwx" sample_bar_temp
  = Some (("/var/fwx" ++ "/2003.09.30.fwx")%string,
          (log_header sample_bar_temp
             ++ visible (wxlog_items sample_bar_temp) ++ newline)%string).
Proof.
  apply (wxlog_line_shape 0 "/var/fwx" "/2003.09.30.fwx" sample_bar_temp).
  vm_compute. lia.
Defined.

(** ** The polling cycle *)

Lemma wxgetloop_failure (env : oracle) (wxcrc : list Z -> Z) (lm : libm)
    (iv : Z) (mok : bool) (fuel gfuel : nat) (g g' : gust_state)
    (w w' : wxdat_t) (e : loop_exit) (d d' : dev) :
  wxgetloop env wxcrc lm iv mok fuel gfuel g w d = Some ((e, g', w'), d') ->
  decoded e = false -> g' = g /\ w' = w.
Proof.
  intros H He. unfold wxgetloop in H.
  io_inv H i d1 Hwake. io_inv H r d2 Hcmd.
  destruct (negb (r =? 0)).
  { apply io_ret_Some in H. destruct H as [H _]. inversion H. auto. }
  io_inv H ld0 d3 Hld. io_inv H after d4 Haft. io_inv H x d5 Hrd.
  destruct x as [rc ld].
  destruct (rc =? -1).
  { apply io_ret_Some in H. destruct H as [H _]. inversion H. auto. }
  destruct (negb (rc =? VPLOOPSIZE)).
  { apply io_ret_Some in H. destruct H as [H _]. inversion H. auto. }
  destruct (negb (wxcrc (crc_region (ld ++ after) rc) =? 0)).
  { apply io_ret_Some in H. destruct H as [H _]. inversion H. auto. }
  destruct (cvtvploop2fwx lm gfuel iv mok (vploop_of_bytes ld) g w)
    as [[g1 w1]|]; [|discriminate].
  apply io_ret_Some in H. destruct H as [H _]. inversion H. subst e.
  discriminate.
Qed.

Lemma string_length_app (a b : string) :
  String.length (a ++ b) = (String.length a + String.length b)%nat.
Proof.
  induction a as [|x a IH]; [reflexivity|]. cbn. rewrite IH. reflexivity.
Qed.

Lemma log_header_zero (t : Z) :
  log_header (wxdat_zero t) = ("0,5," ++ fmt_d t ++ ",")%string.
Proof. reflexivity. Qed.

Lemma wxlog_items_zero (t : Z) :
  wxlog_items (wxdat_zero t) = Missing 1 :: Missing 2 :: repeat (Missing 1) 11.
Proof. reflexivity. Qed.

Lemma snd_run_missing (n : nat) (b : cursor) :
  snd (run_item (Missing n) b) = (snd b + n + 1)%nat.
Proof.
  cbn [run_item]. unfold poke at 1. cbn [snd]. rewrite snd_pokes. lia.
Qed.

Lemma wxlog_extent_zero (t : Z) :
  wxlog_extent (wxdat_zero t) = (String.length (fmt_d t) + 32)%nat.
Proof.
  unfold wxlog_extent. rewrite wxlog_buf_items, wxlog_items_zero.
  rewrite (snd_run_items_indep _ _ ([], String.length (log_header
                                                        (wxdat_zero t))))
    by apply snd_sprintf_at.
  rewrite log_header_zero, !string_length_app.
  unfold run_items. cbn [repeat fold_left].
  rewrite !snd_run_missing. cbn [snd String.length]. lia.
Qed.

(** Whenever the poll fails, a line is still appended to the day's file:
    the version, the time of the poll and one empty column.  The history of
    the gust computation is not touched. *)
Theorem failed_poll_is_logged (env : oracle) (wxcrc : list Z -> Z)
    (lm : libm) (iv : Z) (mok : bool) (fuel gfuel : nat) (junk : Z)
    (fwxlogdir : string) (datefile : Z -> string) (g g' : gust_state)
    (w : wxdat_t) (e : loop_exit) (out : option (string * string))
    (d d' : dev) :
  poll_and_log env wxcrc lm iv mok fuel gfuel true junk fwxlogdir datefile
    g d = Some ((e, g', w, out), d') ->
  decoded e = false ->
  (String.length (fmt_d (o_time env (n_time d))) + 32 < FILENAME_MAX)%nat ->
  g' = g
  /\ out = Some ((fwxlogdir ++ datefile (o_time env (n_time d)))%string,
                 ("0,5," ++ fmt_d (o_time env (n_time d)) ++ ",,"
                    ++ newline)%string).
Proof.
  intros H He Hroom. unfold poll_and_log in H.
  io_inv H t d1 Ht. inversion Ht as [[Ht' Hd1]]. clear Ht.
  io_inv H r d2 Hloop. destruct r as [[e1 g1] w1].
  apply io_ret_Some in H. destruct H as [H _]. inversion H. subst e1 g1 w1.
  clear H. apply wxgetloop_failure in Hloop; [|exact He].
  destruct Hloop as [-> ->]. split; [reflexivity|].
  subst out. cbn [time wxdat_zero]. rewrite <- Ht' in *.
  unfold wxlog. f_equal. f_equal.
  rewrite wxlog_line_items
    by (rewrite length_resize, wxlog_extent_zero; exact Hroom).
  rewrite log_header_zero, wxlog_items_zero. cbn [visible repeat].
  rewrite !string_app_assoc. reflexivity.
Qed.

Lemma failed_poll_is_logged_witness :
  gust_state0 = gust_state0
  /\ Some (("/var/fwx" ++ "/today.fwx")%string,
           ("0,5,0,," ++ newline)%string)
     = Some (("/var/fwx" ++ (fun _ : Z => "/today.fwx"%string)
                              (o_time station_xx (n_time dev0)))%string,
             ("0,5," ++ fmt_d (o_time station_xx (n_time dev0)) ++ ",,"
                ++ newline)%string).
Proof.
  apply (failed_poll_is_logged station_xx crc16_ccitt libm_series 60 true
           8 10 0 "/var/fwx" (fun _ => "/today.fwx"%string)
           gust_state0 gust_state0 (wxdat_zero 0) LoopCmdFailed
           (Some (("/var/fwx" ++ "/today.fwx")%string,
                  ("0,5,0,," ++ newline)%string))
           dev0
           (snd (default ((LoopCmdFailed, gust_state0, wxdat_zero 0, None),
                          dev0)
                   (poll_and_log station_xx crc16_ccitt libm_series 60 true
                      8 10 true 0 "/var/fwx" (fun _ => "/today.fwx"%string)
                      gust_state0 dev0))));
    [vm_compute; reflexivity|reflexivity|vm_compute; lia].
Defined.

(** ** From the record to the log: no digit is lost *)

Lemma exact_thousandths (r : Z) :
  0 <= r < 65535 ->
  fmt_f 3 (f32_div (f32_of_Z r) (f32_of_Z 1000)) = shifted 3 r.
Proof.
  intros Hr. apply String.eqb_eq.
  apply (all_from_spec (Z.to_nat 65535)
           (fun r => String.eqb
                       (fmt_f 3 (f32_div (f32_of_Z r) (f32_of_Z 1000)))
                       (shifted 3 r)) 0);
    [vm_cast_no_check (eq_refl true)|lia].
Qed.

Lemma exact_hundredths (r : Z) :
  0 <= r < 65535 ->
  fmt_f 2 (f32_div (f32_of_Z r) (f32_of_Z 100)) = shifted 2 r.
Proof.
  intros Hr. apply String.eqb_eq.
  apply (all_from_spec (Z.to_nat 65535)
           (fun r => String.eqb
                       (fmt_f 2 (f32_div (f32_of_Z r) (f32_of_Z 100)))
                       (shifted 2 r)) 0);
    [vm_cast_no_check (eq_refl true)|lia].
Qed.

Lemma exact_tenths (r : Z) :
  -1500 < r < 1500 ->
  fmt_f 1 (f32_div (f32_of_Z r) (f32_of_Z 10)) = shifted 1 r.
Proof.
  intros Hr. apply String.eqb_eq.
  apply (all_from_spec (Z.to_nat 2999)
           (fun r => String.eqb
                       (fmt_f 1 (f32_div (f32_of_Z r) (f32_of_Z 10)))
                       (shifted 1 r)) (-1499));
    [vm_cast_no_check (eq_refl true)|lia].
Qed.

Lemma exact_units (r : Z) :
  0 <= r <= 360 -> fmt_f 0 (f32_of_Z r) = shifted 0 r.
Proof.
  intros Hr. apply String.eqb_eq.
  apply (all_from_spec (Z.to_nat 361)
           (fun r => String.eqb (fmt_f 0 (f32_of_Z r)) (shifted 0 r)) 0);
    [vm_cast_no_check (eq_refl true)|lia].
Qed.

Lemma ld_byte_range (bs : list Z) (off : nat) :
  Forall wire_byte bs -> 0 <= ld_byte bs off < 256.
Proof.
  intros H. unfold ld_byte.
  destruct (Nat.lt_ge_cases off (length bs)) as [Hlt|Hge].
  - rewrite List.Forall_forall in H. apply H. apply nth_In. exact Hlt.
  - rewrite nth_overflow by exact Hge. lia.
Qed.

Lemma ld_u16_range (bs : list Z) (off : nat) :
  Forall wire_byte bs -> 0 <= ld_u16 bs off < 65536.
Proof.
  intros H. unfold ld_u16.
  pose proof (ld_byte_range bs off H).
  pose proof (ld_byte_range bs (S off) H). lia.
Qed.

(** [wxcalcdewpoint] writes the dewpoint and nothing else. *)
Lemma wxcalcdewpoint_frame (lm : libm) (w : wxdat_t) :
  let w' := wxcalcdewpoint lm w in
  time w' = time w /\ windcur w' = windcur w /\ windavg w' = windavg w
  /\ windgust w' = windgust w /\ barometer w' = barometer w
  /\ windspeed w' = windspeed w /\ winddir w' = winddir w
  /\ avgwindspeed w' = avgwindspeed w
  /\ avgwindspeedinterval w' = avgwindspeedinterval w
  /\ indoortemp w' = indoortemp w /\ outdoortemp w' = outdoortemp w
  /\ indoorhum w' = indoorhum w /\ outdoorhum w' = outdoorhum w
  /\ rainrate w' = rainrate w /\ rainday w' = rainday w
  /\ rainmonth w' = rainmonth w /\ rainyear w' = rainyear w
  /\ solar w' = solar w.
Proof.
  cbn zeta. unfold wxcalcdewpoint.
  destruct (negb (truthy (WXD_ISVALID (outdoortemp w)))
            || negb (truthy (WXD_ISVALID (outdoorhum w)))).
  { repeat split. }
  cbv zeta.
  destruct (f_isnan _).
  { repeat split. }
  destruct (truthy (Z.land (flags (outdoorhum w)) WXD_ENGLISH));
    unfold set_outdoordewpoint; cbn; repeat split.
Qed.

Lemma column_valid (places : nat) (u : string) (v : spec_float) (fl : Z)
    (x : wxd_t spec_float) :
  truthy (Z.land fl WXD_VALID) = true ->
  column places (cvt_field u true v fl x) = Shown (fmt_f places v).
Proof.
  intros H. unfold column, log_item_of, WXD_ISVALID, cvt_field.
  cbn [flags dat]. rewrite H. reflexivity.
Qed.

Lemma temp_ok_range (stmp : Z) : temp_ok stmp = true -> -1500 < stmp < 1500.
Proof.
  unfold temp_ok. intros H.
  apply andb_true_iff in H. destruct H as [H H2].
  apply andb_true_iff in H. destruct H as [_ H1].
  destruct (Z.gtb_spec stmp (-1500)); [|discriminate].
  destruct (Z.ltb_spec stmp 1500); [|discriminate]. lia.
Qed.

Ltac column_case lem :=
  rewrite column_valid by reflexivity; f_equal; apply lem; lia.

Lemma fmt_d_shifted (r : Z) : fmt_d r = shifted 0 r.
Proof. unfold fmt_d, shifted, fixed_digits. reflexivity. Qed.

(** The columns of a record decoded into a cleared sample: every
    measurement the decoder accepts is formatted as the integer of the
    record with the decimal point moved (three places for the barometer, two
    for the rain figures, one for the temperatures, none for wind, humidity
    and solar radiation), and every other one is missing.  The division in
    single precision and the rounding of [printf] never change a digit. *)
Lemma decoded_columns (lm : libm) (bs : list Z) (wc : wind_t)
    (wg : option wind_t) (t : Z) :
  Forall wire_byte bs ->
  let ld := vploop_of_bytes bs in
  let w' := cvt_fields lm ld wc wg (wxdat_zero t) in
  time w' = t
  /\ column 3 (barometer w')
     = raw_item (negb (bar ld =? SIXTEEN_ONES)) 3 (bar ld)
  /\ column 0 (windspeed w')
     = raw_item (negb (windSpeed ld =? EIGHT_ONES)) 0 (windSpeed ld)
  /\ column 0 (winddir w') = raw_item (windDir ld <=? 360) 0 (windDir ld)
  /\ column 0 (avgwindspeed w')
     = raw_item (negb (windSpeed10 ld =? EIGHT_ONES)) 0 (windSpeed10 ld)
  /\ column 1 (indoortemp w') = raw_item (temp_ok (tempIn ld)) 1 (tempIn ld)
  /\ column 1 (outdoortemp w')
     = raw_item (temp_ok (tempOut ld)) 1 (tempOut ld)
  /\ column 0 (indoorhum w')
     = raw_item (negb (humIn ld =? EIGHT_ONES) && (humIn ld <=? 100)) 0
         (humIn ld)
  /\ column 0 (outdoorhum w')
     = raw_item (negb (humOut ld =? EIGHT_ONES) && (humOut ld <=? 100)) 0
         (humOut ld)
  /\ column 2 (rainrate w')
     = raw_item (negb (rainRate ld =? SIXTEEN_ONES)) 2 (rainRate ld)
  /\ column 2 (rainday w')
     = raw_item (negb (rainDay ld =? SIXTEEN_ONES)) 2 (rainDay ld)
  /\ column 2 (rainmonth w')
     = raw_item (negb (rainMonth ld =? SIXTEEN_ONES)) 2 (rainMonth ld)
  /\ column 2 (rainyear w')
     = raw_item (negb (rainYear ld =? SIXTEEN_ONES)) 2 (rainYear ld)
  /\ log_item_of (WXD_ISVALID (solar w')) (fmt_d (dat (solar w')))
     = raw_item (negb (solarRad ld =? SIXTEEN_ONES)) 0 (solarRad ld).
Proof.
  intros Hbs. cbn zeta. unfold cvt_fields.
  match goal with |- context [wxcalcdewpoint lm ?r] => set (w0 := r) end.
  destruct (wxcalcdewpoint_frame lm w0)
    as (Ht & _ & _ & _ & Hbar & Hws & Hwd & Haws & _ & Hti & Hto & Hhi
        & Hho & Hrr & Hrd & Hrm & Hry & Hso).
  cbn zeta in *.
  rewrite Ht, Hbar, Hws, Hwd, Haws, Hti, Hto, Hhi, Hho, Hrr, Hrd, Hrm, Hry,
    Hso.
  subst w0. cbn [time barometer windspeed winddir avgwindspeed
                 indoortemp outdoortemp indoorhum
                 outdoorhum rainrate rainday rainmonth rainyear solar
                 wxdat_zero
                 vploop_of_bytes bar windSpeed windDir windSpeed10 tempIn
                 tempOut humIn humOut rainRate rainDay rainMonth rainYear
                 solarRad].
  pose proof (ld_u16_range bs 7 Hbs) as R7.
  pose proof (ld_u16_range bs 16 Hbs) as R16.
  pose proof (ld_u16_range bs 41 Hbs) as R41.
  pose proof (ld_u16_range bs 50 Hbs) as R50.
  pose proof (ld_u16_range bs 52 Hbs) as R52.
  pose proof (ld_u16_range bs 54 Hbs) as R54.
  pose proof (ld_byte_range bs 11 Hbs) as R11.
  pose proof (ld_byte_range bs 14 Hbs) as R14.
  pose proof (ld_byte_range bs 15 Hbs) as R15.
  pose proof (ld_byte_range bs 33 Hbs) as R33.
  unfold ld_u8, SIXTEEN_ONES, EIGHT_ONES in *.
  split; [reflexivity|].
  split; [|split; [|split; [|split; [|split; [|split; [|split; [|split;
    [|split; [|split; [|split; [|split]]]]]]]]]]].
  - destruct (Z.eqb_spec (ld_u16 bs 7) 65535); cbn [negb raw_item];
      [reflexivity|]. column_case exact_thousandths.
  - destruct (Z.eqb_spec (ld_byte bs 14) 255); cbn [negb raw_item];
      [reflexivity|]. column_case exact_units.
  - destruct (Z.leb_spec (ld_u16 bs 16) 360); cbn [raw_item];
      [|reflexivity]. column_case exact_units.
  - destruct (Z.eqb_spec (ld_byte bs 15) 255); cbn [negb raw_item];
      [reflexivity|]. column_case exact_units.
  - destruct (temp_ok (ld_i16 bs 9)) eqn:Hv; cbn [raw_item]; [|reflexivity].
    apply temp_ok_range in Hv. column_case exact_tenths.
  - destruct (temp_ok (ld_i16 bs 12)) eqn:Hv; cbn [raw_item]; [|reflexivity].
    apply temp_ok_range in Hv. column_case exact_tenths.
  - destruct (Z.eqb_spec (ld_byte bs 11) 255); cbn [negb andb raw_item];
      [reflexivity|].
    destruct (Z.leb_spec (ld_byte bs 11) 100); cbn [raw_item];
      [|reflexivity]. column_case exact_units.
  - destruct (Z.eqb_spec (ld_byte bs 33) 255); cbn [negb andb raw_item];
      [reflexivity|].
    destruct (Z.leb_spec (ld_byte bs 33) 100); cbn [raw_item];
      [|reflexivity]. column_case exact_units.
  - destruct (Z.eqb_spec (ld_u16 bs 41) 65535); cbn [negb raw_item];
      [reflexivity|]. column_case exact_hundredths.
  - destruct (Z.eqb_spec (ld_u16 bs 50) 65535); cbn [negb raw_item];
      [reflexivity|]. column_case exact_hundredths.
  - destruct (Z.eqb_spec (ld_u16 bs 52) 65535); cbn [negb raw_item];
      [reflexivity|]. column_case exact_hundredths.
  - destruct (Z.eqb_spec (ld_u16 bs 54) 65535); cbn [negb raw_item];
      [reflexivity|]. column_case exact_hundredths.
  - destruct (Z.eqb_spec (ld_u16 bs 44) 65535); cbn [negb raw_item];
      [reflexivity|].
    unfold cvt_field, log_item_of, WXD_ISVALID. cbn [flags dat].
    change (truthy (Z.land (Z.lor (Z.lor WXD_VALID WXD_METRIC) 2) WXD_VALID))
      with true.
    cbv iota. rewrite fmt_d_shifted. reflexivity.
Qed.

Lemma log_item_of_raw (v : Z) (text : string) (c : bool) (places : nat)
    (raw : Z) :
  log_item_of v text = raw_item c places raw ->
  truthy v = c /\ (c = true -> text = shifted places raw).
Proof.
  unfold log_item_of, raw_item.
  destruct (truthy v), c; intros H; try discriminate H.
  - inversion H. split; [reflexivity|]. intros _. reflexivity.
  - split; [reflexivity|]. intros E. discriminate E.
Qed.

(** The items [wxlog] goes through for such a sample are those of the
    record. *)
Lemma wxlog_items_record (lm : libm) (bs : list Z) (wc : wind_t)
    (wg : option wind_t) (t : Z) :
  Forall wire_byte bs ->
  let w' := cvt_fields lm (vploop_of_bytes bs) wc wg (wxdat_zero t) in
  wxlog_items w'
  = record_items (vploop_of_bytes bs) (column 1 (outdoordewpoint w')).
Proof.
  intros Hbs w'.
  destruct (decoded_columns lm bs wc wg t Hbs)
    as (_ & Hbar & Hws & Hwd & Haws & Hti & Hto & Hhi & Hho & Hrr & Hrd
        & Hrm & Hry & Hso).
  cbn zeta in *. fold w' in Hbar, Hws, Hwd, Haws, Hti, Hto, Hhi, Hho, Hrr,
    Hrd, Hrm, Hry, Hso.
  unfold column in *.
  unfold wxlog_items, record_items.
  rewrite Hbar, Hwd, Haws, Hti, Hto, Hhi, Hho, Hrr, Hrd, Hrm, Hry, Hso.
  apply log_item_of_raw in Hws. destruct Hws as [Hv Htext].
  rewrite Hv.
  destruct (negb (windSpeed (vploop_of_bytes bs) =? EIGHT_ONES));
    [|reflexivity].
  rewrite (Htext eq_refl). reflexivity.
Qed.

(** A record that decodes goes to the data file digit for digit.  For a
    record decoded into a cleared sample, the line [wxlog] appends is the
    header followed by the items of the record: every measurement the
    decoder accepts is printed as the integer of the record with the decimal
    point moved, up to the first measurement it does not accept, where the
    line ends with the commas stored for that one (and nothing of what
    follows it reaches the file). *)
Theorem decoded_line_exact (lm : libm) (fuel : nat) (iv : Z) (mok : bool)
    (bs : list Z) (g g' : gust_state) (t : Z) (w' : wxdat_t) (junk : Z)
    (wxlogdir datefile : string) :
  Forall wire_byte bs ->
  cvtvploop2fwx lm fuel iv mok (vploop_of_bytes bs) g (wxdat_zero t)
  = Some (g', w') ->
  (wxlog_extent w' < FILENAME_MAX)%nat ->
  wxlog true junk wxlogdir datefile w'
  = Some ((wxlogdir ++ datefile)%string,
          (log_header (wxdat_zero t)
             ++ visible (record_items (vploop_of_bytes bs)
                           (column 1 (outdoordewpoint w')))
             ++ newline)%string).
Proof.
  intros Hbs H Hroom.
  apply cvtvploop2fwx_Some in H. destruct H as [wg Hw'].
  unfold wxlog. f_equal. f_equal.
  rewrite wxlog_line_items by (rewrite length_resize; exact Hroom).
  assert (Ht : log_header w' = log_header (wxdat_zero t)).
  { unfold log_header. subst w'.
    destruct (decoded_columns lm bs (cvt_windcur (vploop_of_bytes bs)
                (windcur (wxdat_zero t))) wg t Hbs) as (Ht & _).
    cbn zeta in Ht. rewrite Ht. reflexivity. }
  rewrite Ht. subst w'.
  rewrite (wxlog_items_record lm bs _ wg t Hbs). reflexivity.
Qed.

Lemma record_no_wind_bytes : Forall wire_byte record_no_wind.
Proof.
  apply List.Forall_forall. intros b Hb.
  assert (Hall : forallb (fun b => (0 <=? b) && (b <? 256)) record_no_wind
                 = true) by (vm_compute; reflexivity).
  rewrite forallb_forall in Hall. specialize (Hall b Hb).
  apply andb_true_iff in Hall. unfold wire_byte. lia.
Qed.

Lemma decoded_line_exact_witness :
  wxlog true 0 "/var/fwx" "/2003.09.30.fwx" sample_no_wind
  = Some (("/var/fwx" ++ "/2003.09.30.fwx")%string,
          (log_header (wxdat_zero 1064905402)
             ++ visible (record_items (vploop_of_bytes record_no_wind)
                           (column 1 (outdoordewpoint sample_no_wind)))
             ++ newline)%string).
Proof.
  refine (decoded_line_exact libm_series 10 30 true record_no_wind
            gust_breeze
            (fst (default (gust_breeze, wxdat_zero 0)
                    (cvtvploop2fwx libm_series 10 30 true
                       (vploop_of_bytes record_no_wind) gust_breeze
                       (wxdat_zero 1064905402))))
            1064905402 sample_no_wind 0 "/var/fwx" "/2003.09.30.fwx"
            record_no_wind_bytes _ _).
  - vm_compute. reflexivity.
  - vm_compute. lia.
Defined.

(** The barometer and the temperatures of [record_no_wind] never reach the
    file together: the line ends where the wind speed is missing. *)
Example line_without_wind :
  wxlog true 0 "/var/fwx" "/2003.09.30.fwx" sample_no_wind
  = Some ("/var/fwx/2003.09.30.fwx"%string,
          ("0,5,1064905402,29.921,,," ++ newline)%string).
Proof. vm_compute. reflexivity. Qed.

(** ** [chkvar] *)

Lemma length_strncpy_bytes (n : nat) :
  forall s, length (strncpy_bytes s n) = n.
Proof.
  induction n as [|n IH]; intros s; [reflexivity|].
  cbn [strncpy_bytes]. destruct s as [|c r].
  - cbn [length]. rewrite IH. reflexivity.
  - destruct (c =? 0); cbn [length]; rewrite IH; reflexivity.
Qed.

Lemma strncpy_bytes_nil (n : nat) : strncpy_bytes [] n = repeat 0 n.
Proof.
  induction n as [|n IH]; [reflexivity|].
  cbn [strncpy_bytes repeat]. rewrite IH. reflexivity.
Qed.

(** What [strncpy] stores for a text without NUL: the text cut to [n]
    characters, filled up with NULs. *)
Lemma strncpy_bytes_text (n : nat) :
  forall s, Forall (fun c => c <> 0) s ->
            strncpy_bytes s n
            = take n s ++ repeat 0 (n - length s).
Proof.
  induction n as [|n IH]; intros s Hs; [reflexivity|].
  cbn [strncpy_bytes]. destruct s as [|c r].
  - rewrite strncpy_bytes_nil. reflexivity.
  - apply Forall_cons in Hs. destruct Hs as [Hc Hr].
    destruct (Z.eqb_spec c 0); [contradiction|].
    rewrite IH by exact Hr. reflexivity.
Qed.

Lemma strncmp_zero_prefix (name rest : list Z) :
  Forall (fun c => c <> 0) name ->
  strncmp_zero (name ++ rest) name (length name) = true.
Proof.
  induction name as [|c name IH]; intros H; [reflexivity|].
  apply Forall_cons in H. destruct H as [Hc Hn].
  cbn [app length strncmp_zero hd tl]. rewrite Z.eqb_refl.
  destruct (Z.eqb_spec c 0); [contradiction|]. apply IH. exact Hn.
Qed.

Lemma cstring_clean (s : list Z) :
  Forall (fun c => c <> 0) s -> cstring s = s.
Proof.
  induction s as [|c s IH]; intros H; [reflexivity|].
  apply Forall_cons in H. destruct H as [Hc Hs].
  cbn [cstring]. destruct (Z.eqb_spec c 0); [contradiction|].
  rewrite IH by exact Hs. reflexivity.
Qed.

Lemma skip_space_spaces (ws rest : list Z) :
  Forall (fun c => isspace c = true) ws ->
  isspace (hd 0 rest) = false ->
  skip_space (ws ++ rest) = rest.
Proof.
  induction ws as [|c ws IH]; intros Hws Hrest.
  - cbn [app]. destruct rest as [|x rest]; [reflexivity|].
    cbn [skip_space hd] in *. rewrite Hrest. reflexivity.
  - apply Forall_cons in Hws. destruct Hws as [Hc Hws].
    cbn [app skip_space]. rewrite Hc. apply IH; assumption.
Qed.

(** The trimming loop on an array that holds [v], whose last character is
    solid, then [t] of NULs and white space: it clears [t] and stops. *)
Lemma chkvar_trim_tail (v : list Z) (x : Z) :
  solid x ->
  forall (t rest : list Z),
    Forall (fun c => c = 0 \/ isspace c = true) t ->
    chkvar_trim (length (v ++ [x]) + length t) ((v ++ [x]) ++ t ++ rest)
    = Some ((v ++ [x]) ++ repeat 0 (length t) ++ rest).
Proof.
  intros [Hx0 Hxs] t. induction t as [|c t IH] using rev_ind; intros rest Ht.
  - cbn [length app repeat]. rewrite Nat.add_0_r, length_app.
    cbn [length]. rewrite Nat.add_1_r. cbn [chkvar_trim].
    rewrite <- app_assoc. cbn [app].
    rewrite nth_middle.
    destruct (Z.eqb_spec x 0); [contradiction|]. rewrite Hxs. reflexivity.
  - apply Forall_app in Ht. destruct Ht as [Ht Hc].
    apply Forall_cons in Hc. destruct Hc as [Hc _].
    set (vx := v ++ [x]) in *.
    rewrite (length_app t [c]). cbn [length].
    replace (length vx + (length t + 1))%nat
      with (S (length vx + length t)) by lia.
    cbn [chkvar_trim].
    assert (Hnth : nth (length vx + length t)
                     (vx ++ (t ++ [c]) ++ rest) 0 = c).
    { rewrite <- (app_assoc t [c] rest). cbn [app].
      rewrite (app_assoc vx t). rewrite <- length_app.
      apply nth_middle. }
    cbv zeta. rewrite Hnth.
    assert (Hcond : (c =? 0) || isspace c = true).
    { destruct Hc as [->|Hc]; [reflexivity|].
      rewrite Hc. apply orb_true_r. }
    rewrite Hcond.
    assert (Hins : <[(length vx + length t)%nat := 0]>
                     (vx ++ (t ++ [c]) ++ rest)
                   = vx ++ t ++ (0 :: rest)).
    { rewrite <- (app_assoc t [c] rest). cbn [app].
      rewrite (app_assoc vx t).
      rewrite <- length_app.
      rewrite insert_app_r_alt by lia.
      rewrite Nat.sub_diag. cbn. rewrite <- app_assoc. reflexivity. }
    rewrite Hins, IH by exact Ht.
    rewrite repeat_app. cbn [repeat]. rewrite <- !app_assoc.
    reflexivity.
Qed.

Lemma isspace_nonzero (c : Z) : isspace c = true -> c <> 0.
Proof. intros H ->. discriminate. Qed.

Lemma skip_space_head (s : list Z) : isspace (hd 0 (skip_space s)) = false.
Proof.
  induction s as [|c s IH]; [reflexivity|].
  cbn [skip_space]. destruct (isspace c) eqn:E; [exact IH|exact E].
Qed.

Lemma strncpy_bytes_head (s : list Z) (n : nat) :
  nth 0 (strncpy_bytes s (S n)) 0 = hd 0 s.
Proof.
  cbn [strncpy_bytes]. destruct s as [|c r]; [reflexivity|].
  cbn [hd]. destruct (Z.eqb_spec c 0) as [->|_]; reflexivity.
Qed.

Lemma store_0 (dst bs : list Z) :
  store dst 0 bs = bs ++ drop (length bs) dst.
Proof. reflexivity. Qed.

(** With a solid character at [dst[0]] the trimming loop stops inside the
    array; it touches nothing from [k] on and leaves [dst[0]] alone. *)
Lemma chkvar_trim_safe (k : nat) :
  forall dst, (0 < k)%nat -> solid (nth 0 dst 0) ->
              exists dst', chkvar_trim k dst = Some dst'
                           /\ length dst' = length dst
                           /\ drop k dst' = drop k dst
                           /\ nth 0 dst' 0 = nth 0 dst 0.
Proof.
  induction k as [|k IH]; intros dst Hk Hs; [lia|].
  cbn [chkvar_trim]. cbv zeta.
  destruct ((nth k dst 0 =? 0) || isspace (nth k dst 0)) eqn:E.
  - destruct k as [|k].
    { destruct Hs as [H0 Hsp]. apply orb_true_iff in E.
      destruct E as [E|E]; [apply Z.eqb_eq in E; contradiction|congruence]. }
    assert (Hs' : solid (nth 0 (<[S k := 0]> dst) 0)).
    { destruct dst as [|a dst]; [exact Hs|exact Hs]. }
    destruct (IH (<[S k := 0]> dst) ltac:(lia) Hs')
      as (dst' & Ht & Hl & Hd & Hn).
    exists dst'. split; [exact Ht|].
    split; [rewrite Hl; apply length_insert|].
    split.
    + assert (Hd2 : drop (S (S k)) dst' = drop (S (S k)) (<[S k := 0]> dst)).
      { replace (S (S k)) with (S k + 1)%nat by lia.
        rewrite <- !drop_drop, Hd. reflexivity. }
      rewrite Hd2. apply drop_insert_lt. lia.
    + rewrite Hn. destruct dst as [|a dst]; reflexivity.
  - exists dst. auto.
Qed.

(** [chkvar] never leaves the array it is given, whatever the line: with
    room for [len] bytes it returns 0 and changes nothing, or it returns 1
    and has written inside the first [len] bytes only; the value it leaves
    starts with a character that is neither NUL nor white space. *)
Theorem chkvar_stays_inside (s name dst : list Z) (len : nat) :
  (0 < len <= length dst)%nat ->
  exists r dst',
    chkvar s name dst len = Some (r, dst')
    /\ length dst' = length dst
    /\ drop len dst' = drop len dst
    /\ ((r = 0 /\ dst' = dst) \/ (r = 1 /\ solid (nth 0 dst' 0))).
Proof.
  intros [Hlen Hroom]. unfold chkvar. cbv zeta.
  destruct (negb (strncmp_zero s name (strlen name))).
  { exists 0, dst. tauto. }
  destruct (hd 0 (drop (strlen name) s) =? 0).
  { exists 0, dst. tauto. }
  set (v := skip_space (drop (strlen name) s)).
  destruct (Z.eqb_spec (hd 0 v) 0) as [|Hv0].
  { exists 0, dst. tauto. }
  destruct (Nat.ltb_spec (length dst) len) as [|_]; [lia|].
  set (dst1 := store dst 0 (strncpy_bytes v len)).
  assert (Hl1 : length dst1 = length dst).
  { apply store_length. rewrite length_strncpy_bytes. lia. }
  assert (Hd1 : drop len dst1 = drop len dst).
  { unfold dst1. rewrite store_0, length_strncpy_bytes.
    apply drop_app_length'. symmetry. apply length_strncpy_bytes. }
  assert (Hs1 : solid (nth 0 dst1 0)).
  { unfold dst1. rewrite store_0.
    destruct len as [|n]; [lia|].
    rewrite app_nth1 by (rewrite length_strncpy_bytes; lia).
    rewrite strncpy_bytes_head. split; [exact Hv0|apply skip_space_head]. }
  destruct (chkvar_trim_safe len dst1 Hlen Hs1) as (dst' & Ht & Hl & Hd & Hn).
  rewrite Ht. exists 1, dst'.
  split; [reflexivity|]. split; [congruence|]. split; [congruence|].
  right. split; [reflexivity|]. rewrite Hn. exact Hs1.
Qed.

Lemma chkvar_stays_inside_witness :
  exists r dst',
    chkvar (bytes_of_string ("FWXDEV /dev/cuaU0" ++ newline))
      (bytes_of_string "FWXDEV") (repeat 0 64) 63 = Some (r, dst')
    /\ length dst' = length (repeat 0 64)
    /\ drop 63 dst' = drop 63 (repeat 0 64)
    /\ ((r = 0 /\ dst' = repeat 0 64) \/ (r = 1 /\ solid (nth 0 dst' 0))).
Proof.
  apply (chkvar_stays_inside
           (bytes_of_string ("FWXDEV /dev/cuaU0" ++ newline))
           (bytes_of_string "FWXDEV") (repeat 0 64) 63).
  cbn. lia.
Defined.

(** A line that holds the name, white space (or none), a value of at most
    [len] characters and trailing white space sets the variable to the
    value, filled up with NULs to [len] bytes; the bytes behind them are
    not touched.  The value may hold white space inside: it runs from the
    first to the last character that is not white space. *)
Theorem chkvar_reads_value (name ws1 v ws2 dst : list Z) (x : Z)
    (len : nat) :
  Forall (fun c => c <> 0) name ->
  Forall (fun c => isspace c = true) ws1 ->
  Forall (fun c => c <> 0) v ->
  solid (hd 0 (v ++ [x])) -> solid x ->
  Forall (fun c => isspace c = true) ws2 ->
  (length (v ++ [x]) <= len <= length dst)%nat ->
  chkvar (name ++ ws1 ++ (v ++ [x]) ++ ws2) name dst len
  = Some (1, (v ++ [x]) ++ repeat 0 (len - length (v ++ [x]))
                ++ drop len dst).
Proof.
  intros Hname Hws1 Hv Hhd Hx Hws2 [Hfit Hroom].
  assert (Hval : Forall (fun c => c <> 0) (v ++ [x])).
  { apply Forall_app. split; [exact Hv|].
    apply Forall_cons. split; [apply Hx|constructor]. }
  assert (Hz2 : Forall (fun c => c <> 0) ws2).
  { eapply Forall_impl; [exact Hws2|]. intros c. apply isspace_nonzero. }
  set (value := v ++ [x]) in *.
  unfold chkvar. cbv zeta. unfold strlen. rewrite cstring_clean by exact Hname.
  rewrite strncmp_zero_prefix by exact Hname. cbn [negb].
  rewrite drop_app_length.
  assert (Hne : hd 0 (ws1 ++ value ++ ws2) <> 0).
  { destruct ws1 as [|c ws1].
    - cbn [app]. unfold value in *. destruct v; cbn [app hd] in *; apply Hhd.
    - apply Forall_cons in Hws1. cbn [app hd].
      apply isspace_nonzero. apply Hws1. }
  destruct (Z.eqb_spec (hd 0 (ws1 ++ value ++ ws2)) 0); [contradiction|].
  assert (Hhd2 : hd 0 (value ++ ws2) = hd 0 value).
  { unfold value. destruct v; reflexivity. }
  rewrite skip_space_spaces; [|exact Hws1|rewrite Hhd2; apply Hhd].
  destruct (Z.eqb_spec (hd 0 (value ++ ws2)) 0) as [E|_].
  { rewrite Hhd2 in E. destruct Hhd as [H0 _]. contradiction. }
  destruct (Nat.ltb_spec (length dst) len) as [|_]; [lia|].
  rewrite strncpy_bytes_text by (apply Forall_app; split; assumption).
  rewrite store_0.
  set (t := take (len - length value) ws2
            ++ repeat 0 (len - (length value + length ws2))).
  assert (Hlt : length t = (len - length value)%nat).
  { unfold t. rewrite length_app, length_take, repeat_length. lia. }
  assert (Ht : Forall (fun c => c = 0 \/ isspace c = true) t).
  { unfold t. apply Forall_app. split.
    - apply Forall_take. eapply Forall_impl; [exact Hws2|]. auto.
    - apply Forall_forall. intros c Hc. apply list_elem_of_In in Hc.
      apply repeat_spec in Hc. auto. }
  assert (Hb : take len (value ++ ws2)
               ++ repeat 0 (len - length (value ++ ws2)) = value ++ t).
  { unfold t. rewrite take_app_ge by exact Hfit.
    rewrite length_app, <- app_assoc. reflexivity. }
  rewrite Hb.
  replace (length (value ++ t)) with len by (rewrite length_app; lia).
  replace len with (length value + length t)%nat at 1 by lia.
  rewrite <- app_assoc. unfold value at 1 2.
  rewrite chkvar_trim_tail by assumption.
  rewrite Hlt. reflexivity.
Qed.

Lemma chkvar_reads_value_witness :
  chkvar (bytes_of_string "FWXLOGDIR" ++ [32; 9]
            ++ (bytes_of_string "/var/fw" ++ [120]) ++ [32; 13; 10])
    (bytes_of_string "FWXLOGDIR") (repeat 7 64) 63
  = Some (1, (bytes_of_string "/var/fw" ++ [120])
               ++ repeat 0 (63 - length (bytes_of_string "/var/fw" ++ [120]))
               ++ drop 63 (repeat 7 64)).
Proof.
  apply (chkvar_reads_value (bytes_of_string "FWXLOGDIR") [32; 9]
           (bytes_of_string "/var/fw") [32; 13; 10] (repeat 7 64) 120 63).
  - apply Forall_forall. intros c Hc. apply list_elem_of_In in Hc.
    vm_compute in Hc. intuition lia.
  - repeat constructor.
  - apply Forall_forall. intros c Hc. apply list_elem_of_In in Hc.
    vm_compute in Hc. intuition lia.
  - split; [vm_compute; discriminate|reflexivity].
  - split; [discriminate|reflexivity].
  - repeat constructor.
  - cbn. lia.
Defined.

(** ** [wxident] *)

Lemma wxwakeup_zero_writes (env : oracle) (fuel : nat) (d d' : dev) :
  wxwakeup env fuel d = Some (0, d') ->
  writes_of (trace d') = writes_of (trace d) ++ [[NL]].
Proof.
  intros H. unfold wxwakeup in H.
  io_inv H r0 d1 Hflush. apply quiet_wxflush in Hflush.
  destruct (negb (r0 =? 0)).
  { apply io_ret_Some in H. destruct H as [H _]. discriminate. }
  io_inv H rc d2 Hwrite. apply sys_write_writes in Hwrite.
  rewrite Hflush in Hwrite.
  destruct (negb (rc =? 1)).
  { apply io_ret_Some in H. destruct H as [H _]. discriminate. }
  io_inv H resp0 d3 Hal. apply quiet_alloca in Hal.
  io_inv H x d4 Hread. apply quiet_wxread in Hread.
  rewrite <- Hwrite, <- Hal, <- Hread.
  destruct x as [rr resp].
  destruct (rr =? -1).
  { apply io_ret_Some in H. destruct H as [H _]. discriminate. }
  destruct (_ && _); apply io_ret_Some in H; destruct H as [H ->];
    [discriminate|reflexivity].
Qed.







(** A station that never answers a wake-up gets four newlines and no
    command; one that answers the first gets the command after one. *)
Example wxident_on_stations :
  (exists d',
     wxident station_xx 8 dev0 = Some (-1, d')
     /\ writes_of (trace d') = repeat [NL] 4)
  /\ (exists d',
        wxident station_ident 8 dev0 = Some (16, d')
        /\ writes_of (trace d') = [[NL]; WRDCMD]).
Proof.
  split; eexists; (split; [vm_compute; reflexivity|]); vm_compute;
    reflexivity.
Qed.

(** ** [wxopen] *)

(** [wxopen] does not leak the descriptor: when it fails, whatever step
    failed, no descriptor is left open; when it succeeds the descriptor it
    returns is the one [open] gave, it is the only one open, and the line has
    been made exclusive, blocking and raw at the interface speed, with
    pending input flushed.  The path opened is the device name, with
    ["/dev/"] in front unless it starts with a slash. *)
Theorem wxopen_no_leak (os : open_oracle) (devname : string) :
  let '(r, evs) := wxopen os devname in
  hd_error evs = Some (OsOpen (wxdev_path devname) true)
  /\ (r = -1 \/ os_open os = Some r)
  /\ (os_open os = None \/ os_excl os = false \/ os_setfl os = false
      \/ os_tcget os = false \/ os_tcset os = false ->
      r = -1 /\ open_fds (os_open os) evs [] = [])
  /\ (os_excl os = true -> os_setfl os = true -> os_tcget os = true ->
      os_tcset os = true ->
      forall fd, os_open os = Some fd ->
                 r = fd
                 /\ open_fds (os_open os) evs [] = [fd]
                 /\ evs = [OsOpen (wxdev_path devname) true; OsExcl fd;
                           OsSetfl fd 0; OsTcget fd;
                           OsTcset fd true wxopen_termios]).
Proof.
  unfold wxopen.
  destruct os as [[fd|] ex sf tg ts]; cbn [os_open os_excl os_setfl os_tcget
                                           os_tcset].
  - destruct ex, sf, tg, ts; cbn [negb hd_error open_fds List.filter];
      rewrite ?Z.eqb_refl; cbn [negb];
      (split; [reflexivity|]);
      (split; [auto|]);
      (split; [intros H; try (split; reflexivity);
               exfalso; intuition discriminate|]);
      try (intros; discriminate).
    intros _ _ _ _ fd' Hfd. inversion Hfd. subst fd'. auto.
  - cbn [hd_error open_fds]. split; [reflexivity|]. split; [auto|].
    split; [auto|]. intros _ _ _ _ fd Hfd. discriminate.
Qed.

Example wxopen_relative_name :
  wxopen (mk_open (Some 3) true true true false) "cuaU0"
  = (-1, [OsOpen "/dev/cuaU0" true; OsExcl 3; OsSetfl 3 0; OsTcget 3;
          OsTcset 3 true wxopen_termios; OsClose 3]).
Proof. reflexivity. Qed.

(** ** [wxread] comes back *)

Lemma wxsettimeout_runs (env : oracle) (timeout : Z) (d : dev) :
  exists r d1, wxsettimeout env timeout d = Some (r, d1)
               /\ n_time d1 = n_time d /\ n_read d1 = n_read d.
Proof.
  unfold wxsettimeout, io_bind, sys_tcgetattr, sys_tcsetattr, io_ret.
  destruct (negb (o_tcget env (n_tcget d))); cbn [n_tcset].
  - eexists _, _. split; [reflexivity|]. split; reflexivity.
  - destruct (negb (o_tcset env (n_tcset d)));
      eexists _, _; (split; [reflexivity|]); split; reflexivity.
Qed.

Lemma clock_runs_next (env : oracle) (p r : nat) :
  clock_runs env p r -> clock_runs env (S p) (S r).
Proof.
  intros [Hc Hr]. split.
  - intros i. specialize (Hc (S i)).
    rewrite Nat.add_succ_r in Hc. exact Hc.
  - intros i Hi. specialize (Hr (S i)).
    rewrite !Nat.add_succ_r in Hr. apply Hr. exact Hi.
Qed.

Lemma wxread_loop_returns (env : oracle) (fuel : nat) :
  forall expire buf len remaining timeout d p,
    n_time d = S p -> expire - o_time env p = timeout ->
    timeout <= MAX_TIMEOUT -> 0 <= remaining ->
    clock_runs env p (n_read d) ->
    (Z.to_nat remaining + Z.to_nat timeout < fuel)%nat ->
    exists r d',
      wxread_loop env fuel expire buf len remaining timeout d = Some (r, d')
      /\ Z.of_nat (n_read d') - Z.of_nat (n_read d)
         <= remaining + Z.max 0 timeout.
Proof.
  induction fuel as [|fuel IH];
    intros expire buf len remaining timeout d p Hp Hexp Hmax Hrem Hclock Hfuel;
    [lia|].
  cbn [wxread_loop].
  destruct (Z.gtb_spec remaining 0) as [Hr0|Hr0]; cbn [andb].
  2:{ eexists _, _. split; [reflexivity|]. lia. }
  destruct (Z.gtb_spec timeout 0) as [Ht0|Ht0].
  2:{ eexists _, _. split; [reflexivity|]. lia. }
  unfold io_bind at 1.
  destruct (wxsettimeout_runs env timeout d) as (r & d1 & Hset & Hn1 & Hr1).
  rewrite Hset.
  destruct (r =? -1).
  { eexists _, _. split; [reflexivity|]. rewrite Hr1. lia. }
  unfold io_bind at 1, sys_read at 1.
  destruct (o_read env (n_read d1)) as [l|] eqn:Hread; cbn [option_map].
  2:{ eexists _, _. split; [reflexivity|]. cbn [n_read]. lia. }
  unfold io_bind at 1, sys_time at 1. cbn [n_time].
  destruct Hclock as [Hc Hrd].
  assert (Hc0 : 0 <= o_time env (S p) - o_time env p < 2 ^ 24).
  { specialize (Hc O). rewrite Nat.add_0_r in Hc. exact Hc. }
  assert (Hrd0 : o_read env (n_read d) = Some [] ->
                 o_time env p < o_time env (S p)).
  { intros Hx. specialize (Hrd O). rewrite !Nat.add_0_r in Hrd. auto. }
  rewrite Hn1, Hp.
  set (bs := take (Z.to_nat remaining) l).
  remember (o_time env (S p)) as now eqn:Hnow.
  assert (Hbs : (length bs <= Z.to_nat remaining)%nat).
  { unfold bs. rewrite length_take. lia. }
  assert (Hwrap : sint32 (expire - now) = expire - now).
  { apply sint32_small. unfold MAX_TIMEOUT in Hmax. lia. }
  rewrite Hwrap.
  assert (Hprog : (1 <= length bs)%nat \/ expire - now <= timeout - 1).
  { destruct l as [|c l].
    - right. rewrite <- Hr1 in Hrd0. specialize (Hrd0 Hread). lia.
    - left. unfold bs. destruct (Z.to_nat remaining) eqn:E; [lia|].
      cbn. lia. }
  match goal with
  | |- context [wxread_loop env fuel expire ?b len ?rem ?tm ?dd] =>
      destruct (IH expire b len rem tm dd (S p)) as (r' & d' & Hrun & Hcount)
  end.
  - reflexivity.
  - rewrite Hnow. reflexivity.
  - lia.
  - lia.
  - cbn [n_read]. rewrite Hr1.
    apply clock_runs_next. split; assumption.
  - clearbody bs. lia.
  - exists r', d'. split; [exact Hrun|].
    cbn [n_read] in Hcount. rewrite Hr1 in Hcount.
    clearbody bs. lia.
Qed.

Lemma wxread_returns_aux (env : oracle) (fuel : nat) (buf : list Z)
    (len timeout : Z) (d : dev) :
  clock_runs env (n_time d) (n_read d) ->
  (Z.to_nat MAX_READ + Z.to_nat MAX_TIMEOUT < fuel)%nat ->
  0 <= len ->
  exists r d',
    wxread env fuel buf len timeout d = Some (r, d')
    /\ Z.of_nat (n_read d') - Z.of_nat (n_read d) <= len + Z.max 0 timeout.
Proof.
  intros Hclock Hfuel Hlen. unfold wxread.
  destruct (Z.leb_spec timeout 0) as [Ht|Ht]; cbn [orb].
  { eexists _, _. split; [reflexivity|]. lia. }
  destruct (Z.gtb_spec timeout MAX_TIMEOUT) as [Ht'|Ht'].
  { eexists _, _. split; [reflexivity|]. lia. }
  destruct (Z.eqb_spec len 0) as [Hl|Hl]; cbn [orb].
  { eexists _, _. split; [reflexivity|]. lia. }
  destruct (Z.gtb_spec len MAX_READ) as [Hl'|Hl'].
  { eexists _, _. split; [reflexivity|]. lia. }
  unfold io_bind, sys_time.
  match goal with
  | |- context [wxread_loop env fuel ?e buf len len timeout ?dd] =>
      destruct (wxread_loop_returns env fuel e buf len len timeout dd
                  (n_time d)) as (r & d' & Hrun & Hcount)
  end.
  - reflexivity.
  - lia.
  - lia.
  - lia.
  - exact Hclock.
  - unfold MAX_READ, MAX_TIMEOUT in *. lia.
  - exists r, d'. split; [exact Hrun|]. cbn [n_read] in Hcount. lia.
Qed.

(** [wxread] always comes back, and soon: as long as the clock runs and an
    empty [read] costs a second, a call ends after at most [len + timeout]
    calls of [read], whatever the station sends and whichever calls fail. *)
Theorem wxread_returns (env : oracle) (fuel : nat) (buf : list Z)
    (len timeout : Z) (d : dev) :
  clock_runs env (n_time d) (n_read d) ->
  (Z.to_nat MAX_READ + Z.to_nat MAX_TIMEOUT < fuel)%nat ->
  0 <= len ->
  exists r d',
    wxread env fuel buf len timeout d = Some (r, d')
    /\ Z.of_nat (n_read d') - Z.of_nat (n_read d) <= len + Z.max 0 timeout.
Proof. apply wxread_returns_aux. Qed.

Lemma station_clock_runs (reads : list (option (list Z))) (junk : Z)
    (p r : nat) :
  clock_runs (station reads junk) p r.
Proof.
  split; intros i; cbn [station o_time o_read]; [lia|intros _; lia].
Qed.

Lemma wxread_returns_witness :
  exists r d',
    wxread (station [Some [1; 2]; Some [3; 4]] 0) 300 [9; 9; 9; 9] 3 5 dev0
    = Some (r, d')
    /\ Z.of_nat (n_read d') - Z.of_nat (n_read dev0) <= 3 + Z.max 0 5.
Proof.
  apply (wxread_returns (station [Some [1; 2]; Some [3; 4]] 0) 300
           [9; 9; 9; 9] 3 5 dev0).
  - apply station_clock_runs.
  - vm_compute. lia.
  - lia.
Defined.

(** ** No poll hangs *)

Lemma runs_ret {A} (a : A) : runs_within 0 (io_ret a).
Proof. intros d. exists a, d. split; [reflexivity|lia]. Qed.

Lemma runs_bind {A B} (k1 k2 : nat) (m : io A) (f : A -> io B) :
  runs_within k1 m -> (forall a, runs_within k2 (f a)) ->
  runs_within (k1 + k2) (io_bind m f).
Proof.
  intros Hm Hf d. destruct (Hm d) as (a & d1 & Ha & H1).
  destruct (Hf a d1) as (b & d2 & Hb & H2).
  exists b, d2. unfold io_bind. rewrite Ha. split; [exact Hb|lia].
Qed.

Lemma runs_weaken {A} (k k' : nat) (m : io A) :
  (k <= k')%nat -> runs_within k m -> runs_within k' m.
Proof.
  intros Hk Hm d. destruct (Hm d) as (a & d' & Ha & H1).
  exists a, d'. split; [exact Ha|lia].
Qed.

Lemma runs_if {A} (k : nat) (c : bool) (m1 m2 : io A) :
  runs_within k m1 -> runs_within k m2 ->
  runs_within k (if c then m1 else m2).
Proof. destruct c; auto. Qed.

Ltac runs_ret_k := eapply runs_weaken; [|apply runs_ret]; lia.

Lemma clock_mono (env : oracle) :
  (forall k : nat, 0 <= o_time env (S k) - o_time env k < 2 ^ 24) ->
  forall a b : nat, (a <= b)%nat -> o_time env a <= o_time env b.
Proof.
  intros Hc a b Hab. induction Hab as [|b Hab IH]; [lia|].
  specialize (Hc b). lia.
Qed.

Lemma clock_advances_by (env : oracle) (G : nat) :
  clock_advances env G ->
  forall (n k : nat), o_time env k + Z.of_nat n <= o_time env (k + G * n).
Proof.
  intros [_ Hg] n. induction n as [|n IH]; intros k.
  - rewrite Nat.mul_0_r, Nat.add_0_r. lia.
  - specialize (IH k). specialize (Hg (k + G * n)%nat).
    replace (k + G * S n)%nat with (k + G * n + G)%nat by lia. lia.
Qed.

(** The loop of [wxread] ends with the first [time()] at or past [expire],
    if not before. *)
Lemma wxread_loop_expires (env : oracle) (fuel : nat) :
  (forall k : nat, 0 <= o_time env (S k) - o_time env k < 2 ^ 24) ->
  forall expire buf len remaining timeout d (p limit : nat),
    n_time d = S p -> expire - o_time env p = timeout ->
    timeout <= MAX_TIMEOUT ->
    expire <= o_time env limit ->
    (limit - p < fuel)%nat ->
    exists r d',
      wxread_loop env fuel expire buf len remaining timeout d = Some (r, d')
      /\ (n_read d' <= n_read d + (limit - p))%nat.
Proof.
  intros Hc.
  induction fuel as [|fuel IH];
    intros expire buf len remaining timeout d p limit Hp Hexp Hmax Hlim Hfuel;
    [lia|].
  cbn [wxread_loop].
  destruct (Z.gtb_spec remaining 0) as [Hr0|Hr0]; cbn [andb].
  2:{ eexists _, _. split; [reflexivity|]. lia. }
  destruct (Z.gtb_spec timeout 0) as [Ht0|Ht0].
  2:{ eexists _, _. split; [reflexivity|]. lia. }
  assert (Hpl : (p < limit)%nat).
  { destruct (Nat.lt_ge_cases p limit) as [Hlt|Hge]; [exact Hlt|].
    pose proof (clock_mono env Hc limit p Hge). lia. }
  unfold io_bind at 1.
  destruct (wxsettimeout_runs env timeout d) as (r & d1 & Hset & Hn1 & Hr1).
  rewrite Hset.
  destruct (r =? -1).
  { eexists _, _. split; [reflexivity|]. rewrite Hr1. lia. }
  unfold io_bind at 1, sys_read at 1.
  destruct (o_read env (n_read d1)) as [l|] eqn:Hread; cbn [option_map].
  2:{ eexists _, _. split; [reflexivity|]. cbn [n_read]. lia. }
  unfold io_bind at 1, sys_time at 1. cbn [n_time].
  rewrite Hn1, Hp.
  pose proof (Hc p) as Hc0.
  remember (o_time env (S p)) as now eqn:Hnow.
  assert (Hwrap : sint32 (expire - now) = expire - now).
  { apply sint32_small. unfold MAX_TIMEOUT in Hmax. lia. }
  rewrite Hwrap.
  match goal with
  | |- context [wxread_loop env fuel expire ?b len ?rem ?tm ?dd] =>
      destruct (IH expire b len rem tm dd (S p) limit)
        as (r' & d' & Hrun & Hcount)
  end.
  - reflexivity.
  - rewrite Hnow. reflexivity.
  - lia.
  - exact Hlim.
  - lia.
  - exists r', d'. split; [exact Hrun|].
    cbn [n_read] in Hcount. rewrite Hr1 in Hcount. lia.
Qed.

Section Polling.
Variable env : oracle.
Variable fuel : nat.
Variable G : nat.
Hypothesis Hclock : clock_advances env G.

Lemma runs_alloca (n : nat) : runs_within 0 (alloca env n).
Proof. intros d. eexists _, _. split; [reflexivity|]. cbn. lia. Qed.

Lemma runs_sys_write (bs : list Z) : runs_within 0 (sys_write env bs).
Proof. intros d. eexists _, _. split; [reflexivity|]. cbn. lia. Qed.

Lemma runs_wxflush : runs_within 0 (wxflush env).
Proof.
  intros d. unfold wxflush, io_bind, sys_tcgetattr, sys_tcsetattr, io_ret.
  destruct (negb (o_tcget env (n_tcget d))); cbn [n_tcset c_vtime].
  - eexists _, _. split; [reflexivity|]. cbn. lia.
  - destruct (negb (o_tcset env (n_tcset d)));
      eexists _, _; (split; [reflexivity|]); cbn; lia.
Qed.

Lemma runs_wxread (buf : list Z) (len timeout : Z) (n : nat) :
  timeout <= Z.of_nat n -> (G * n < fuel)%nat ->
  runs_within (G * n) (wxread env fuel buf len timeout).
Proof.
  intros Hn Hfuel d. unfold wxread.
  destruct (Z.leb_spec timeout 0) as [Ht|Ht]; cbn [orb].
  { eexists _, _. split; [reflexivity|]. lia. }
  destruct (Z.gtb_spec timeout MAX_TIMEOUT) as [Ht'|Ht'].
  { eexists _, _. split; [reflexivity|]. lia. }
  destruct ((len =? 0) || (len >? MAX_READ)).
  { eexists _, _. split; [reflexivity|]. lia. }
  unfold io_bind, sys_time.
  pose proof (clock_advances_by env G Hclock n (n_time d)) as Hby.
  destruct Hclock as [Hc _].
  match goal with
  | |- context [wxread_loop env fuel ?e buf len len timeout ?dd] =>
      destruct (wxread_loop_expires env fuel Hc e buf len len timeout dd
                  (n_time d) (n_time d + G * n)%nat)
        as (r & d' & Hrun & Hcount)
  end.
  - reflexivity.
  - lia.
  - lia.
  - lia.
  - lia.
  - exists r, d'. split; [exact Hrun|]. cbn [n_read] in Hcount. lia.
Qed.

Hypothesis Hfuel : (G * 10 < fuel)%nat.

Lemma runs_wxwakeup : runs_within (G * 5) (wxwakeup env fuel).
Proof.
  unfold wxwakeup.
  apply (runs_bind 0 (G * 5)); [apply runs_wxflush|]. intros r.
  apply runs_if; [runs_ret_k|].
  apply (runs_bind 0 (G * 5)); [apply runs_sys_write|]. intros rc.
  apply runs_if; [runs_ret_k|].
  apply (runs_bind 0 (G * 5)); [apply runs_alloca|]. intros resp0.
  eapply runs_weaken; [|apply (runs_bind (G * 5) 0)].
  - lia.
  - apply runs_wxread; lia.
  - intros [rr resp].
    apply runs_if; [runs_ret_k|].
    apply runs_if; runs_ret_k.
Qed.

Lemma runs_wake_loop (n : nat) :
  forall i, runs_within (G * 5 * n) (wake_loop env n fuel i).
Proof.
  induction n as [|n IH]; intros i; cbn [wake_loop].
  - runs_ret_k.
  - eapply runs_weaken; [|apply (runs_bind (G * 5) (G * 5 * n))].
    + lia.
    + apply runs_wxwakeup.
    + intros r. apply runs_if; [runs_ret_k|apply IH].
Qed.

Lemma runs_wxgetack_loop (n : nat) :
  forall i ackbuf,
    (1 <= n)%nat -> 5 - i < Z.of_nat n ->
    runs_within (G * n) (wxgetack_loop env n fuel i ackbuf).
Proof.
  induction n as [|n IH]; intros i ackbuf Hn Hi; [lia|].
  cbn [wxgetack_loop].
  eapply runs_weaken; [|apply (runs_bind (G * 1) (G * n))].
  - lia.
  - apply runs_wxread; lia.
  - intros [rr ackbuf']. apply runs_if; [runs_ret_k|].
    destruct (Z.geb_spec i 5) as [Hge|Hlt]; [runs_ret_k|].
    apply runs_if; [|runs_ret_k].
    apply IH; lia.
Qed.

Lemma runs_wxcmd (cmd : list Z) : runs_within (G * 6) (wxcmd env fuel cmd).
Proof.
  unfold wxcmd.
  apply (runs_bind 0 (G * 6)); [apply runs_sys_write|]. intros rc.
  apply runs_if; [runs_ret_k|].
  apply runs_if; [runs_ret_k|].
  eapply runs_weaken; [|apply (runs_bind (G * 6) 0)].
  - lia.
  - unfold wxgetack. apply (runs_bind 0 (G * 6)); [apply runs_alloca|].
    intros ackbuf. apply (runs_wxgetack_loop 6); lia.
  - intros r. apply runs_if; runs_ret_k.
Qed.

Lemma runs_wxgetloop (wxcrc : list Z -> Z) (lm : libm) (iv : Z) (mok : bool)
    (gfuel : nat) (g : gust_state) (w : wxdat_t) :
  gust_determinate gfuel iv mok g ->
  runs_within (G * 36) (wxgetloop env wxcrc lm iv mok fuel gfuel g w).
Proof.
  intros Hg. unfold wxgetloop.
  eapply runs_weaken; [|apply (runs_bind (G * 5 * 4) (G * 16))].
  { lia. }
  { apply (runs_wake_loop 4). }
  intros _.
  eapply runs_weaken; [|apply (runs_bind (G * 6) (G * 10))].
  { lia. }
  { apply runs_wxcmd. }
  intros r.
  apply runs_if; [runs_ret_k|].
  apply (runs_bind 0 (G * 10)); [apply runs_alloca|]. intros ld0.
  apply (runs_bind 0 (G * 10)); [apply runs_alloca|]. intros after.
  eapply runs_weaken; [|apply (runs_bind (G * 10) 0)].
  { lia. }
  { apply runs_wxread; [lia|exact Hfuel]. }
  intros [rc ld].
  apply runs_if; [runs_ret_k|].
  apply runs_if; [runs_ret_k|].
  apply runs_if; [runs_ret_k|].
  destruct (Hg (cvt_windcur (vploop_of_bytes ld) (windcur w)))
    as (g' & wg & Hgust & Hdet).
  destruct (cvtvploop2fwx_defined lm gfuel iv mok (vploop_of_bytes ld) g g' w
              wg Hgust Hdet) as [w' Hcvt].
  rewrite Hcvt. runs_ret_k.
Qed.

End Polling.

(** No poll hangs.  As long as the clock moves on, and the gust tracker
    hands back a determinate pointer whatever the wind, a call of
    [wxgetloop] comes back whatever the station sends and whichever system
    calls fail: each of its at most eleven calls of [wxread] ends with the
    first [time()] past its deadline, at most [G] calls of [read] for every
    second of its timeout (four wake-ups of 5 s, six waits of 1 s for the
    ACK and 10 s for the record). *)
Theorem wxgetloop_returns (env : oracle) (wxcrc : list Z -> Z) (lm : libm)
    (iv : Z) (mok : bool) (fuel gfuel : nat) (g : gust_state) (w : wxdat_t)
    (d : dev) (G : nat) :
  clock_advances env G ->
  (G * 10 < fuel)%nat ->
  gust_determinate gfuel iv mok g ->
  exists r d',
    wxgetloop env wxcrc lm iv mok fuel gfuel g w d = Some (r, d')
    /\ (n_read d' <= n_read d + G * 36)%nat.
Proof.
  intros Hclock Hfuel Hg.
  apply (runs_wxgetloop env fuel G Hclock Hfuel wxcrc lm iv mok gfuel g w
           Hg d).
Qed.

Lemma silent_clock_advances : clock_advances station_silent 2.
Proof.
  split; intros k; cbn [station_silent o_time].
  - do 37 (destruct k as [|k]; [vm_compute; split; [discriminate|reflexivity]|]).
    rewrite !nth_overflow by (cbn; lia). lia.
  - do 36 (destruct k as [|k]; [vm_compute; reflexivity|]).
    rewrite !nth_overflow by (cbn; lia). lia.
Qed.

Lemma gust_breeze_determinate : gust_determinate 10 30 true gust_breeze.
Proof.
  intros wp.
  exists (fst (gust_record gust_breeze wp)), (snd (gust_record gust_breeze wp)).
  split; [reflexivity|].
  intros Hnone.
  pose proof (gust_record_first_max gust_breeze wp) as Hmax.
  cbn zeta in Hmax. rewrite Hnone in Hmax. cbn [gust_deref] in Hmax.
  rewrite List.Forall_forall in Hmax.
  specialize (Hmax (mk_wind 5 180)).
  assert (Hin : In (mk_wind 5 180)
                  (scan_window (warr (fst (gust_record gust_breeze wp)))
                     (walen gust_breeze) (tenmin gust_breeze)
                     (Z.land (waidx (fst (gust_record gust_breeze wp))
                              + (walen gust_breeze - tenmin gust_breeze))
                        (walen gust_breeze - 1)))).
  { vm_compute. tauto. }
  specialize (Hmax Hin). cbn in Hmax. lia.
Qed.

Lemma wxgetloop_returns_witness :
  exists r d',
    wxgetloop station_silent crc16_ccitt libm_series 30 true 300 10
      gust_breeze (wxdat_zero 0) dev0 = Some (r, d')
    /\ (n_read d' <= n_read dev0 + 2 * 36)%nat.
Proof.
  apply (wxgetloop_returns station_silent crc16_ccitt libm_series 30 true
           300 10 gust_breeze (wxdat_zero 0) dev0 2).
  - exact silent_clock_advances.
  - lia.
  - exact gust_breeze_determinate.
Defined.

(** The silent station is given up after four wake-ups of five reads and
    six waits of one read for the ACK; the clock is the one of the
    definition, with two calls of [time()] in one second at the start of
    each [wxread]. *)
Example silent_poll :
  exists d',
    wxgetloop station_silent crc16_ccitt libm_series 30 true 300 10
      gust_breeze (wxdat_zero 0) dev0
    = Some ((LoopCmdFailed, gust_breeze, wxdat_zero 0), d')
    /\ n_read d' = 26%nat /\ n_time d' = 36%nat.
Proof.
  eexists. split; [vm_compute; reflexivity|]. split; reflexivity.
Qed.

(** ** The uplink commands *)

Lemma quote_printf : free_of QUOTE PRINTF_CHARS.
Proof. apply free_lit. reflexivity. Qed.

Lemma free_url_field {A} (key : string) (x : wxd_t A) (text : string) :
  free_of QUOTE key -> free_of QUOTE text ->
  free_of QUOTE (url_field key x text).
Proof.
  intros Hk Ht. unfold url_field. destruct (truthy (WXD_ISVALID x)).
  - apply free_app; assumption.
  - apply free_nil.
Qed.

Ltac quote_free :=
  repeat first
    [ apply free_app
    | apply free_url_field
    | apply free_fmt_f, quote_printf
    | apply free_fmt_d, quote_printf
    | assumption
    | apply free_lit; reflexivity
    | match goal with
      | |- free_of _ (if ?c then _ else _) => destruct c
      end ].

Lemma free_url_measurements (w : wxdat_t) :
  free_of QUOTE (url_measurements w).
Proof. unfold url_measurements. quote_free. Qed.

(** The command of [wxsendwu] is [fetch] and one quoted word: when the
    station name, the password and the date hold no single quote, nothing
    the function prints between the two quotes can end the quotation. *)
Theorem wxsendwu_quoted (wustation wupassword : string) (fwxinterval : Z)
    (stamp : string) (w : wxdat_t) (cmd : string) :
  free_of QUOTE wustation -> free_of QUOTE wupassword ->
  free_of QUOTE stamp ->
  wxsendwu wustation wupassword fwxinterval stamp w = UplinkRun (Some cmd) ->
  exists url : string,
    cmd = (FETCH ++ url ++ "'")%string /\ free_of QUOTE url.
Proof.
  intros Hs Hp Ht H. unfold wxsendwu in H.
  destruct (is_empty wustation || is_empty wupassword); [discriminate|].
  destruct (windgust w) as [wg|]; [|discriminate].
  match type of H with
  | UplinkRun (Some ?text) = _ => assert (Hcmd : cmd = text) by congruence
  end.
  eexists. split; [exact Hcmd|].
  unfold wu_url. pose proof (free_url_measurements w). quote_free.
Qed.

Lemma wxsendwu_quoted_witness :
  exists url : string,
    (FETCH ++ wu_url "KCASANFR1" "secret" 60 "2003-09-30%2007%3A03%3A22"
                sample_bar_temp wind_zero ++ "'")%string
    = (FETCH ++ url ++ "'")%string
    /\ free_of QUOTE url.
Proof.
  apply (wxsendwu_quoted "KCASANFR1" "secret" 60 "2003-09-30%2007%3A03%3A22"
           sample_bar_temp);
    try (apply free_lit; reflexivity).
  reflexivity.
Defined.

(** The command of [wxsendaeris] is [fetch] and one quoted word too: with
    a station name, a password and a date that hold no single quote,
    nothing printed between the two quotes can end the quotation. *)
Theorem wxsendaeris_quoted (aerisstation aerispassword : string)
    (stamp : string) (w : wxdat_t) (cmd : string) :
  free_of QUOTE aerisstation -> free_of QUOTE aerispassword ->
  free_of QUOTE stamp ->
  wxsendaeris aerisstation aerispassword stamp w = UplinkRun (Some cmd) ->
  exists url : string,
    cmd = (FETCH ++ url ++ "'")%string /\ free_of QUOTE url.
Proof.
  intros Hs Hp Ht H. unfold wxsendaeris in H.
  destruct (is_empty aerisstation || is_empty aerispassword); [discriminate|].
  destruct (windgust w) as [wg|]; [|discriminate].
  match type of H with
  | UplinkRun (Some ?text) = _ => assert (Hcmd : cmd = text) by congruence
  end.
  eexists. split; [exact Hcmd|].
  unfold aeris_url. pose proof (free_url_measurements w). quote_free.
Qed.

Lemma wxsendaeris_quoted_witness :
  exists url : string,
    (FETCH ++ aeris_url "MYPWS" "secret" "2003-09-30+07%3A03%3A22"
                sample_bar_temp wind_zero ++ "'")%string
    = (FETCH ++ url ++ "'")%string
    /\ free_of QUOTE url.
Proof.
  apply (wxsendaeris_quoted "MYPWS" "secret" "2003-09-30+07%3A03%3A22"
           sample_bar_temp);
    try (apply free_lit; reflexivity).
  reflexivity.
Defined.

(** ** A complete line *)

Lemma commas_app (a b : string) : commas (a ++ b) = (commas a + commas b)%nat.
Proof.
  unfold commas. rewrite bytes_of_string_app. apply count_occ_app.
Qed.

Lemma commas_free (s : string) : free_of COMMA s -> commas s = 0%nat.
Proof.
  unfold free_of, commas. intros H. apply count_occ_not_In.
  intros Hin. rewrite List.Forall_forall in H. apply (H COMMA Hin).
  reflexivity.
Qed.

Lemma comma_printf : free_of COMMA PRINTF_CHARS.
Proof. apply free_lit. reflexivity. Qed.

Lemma commas_fmt_f (places : nat) (x : spec_float) :
  commas (fmt_f places x) = 0%nat.
Proof. apply commas_free, free_fmt_f, comma_printf. Qed.

Lemma commas_fmt_d (z : Z) : commas (fmt_d z) = 0%nat.
Proof. apply commas_free, free_fmt_d, comma_printf. Qed.

Lemma commas_log_header (w : wxdat_t) : commas (log_header w) = 3%nat.
Proof.
  unfold log_header. rewrite !commas_app, !commas_fmt_d. reflexivity.
Qed.

Lemma commas_visible (items : list log_item) :
  has_missing items = false -> Forall comma_free_item items ->
  commas (visible items) = length items.
Proof.
  induction items as [|it items IH]; intros Hm Hf; [reflexivity|].
  apply Forall_cons in Hf. destruct Hf as [Hit Hrest].
  destruct it as [t|n]; [|discriminate].
  cbn [visible length]. cbn [has_missing existsb orb] in Hm.
  rewrite !commas_app, Hit, (IH Hm Hrest). reflexivity.
Qed.

Lemma comma_free_log_item_of (v : Z) (t : string) :
  commas t = 0%nat -> comma_free_item (log_item_of v t).
Proof.
  intros H. unfold log_item_of. destruct (truthy v); [exact H|exact I].
Qed.

Lemma comma_free_wxlog_items (w : wxdat_t) :
  Forall comma_free_item (wxlog_items w).
Proof.
  unfold wxlog_items.
  destruct (truthy (WXD_ISVALID (windspeed w)));
    repeat first
      [ apply Forall_app; split
      | apply Forall_cons; split
      | apply Forall_nil
      | apply comma_free_log_item_of
      | apply commas_fmt_f
      | apply commas_fmt_d
      | exact I ].
Qed.

Lemma wxlog_items_complete (w : wxdat_t) :
  has_missing (wxlog_items w) = false -> length (wxlog_items w) = 14%nat.
Proof.
  unfold wxlog_items.
  destruct (truthy (WXD_ISVALID (windspeed w))); [reflexivity|].
  intros H. exfalso. cbn [app has_missing existsb] in H.
  rewrite orb_true_r in H. discriminate.
Qed.

(** When no measurement is missing the line is complete: the version and
    time columns and the fourteen values, every one followed by its comma,
    seventeen commas in all. *)
Theorem wxlog_complete_line (junk : Z) (wxlogdir datefile : string)
    (w : wxdat_t) :
  has_missing (wxlog_items w) = false ->
  (wxlog_extent w < FILENAME_MAX)%nat ->
  exists line : string,
    wxlog true junk wxlogdir datefile w
    = Some ((wxlogdir ++ datefile)%string, (line ++ newline)%string)
    /\ commas line = 17%nat.
Proof.
  intros Hm Hroom.
  exists (log_header w ++ visible (wxlog_items w))%string. split.
  - unfold wxlog. f_equal. f_equal.
    rewrite wxlog_line_items by (rewrite length_resize; exact Hroom).
    symmetry. apply string_app_assoc.
  - rewrite commas_app, commas_log_header.
    rewrite commas_visible;
      [|exact Hm|apply comma_free_wxlog_items].
    rewrite wxlog_items_complete by exact Hm. reflexivity.
Qed.

Lemma wxlog_complete_line_witness :
  exists line : string,
    wxlog true 0 "/var/fwx" "/2003.09.30.fwx"
      (snd (default (gust_state0, wxdat_zero 0)
              (cvtvploop2fwx libm_series 10 30 true
                 (vploop_of_bytes record_fair) gust_state0
                 (wxdat_zero 1064905402))))
    = Some (("/var/fwx" ++ "/2003.09.30.fwx")%string,
            (line ++ newline)%string)
    /\ commas line = 17%nat.
Proof.
  apply (wxlog_complete_line 0 "/var/fwx" "/2003.09.30.fwx"
           (snd (default (gust_state0, wxdat_zero 0)
                   (cvtvploop2fwx libm_series 10 30 true
                      (vploop_of_bytes record_fair) gust_state0
                      (wxdat_zero 1064905402))))).
  - vm_compute. reflexivity.
  - vm_compute. lia.
Defined.

(** ** [dumpbuf] *)

Lemma dumpbuf_loop_prefix (p : list Z) :
  p <> [] ->
  forall i buf,
    dumpbuf_loop p i buf = (buf ++ dumpbuf_loop p i EmptyString)%string.
Proof.
  induction p as [|c r IH]; intros Hne i buf; [contradiction|].
  cbn [dumpbuf_loop]. cbv zeta.
  destruct (i + 1 >=? LINELEN / CHARLEN); cbn [orb].
  { cbn [String.append]. rewrite !string_app_assoc. reflexivity. }
  destruct r as [|c' r'].
  { cbn [length Z.of_nat Z.eqb String.append].
    rewrite !string_app_assoc. reflexivity. }
  change (Z.of_nat (length (c' :: r')) =? 0) with false. cbv iota.
  rewrite IH by discriminate.
  rewrite (IH ltac:(discriminate) _ (EmptyString ++ dumpbyte c)%string).
  cbn [String.append]. rewrite string_app_assoc. reflexivity.
Qed.

Lemma hex_pair (c : Z) :
  wire_byte c ->
  16 * hexval (hexdigit (c / 16)) + hexval (hexdigit (c mod 16)) = c.
Proof.
  intros Hc. apply Z.eqb_eq.
  apply (all_from_spec 256
           (fun c => 16 * hexval (hexdigit (c / 16))
                     + hexval (hexdigit (c mod 16)) =? c) 0);
    [vm_compute; reflexivity|unfold wire_byte in Hc; lia].
Qed.

Lemma undump_item (c : Z) (s : string) :
  wire_byte c -> undump (dumpbyte c ++ s) = c :: undump s.
Proof.
  intros Hc. unfold dumpbyte. cbn [String.append undump].
  rewrite hex_pair by exact Hc. reflexivity.
Qed.

Lemma undump_newline (s : string) : undump (newline ++ s) = undump s.
Proof. reflexivity. Qed.

Lemma undump_loop (p : list Z) :
  Forall wire_byte p ->
  forall i, undump (dumpbuf_loop p i EmptyString) = p.
Proof.
  induction p as [|c r IH]; intros Hp i; [reflexivity|].
  apply Forall_cons in Hp. destruct Hp as [Hc Hr].
  cbn [dumpbuf_loop]. cbv zeta. cbn [String.append].
  destruct ((i + 1 >=? LINELEN / CHARLEN) || (Z.of_nat (length r) =? 0))
    eqn:E.
  - rewrite string_app_assoc, undump_item by exact Hc.
    rewrite undump_newline, IH by exact Hr. reflexivity.
  - assert (Hne : r <> []).
    { intros ->. rewrite orb_true_r in E. discriminate. }
    rewrite dumpbuf_loop_prefix by exact Hne.
    rewrite undump_item by exact Hc.
    rewrite IH by exact Hr. reflexivity.
Qed.

(** The dump loses nothing: read back, it gives every byte once and in
    order. *)
Theorem dumpbuf_round_trip (p : list Z) :
  Forall wire_byte p -> undump (dumpbuf p) = p.
Proof. intros Hp. apply undump_loop. exact Hp. Qed.

Lemma dumpbuf_round_trip_witness :
  undump (dumpbuf (VPLOOPCMD ++ [0; 255; 6; 16])) = VPLOOPCMD ++ [0; 255; 6; 16].
Proof.
  apply (dumpbuf_round_trip (VPLOOPCMD ++ [0; 255; 6; 16])).
  apply List.Forall_forall. intros c Hc.
  assert (H : forallb (fun b => (0 <=? b) && (b <? 256))
                (VPLOOPCMD ++ [0; 255; 6; 16]) = true)
    by (vm_compute; reflexivity).
  rewrite forallb_forall in H. specialize (H c Hc).
  apply andb_true_iff in H. unfold wire_byte. lia.
Defined.

(** ** The CWOP packet of a decoded record *)

Lemma exact_rain_hundredths (r : Z) :
  0 <= r < 65535 ->
  int_nearbyintf (f32_mul (f32_div (f32_of_Z r) (f32_of_Z 100))
                          (f32_of_Z 100)) = r.
Proof.
  intros Hr. apply Z.eqb_eq.
  apply (all_from_spec (Z.to_nat 65535)
           (fun r => int_nearbyintf
                       (f32_mul (f32_div (f32_of_Z r) (f32_of_Z 100))
                                (f32_of_Z 100)) =? r) 0);
    [vm_cast_no_check (eq_refl true)|lia].
Qed.

Lemma exact_temp_degrees (r : Z) :
  -1500 < r < 1500 ->
  int_nearbyintf (f32_div (f32_of_Z r) (f32_of_Z 10))
  = round_half_even r 10.
Proof.
  intros Hr. apply Z.eqb_eq.
  apply (all_from_spec (Z.to_nat 2999)
           (fun r => int_nearbyintf (f32_div (f32_of_Z r) (f32_of_Z 10))
                     =? round_half_even r 10) (-1499));
    [vm_cast_no_check (eq_refl true)|lia].
Qed.

Lemma exact_percent (r : Z) :
  0 <= r <= 100 -> int_nearbyintf (f32_of_Z r) = r.
Proof.
  intros Hr. apply Z.eqb_eq.
  apply (all_from_spec 101 (fun r => int_nearbyintf (f32_of_Z r) =? r) 0);
    [vm_cast_no_check (eq_refl true)|lia].
Qed.

Lemma round_tenths_small (r : Z) :
  -1500 < r < 1500 -> -150 <= round_half_even r 10 <= 150.
Proof.
  intros Hr.
  assert (H : (-150 <=? round_half_even r 10)
              && (round_half_even r 10 <=? 150) = true).
  { apply (all_from_spec (Z.to_nat 2999)
             (fun r => (-150 <=? round_half_even r 10)
                       && (round_half_even r 10 <=? 150)) (-1499));
      [vm_cast_no_check (eq_refl true)|lia]. }
  apply andb_true_iff in H. lia.
Qed.

(** The packet as a function of its integers, for a temperature whose
    negation is an [int]. *)
Lemma cwop_packet_text (cf : cwop_conf) (stamp : string) (w : wxdat_t) :
  - 2 ^ 31 < int_nearbyintf (dat (outdoortemp w)) < 2 ^ 31 ->
  cwop_packet cf stamp w
  = option_map
      (fun wg =>
         cwop_text cf stamp (direction (windcur w)) (speed (windcur w))
           (speed wg) (int_nearbyintf (dat (outdoortemp w)))
           (int_nearbyintf (f32_mul (dat (rainday w)) (f32_of_Z 100)))
           (int_nearbyintf (dat (outdoorhum w)))
           (cwop_pressure w) (dat (solar w)))
      (windgust w).
Proof.
  intros Ht. unfold cwop_packet.
  destruct (windgust w); [|reflexivity].
  cbv zeta. rewrite sint32_small by lia. reflexivity.
Qed.

(** The packet of a decoded record carries the record's own integers: the
    wind as received, the temperature in whole degrees (the tenths rounded
    to the nearest, ties to even), the day's rain in hundredths, the
    humidity and the solar radiation as received.  The conversions through
    single precision lose nothing.  Only the gust and the pressure are
    computed. *)
Theorem cwop_packet_exact (lm : libm) (fuel : nat) (iv : Z) (mok : bool)
    (bs : list Z) (g g' : gust_state) (w w' : wxdat_t) (cf : cwop_conf)
    (stamp : string) :
  Forall wire_byte bs ->
  cvtvploop2fwx lm fuel iv mok (vploop_of_bytes bs) g w = Some (g', w') ->
  let ld := vploop_of_bytes bs in
  windSpeed ld <> EIGHT_ONES -> windDir ld <= 360 ->
  temp_ok (tempOut ld) = true -> rainDay ld <> SIXTEEN_ONES ->
  humOut ld <= 100 -> solarRad ld <> SIXTEEN_ONES ->
  cwop_packet cf stamp w'
  = option_map
      (fun wg =>
         cwop_text cf stamp (windDir ld) (windSpeed ld) (speed wg)
           (round_half_even (tempOut ld) 10) (rainDay ld) (humOut ld)
           (cwop_pressure w') (solarRad ld))
      (windgust w').
Proof.
  intros Hbs H. cbn zeta. intros Hws Hwd Hto Hrd Hho Hsr.
  apply cvtvploop2fwx_Some in H. destruct H as [wg Hw].
  unfold cvt_fields in Hw.
  match type of Hw with _ = wxcalcdewpoint lm ?r => set (w0 := r) in * end.
  destruct (wxcalcdewpoint_frame lm w0)
    as (_ & Hwc & _ & _ & _ & _ & _ & _ & _ & _ & Hot & _
        & Hoh & _ & Hrday & _ & _ & Hsol).
  cbn zeta in *. rewrite <- Hw in *. clear Hw.
  pose proof (temp_ok_range _ Hto) as Rto.
  assert (Htemp : int_nearbyintf (dat (outdoortemp w'))
                  = round_half_even (tempOut (vploop_of_bytes bs)) 10).
  { rewrite Hot. subst w0. cbn [outdoortemp]. unfold cvt_field.
    rewrite Hto. cbn [dat]. apply exact_temp_degrees. exact Rto. }
  pose proof (round_tenths_small _ Rto) as Rround.
  rewrite cwop_packet_text by (rewrite Htemp; lia).
  rewrite Htemp.
  rewrite Hwc, Hoh, Hrday, Hsol.
  subst w0. cbn [windcur outdoorhum rainday solar].
  pose proof (ld_u16_range bs 16 Hbs) as R16.
  pose proof (ld_u16_range bs 44 Hbs) as R44.
  pose proof (ld_u16_range bs 50 Hbs) as R50.
  pose proof (ld_byte_range bs 14 Hbs) as R14.
  pose proof (ld_byte_range bs 33 Hbs) as R33.
  unfold cvt_windcur, cvt_field.
  cbn [vploop_of_bytes windSpeed windDir tempOut rainDay humOut solarRad]
    in *.
  unfold ld_u8, SIXTEEN_ONES, EIGHT_ONES in *.
  destruct (Z.eqb_spec (ld_byte bs 14) 255); [contradiction|].
  destruct (Z.leb_spec (ld_u16 bs 16) 360); [|lia].
  destruct (Z.eqb_spec (ld_u16 bs 50) 65535); [contradiction|].
  destruct (Z.eqb_spec (ld_byte bs 33) 255); [lia|].
  destruct (Z.leb_spec (ld_byte bs 33) 100); [|lia].
  destruct (Z.eqb_spec (ld_u16 bs 44) 65535); [contradiction|].
  cbn [negb andb dat set_speed set_direction speed direction].
  rewrite exact_rain_hundredths by lia.
  rewrite exact_percent by lia.
  reflexivity.
Qed.

Lemma cwop_packet_exact_witness :
  exists g' w',
    cvtvploop2fwx libm_series 10 60 true (vploop_of_bytes record_fair)
      gust_state0 (wxdat_zero 0) = Some (g', w')
    /\ cwop_packet cwop_conf0 ">APRS,TCPIP*:@300703" w'
       = option_map
           (fun wg =>
              cwop_text cwop_conf0 ">APRS,TCPIP*:@300703"
                (windDir (vploop_of_bytes record_fair))
                (windSpeed (vploop_of_bytes record_fair)) (speed wg)
                (round_half_even (tempOut (vploop_of_bytes record_fair)) 10)
                (rainDay (vploop_of_bytes record_fair))
                (humOut (vploop_of_bytes record_fair))
                (cwop_pressure w')
                (solarRad (vploop_of_bytes record_fair)))
           (windgust w').
Proof.
  destruct (cvtvploop2fwx libm_series 10 60 true (vploop_of_bytes record_fair)
              gust_state0 (wxdat_zero 0)) as [[g' w']|] eqn:E;
    [|vm_compute in E; discriminate].
  exists g', w'. split; [reflexivity|].
  assert (Hb : Forall wire_byte record_fair).
  { apply List.Forall_forall. intros b Hb.
    assert (Hall : forallb (fun b => (0 <=? b) && (b <? 256)) record_fair
                   = true) by (vm_compute; reflexivity).
    rewrite forallb_forall in Hall. specialize (Hall b Hb).
    apply andb_true_iff in Hall. unfold wire_byte. lia. }
  refine (cwop_packet_exact libm_series 10 60 true record_fair gust_state0 g'
            (wxdat_zero 0) w' cwop_conf0 ">APRS,TCPIP*:@300703" Hb E
            _ _ _ _ _ _).
  - vm_compute. discriminate.
  - vm_compute. discriminate.
  - vm_compute. reflexivity.
  - vm_compute. discriminate.
  - vm_compute. discriminate.
  - vm_compute. discriminate.
Defined.

(** ** [wxwakeup] *)

(** What a successful wake-up guarantees: the newline went out, no call
    failed, and of the two bytes of [resp] (what the station sent within
    the time, then what the array held before) the first is a carriage
    return or a newline, or the second is. *)
Theorem wxwakeup_success (env : oracle) (fuel : nat) (d d' : dev) :
  wxwakeup env fuel d = Some (0, d') ->
  writes_of (trace d') = writes_of (trace d) ++ [[NL]]
  /\ exists chunks : list (list Z),
       reads_of (trace d') = reads_of (trace d) ++ map Some chunks
       /\ (length (concat chunks) <= 2)%nat
       /\ let resp := concat chunks
                      ++ drop (length (concat chunks))
                           [o_stack env (n_stack d);
                            o_stack env (S (n_stack d))] in
          nth 0 resp 0 = CR \/ nth 1 resp 0 = NL
          \/ nth 0 resp 0 = NL \/ nth 1 resp 0 = CR.
Proof.
  intros H. split; [apply (wxwakeup_zero_writes env fuel); exact H|].
  unfold wxwakeup in H.
  io_inv H r0 d1 Hflush.
  assert (Hr1 : reads_of (trace d1) = reads_of (trace d)
                /\ n_stack d1 = n_stack d).
  { unfold wxflush in Hflush. io_inv Hflush ok da Hget.
    inversion Hget as [[Hok Hda]]. clear Hget.
    destruct (negb ok).
    { apply io_ret_Some in Hflush. destruct Hflush as [_ ->].
      rewrite <- Hda. split; reflexivity. }
    io_inv Hflush ok' db Hset. inversion Hset as [[Hok' Hdb]]. clear Hset.
    assert (Hb : reads_of (trace db) = reads_of (trace d)
                 /\ n_stack db = n_stack d).
    { rewrite <- Hdb, <- Hda. cbn [trace n_stack n_tcset].
      split; [|reflexivity].
      destruct (o_tcset env (n_tcset d) && true); [|reflexivity].
      rewrite reads_of_app. cbn. apply app_nil_r. }
    destruct (negb ok'); apply io_ret_Some in Hflush;
      destruct Hflush as [_ ->]; exact Hb. }
  destruct Hr1 as [Hr1 Hs1].
  destruct (negb (r0 =? 0)).
  { apply io_ret_Some in H. destruct H as [H _]. discriminate. }
  io_inv H rc d2 Hwrite.
  assert (Hr2 : reads_of (trace d2) = reads_of (trace d1)
                /\ n_stack d2 = n_stack d1).
  { unfold sys_write in Hwrite. inversion Hwrite. cbn [trace n_stack].
    rewrite reads_of_app. cbn. rewrite app_nil_r. split; reflexivity. }
  destruct Hr2 as [Hr2 Hs2].
  destruct (negb (rc =? 1)).
  { apply io_ret_Some in H. destruct H as [H _]. discriminate. }
  io_inv H resp0 d3 Hal. apply alloca_reads in Hal.
  destruct Hal as [Hr3 ->]. cbn [seq map] in H.
  io_inv H x d4 Hread. destruct x as [rr resp].
  destruct (Z.eqb_spec rr (-1)) as [|Hrr].
  { apply io_ret_Some in H. destruct H as [H _]. discriminate. }
  apply wxread_chunks in Hread; [|cbn; lia|exact Hrr].
  destruct Hread as (chunks & Htr & Hcnt & Hle & Hbuf).
  destruct (_ && _) eqn:E; apply io_ret_Some in H; destruct H as [H ->];
    [discriminate|].
  exists chunks. rewrite Htr, Hr3, Hr2, Hr1.
  split; [reflexivity|]. split; [lia|].
  cbn zeta. rewrite Hs2, Hs1, Nat.add_0_r, Nat.add_1_r in Hbuf.
  rewrite <- Hbuf.
  destruct (Z.eqb_spec (nth 0 resp 0) CR); [tauto|].
  destruct (Z.eqb_spec (nth 1 resp 0) NL); [tauto|].
  destruct (Z.eqb_spec (nth 0 resp 0) NL); [tauto|].
  destruct (Z.eqb_spec (nth 1 resp 0) CR); [tauto|].
  discriminate.
Qed.

Lemma wxwakeup_success_witness :
  writes_of (trace (snd (default (0, dev0)
                           (wxwakeup (station [Some [10; 13]] 0) 8 dev0))))
  = writes_of (trace dev0) ++ [[NL]]
  /\ exists chunks : list (list Z),
       reads_of (trace (snd (default (0, dev0)
                               (wxwakeup (station [Some [10; 13]] 0) 8
                                  dev0))))
       = reads_of (trace dev0) ++ map Some chunks
       /\ (length (concat chunks) <= 2)%nat
       /\ let resp := concat chunks
                      ++ drop (length (concat chunks))
                           [o_stack (station [Some [10; 13]] 0)
                              (n_stack dev0);
                            o_stack (station [Some [10; 13]] 0)
                              (S (n_stack dev0))] in
          nth 0 resp 0 = CR \/ nth 1 resp 0 = NL
          \/ nth 0 resp 0 = NL \/ nth 1 resp 0 = CR.
Proof.
  apply (wxwakeup_success (station [Some [10; 13]] 0) 8 dev0).
  vm_compute. reflexivity.
Defined.
